(** * Ingredient parsing, consolidation and reminder export

    A shallow embedding of the shopping-list core of the recipe site:
    [IngredientProcessor], [ShoppingListGenerator], [ReminderFormatter],
    [ShoppingListValidator], [ShoppingListManager], the search of
    [RecipeManager] and the cook time of [BBQCalculator], followed by the
    properties of these functions.

    Conventions of the embedding.
    - A JavaScript number is an IEEE 754 binary64 value: Rocq's primitive
      [float], with its correctly rounded arithmetic, NaN and the
      infinities.  Decimal text is read with correct rounding;
      [Number.prototype.toString] is the shortest decimal that reads back.
    - A JavaScript string is a [string] of bytes (UTF-8).  The character
      classes [\d], [\w], [\s], the white space of [trim] and the case
      mappings are those of JavaScript on ASCII text; bytes above 127 are
      left untouched.
    - The regular expressions of the processor are matchers that take the
      longest run of each class, which is what the backtracking matcher
      finds for them.
    - [null], [undefined], non-strings, non-arrays: an argument on which the
      code makes dynamic checks is of type [JS.value], or of an option or
      sum type that keeps exactly the cases the code tells apart.
    - An ingredient record has the fields the code reads and writes.  Its
      quantity is [null] or a number, its item, unit and category may be
      missing, and its unit may be a member of [Object.prototype], which is
      what the lookup [unitMap[token]] finds for the tokens [constructor]
      and [__proto__].
    - A function that can throw inside a [try] returns a [JS.thrown]; the
      messages are the engine's and no statement depends on their text
      beyond the prefix the code adds.
    - The clock ([new Date()]) is an explicit argument, and so are the
      random id of a saved list and the repository of recipes: what
      [getAllRecipes] returns, and [getRecipeById] as a function.
    - The [Map] of the saved lists is an association list in the order of
      insertion, which the functions that change it take and return. *)

From Stdlib Require Import ZArith Floats String Ascii List Bool Lia.
From Stdlib Require Import Permutation Sorted.
Import ListNotations.
Set Warnings "-inexact-float,-register-all".
Local Open Scope string_scope.
Local Open Scope bool_scope.

(* ================================================================== *)
(** * The JavaScript base: strings, numbers, values *)

Module JS.

(** ** Characters *)

Definition code (c : ascii) : nat := nat_of_ascii c.

(** [\d] *)
Definition isDigit (c : ascii) : bool :=
  (48 <=? code c)%nat && (code c <=? 57)%nat.

Definition isUpper (c : ascii) : bool :=
  (65 <=? code c)%nat && (code c <=? 90)%nat.

Definition isLower (c : ascii) : bool :=
  (97 <=? code c)%nat && (code c <=? 122)%nat.

(** [\w] is [A-Za-z0-9_] *)
Definition isWord (c : ascii) : bool :=
  isDigit c || isUpper c || isLower c || (code c =? 95)%nat.

(** [\s], and the white space [trim] removes: TAB, LF, VT, FF, CR, space *)
Definition isSpace (c : ascii) : bool :=
  ((9 <=? code c)%nat && (code c <=? 13)%nat) || (code c =? 32)%nat.

Definition lowerChar (c : ascii) : ascii :=
  if isUpper c then ascii_of_nat (code c + 32) else c.

Definition upperChar (c : ascii) : ascii :=
  if isLower c then ascii_of_nat (code c - 32) else c.

(** ** Strings *)

Fixpoint smap (f : ascii -> ascii) (s : string) : string :=
  match s with
  | EmptyString => EmptyString
  | String c r => String (f c) (smap f r)
  end.

Definition toLowerCase : string -> string := smap lowerChar.
Definition toUpperCase : string -> string := smap upperChar.

Fixpoint takeWhile (p : ascii -> bool) (s : string) : string :=
  match s with
  | EmptyString => EmptyString
  | String c r => if p c then String c (takeWhile p r) else EmptyString
  end.

Fixpoint dropWhile (p : ascii -> bool) (s : string) : string :=
  match s with
  | EmptyString => EmptyString
  | String c r => if p c then dropWhile p r else s
  end.

Fixpoint sall (p : ascii -> bool) (s : string) : bool :=
  match s with
  | EmptyString => true
  | String c r => p c && sall p r
  end.

Definition isEmpty (s : string) : bool :=
  match s with EmptyString => true | _ => false end.

Fixpoint trimEnd (s : string) : string :=
  match s with
  | EmptyString => EmptyString
  | String c r =>
      let t := trimEnd r in
      if isSpace c && isEmpty t then EmptyString else String c t
  end.

Definition trimStart : string -> string := dropWhile isSpace.

(** [s.trim()] *)
Definition trim (s : string) : string := trimEnd (trimStart s).

(** [s.substring(n)] *)
Fixpoint substringFrom (n : nat) (s : string) : string :=
  match n, s with
  | O, _ => s
  | S n', String _ r => substringFrom n' r
  | S _, EmptyString => EmptyString
  end.

(** [s.includes(t)] *)
Fixpoint includes (s t : string) : bool :=
  prefix t s ||
  match s with
  | EmptyString => false
  | String _ r => includes r t
  end.

(** The text after a leading [ch], when [s] starts with [ch]. *)
Definition afterChar (ch : ascii) (s : string) : option string :=
  match s with
  | String c r => if Ascii.eqb c ch then Some r else None
  | EmptyString => None
  end.

(** The line feed, ['\n']. *)
Definition newline : string := String "010" EmptyString.

(** [parts.join(sep)] *)
Definition join (sep : string) (parts : list string) : string :=
  String.concat sep parts.

Definition hexDigit (n : nat) : ascii :=
  if (n <? 10)%nat then ascii_of_nat (48 + n) else ascii_of_nat (55 + n).

(** The characters [encodeURIComponent] keeps: [A-Za-z0-9] and [-_.!~*'()]. *)
Definition isUnreserved (c : ascii) : bool :=
  isDigit c || isUpper c || isLower c ||
  existsb (fun k => (code c =? k)%nat) [45; 95; 46; 33; 126; 42; 39; 40; 41]%nat.

(** [encodeURIComponent(s)]: every other byte of the UTF-8 text becomes
    [%XX]. *)
Fixpoint encodeURIComponent (s : string) : string :=
  match s with
  | EmptyString => EmptyString
  | String c r =>
      if isUnreserved c then String c (encodeURIComponent r)
      else String "%" (String (hexDigit (code c / 16))
             (String (hexDigit (code c mod 16)) (encodeURIComponent r)))
  end.

(** ** Numbers *)

(** The double nearest to an integer, and to a quotient of two positive
    integers (round to nearest, ties to even). *)
Definition Z2F (z : Z) : float :=
  SF2Prim (binary_normalize prec emax z 0 false).

Definition Q2F (p q : positive) : float :=
  SF2Prim (SFdiv prec emax (S754_finite false p 0) (S754_finite false q 0)).

Fixpoint ndigitsFuel (fuel : nat) (z : Z) : nat :=
  match fuel with
  | O => 1
  | S f => if (z <? 10)%Z then 1 else S (ndigitsFuel f (z / 10))
  end.

(** Number of decimal digits of a positive integer. *)
Definition ndigits (z : Z) : nat := ndigitsFuel (S (Z.to_nat (Z.log2 z))) z.

(** The double nearest to [m * 10^e], for [0 <= m]. *)
Definition decimal2F (m e : Z) : float :=
  match m with
  | Zpos p =>
      if (400 <? e)%Z then infinity
      else if (e + Z.of_nat (ndigits m) <? -400)%Z then 0%float
      else if (0 <=? e)%Z then Z2F (m * 10 ^ e)
      else Q2F p (Z.to_pos (10 ^ (- e)))
  | _ => 0%float
  end.

Definition digitValue (c : ascii) : Z := Z.of_nat (code c - 48).

Fixpoint digitsValue (acc : Z) (s : string) : Z :=
  match s with
  | EmptyString => acc
  | String c r => digitsValue (10 * acc + digitValue c) r
  end.

Definition isHexDigit (c : ascii) : bool :=
  isDigit c || ((65 <=? code c)%nat && (code c <=? 70)%nat)
            || ((97 <=? code c)%nat && (code c <=? 102)%nat).

Definition hexValue (c : ascii) : Z :=
  if isDigit c then digitValue c
  else if isUpper c then Z.of_nat (code c - 55) else Z.of_nat (code c - 87).

Fixpoint hexDigitsValue (acc : Z) (s : string) : Z :=
  match s with
  | EmptyString => acc
  | String c r => hexDigitsValue (16 * acc + hexValue c) r
  end.

(** An optional sign: [true] for [-]. *)
Definition splitSign (s : string) : bool * string :=
  match s with
  | String "-" r => (true, r)
  | String "+" r => (false, r)
  | _ => (false, s)
  end.

Definition withSign (neg : bool) (x : float) : float :=
  if neg then PrimFloat.opp x else x.

(** [parseInt(s)], no radix given. *)
Definition parseInt (s : string) : float :=
  let (neg, r) := splitSign (trimStart s) in
  if prefix "0x" r || prefix "0X" r then
    let ds := takeWhile isHexDigit (substringFrom 2 r) in
    if isEmpty ds then nan else withSign neg (Z2F (hexDigitsValue 0 ds))
  else
    let ds := takeWhile isDigit r in
    if isEmpty ds then nan else withSign neg (Z2F (digitsValue 0 ds)).

(** The exponent part of a decimal literal: [e] or [E], an optional sign,
    digits.  Absent or malformed, the exponent is 0. *)
Definition exponentPart (s : string) : Z :=
  match s with
  | String c r =>
      if (Ascii.eqb c "e" || Ascii.eqb c "E") then
        let (neg, r') := splitSign r in
        let ds := takeWhile isDigit r' in
        if isEmpty ds then 0%Z
        else if neg then (- digitsValue 0 ds)%Z else digitsValue 0 ds
      else 0%Z
  | EmptyString => 0%Z
  end.

(** [parseFloat(s)]: the longest prefix of the trimmed text that is a
    decimal literal; [NaN] when there is none. *)
Definition parseFloat (s : string) : float :=
  let (neg, r) := splitSign (trimStart s) in
  if prefix "Infinity" r then withSign neg infinity
  else
    let ip := takeWhile isDigit r in
    let r1 := dropWhile isDigit r in
    let (fp, r2) :=
      match afterChar "." r1 with
      | Some r' => (takeWhile isDigit r', dropWhile isDigit r')
      | None => (EmptyString, r1)
      end in
    if isEmpty ip && isEmpty fp then nan
    else
      withSign neg
        (decimal2F (digitsValue 0 (ip ++ fp))
                   (exponentPart r2 - Z.of_nat (String.length fp))).

(** [Math.floor(x)] *)
Definition Math_floor (x : float) : float :=
  match Prim2SF x with
  | S754_finite s m e =>
      if (0 <=? e)%Z then x
      else Z2F (Z.shiftr (cond_Zopp s (Zpos m)) (- e))
  | _ => x
  end.

(** [Math.round(x)]: the nearest integer, halves towards +Infinity. *)
Definition Math_round (x : float) : float :=
  match Prim2SF x with
  | S754_finite s m e =>
      if (0 <=? e)%Z then x
      else
        let r := ((2 * cond_Zopp s (Zpos m) + 2 ^ (- e)) / 2 ^ (- e + 1))%Z in
        if (r =? 0)%Z then (if s then (-0)%float else 0%float) else Z2F r
  | _ => x
  end.

Definition Math_abs (x : float) : float := PrimFloat.abs x.

(** [x % 1]: the fractional part, with the sign of [x]. *)
Definition rem1 (x : float) : float :=
  match Prim2SF x with
  | S754_nan | S754_infinity _ => nan
  | S754_zero _ => x
  | S754_finite s m e =>
      if (0 <=? e)%Z then (if s then (-0)%float else 0%float)
      else SF2Prim (binary_normalize prec emax
                      (cond_Zopp s (Zpos m mod 2 ^ (- e))) e s)
  end.

(** *** [Number.prototype.toString] *)

Definition digitChar (d : Z) : ascii := ascii_of_nat (48 + Z.to_nat d).

Fixpoint digitsOfFuel (fuel : nat) (z : Z) (acc : string) : string :=
  match fuel with
  | O => acc
  | S f =>
      let acc' := String (digitChar (z mod 10)) acc in
      if (z <? 10)%Z then acc' else digitsOfFuel f (z / 10) acc'
  end.

(** The decimal digits of a non-negative integer. *)
Definition digitsOf (z : Z) : string :=
  digitsOfFuel (S (Z.to_nat (Z.log2 z))) z EmptyString.

Fixpoint zeros (n : nat) : string :=
  match n with
  | O => EmptyString
  | S k => String "0" (zeros k)
  end.

(** [p/q >= 10^j] *)
Definition geqPow10 (p q j : Z) : bool :=
  if (0 <=? j)%Z then (q * 10 ^ j <=? p)%Z else (q <=? p * 10 ^ (- j))%Z.

(** The [n] with [10^(n-1) <= p/q < 10^n]. *)
Definition decimalPosition (p q : Z) : Z :=
  let d := (Z.of_nat (ndigits p) - Z.of_nat (ndigits q))%Z in
  if geqPow10 p q d then (d + 1)%Z else d.

(** The shortest digits: the least [k], and the [k]-digit integer [s] and
    position [n], such that [s * 10^(n-k)] reads back as [x]; of two
    candidates the nearer to [x], the even one on a tie. *)
Fixpoint shortestFrom (fuel : nat) (k : Z) (x : float) (p q n0 : Z)
  : Z * Z * Z :=
  match fuel with
  | O => (0, 1, 0)%Z
  | S f =>
      let sh := (k - n0)%Z in
      let P := if (0 <=? sh)%Z then (p * 10 ^ sh)%Z else p in
      let Q := if (0 <=? sh)%Z then q else (q * 10 ^ (- sh))%Z in
      let lo := (P / Q)%Z in
      let hi := (lo + 1)%Z in
      let back s := PrimFloat.eqb (decimal2F s (n0 - k)) x in
      let loFirst :=
        match (2 * (P mod Q) ?= Q)%Z with
        | Lt => true
        | Gt => false
        | Eq => Z.even lo
        end in
      let pick s :=
        if (s =? 10 ^ k)%Z then (10 ^ (k - 1), k, n0 + 1)%Z else (s, k, n0) in
      if loFirst then
        if back lo then pick lo
        else if back hi then pick hi
        else shortestFrom f (k + 1) x p q n0
      else
        if back hi then pick hi
        else if back lo then pick lo
        else shortestFrom f (k + 1) x p q n0
  end.

Definition formatDigits (s k n : Z) : string :=
  let ds := digitsOf s in
  if ((k <=? n) && (n <=? 21))%Z then ds ++ zeros (Z.to_nat (n - k))
  else if ((0 <? n) && (n <=? 21))%Z then
    substring 0 (Z.to_nat n) ds ++ "." ++ substringFrom (Z.to_nat n) ds
  else if ((-6 <? n) && (n <=? 0))%Z then
    "0." ++ zeros (Z.to_nat (- n)) ++ ds
  else
    let e := (n - 1)%Z in
    let es := (if (e <? 0)%Z then "-" else "+") ++ digitsOf (Z.abs e) in
    if (k =? 1)%Z then ds ++ "e" ++ es
    else substring 0 1 ds ++ "." ++ substringFrom 1 ds ++ "e" ++ es.

(** [x.toString()] for a number [x] *)
Definition numberToString (x : float) : string :=
  match Prim2SF x with
  | S754_nan => "NaN"
  | S754_zero _ => "0"
  | S754_infinity s => if s then "-Infinity" else "Infinity"
  | S754_finite sg m e =>
      let p := if (0 <=? e)%Z then (Zpos m * 2 ^ e)%Z else Zpos m in
      let q := if (0 <=? e)%Z then 1%Z else (2 ^ (- e))%Z in
      let '(s, k, n) :=
        shortestFrom 17 1 (PrimFloat.abs x) p q (decimalPosition p q) in
      (if sg then "-" else "") ++ formatDigits s k n
  end.

(** ** Values *)

Inductive value : Type :=
  | VUndefined
  | VNull
  | VBool (b : bool)
  | VNum (n : float)
  | VStr (s : string)
  | VArr (elems : list value)
  | VObj (props : list (string * value)).

(** [!!v] *)
Definition truthy (v : value) : bool :=
  match v with
  | VUndefined | VNull => false
  | VBool b => b
  | VNum n => negb (PrimFloat.eqb n 0 || PrimFloat.is_nan n)
  | VStr s => negb (isEmpty s)
  | VArr _ | VObj _ => true
  end.

Definition isString (v : value) : bool :=
  match v with VStr _ => true | _ => false end.

(** [a || b] *)
Definition orElse (a b : value) : value := if truthy a then a else b.

(** [String(v)], as a template literal converts [v] *)
Fixpoint toString (v : value) : string :=
  match v with
  | VUndefined => "undefined"
  | VNull => "null"
  | VBool b => if b then "true" else "false"
  | VNum n => numberToString n
  | VStr s => s
  | VArr l =>
      join ","
        (map (fun e => match e with
                       | VUndefined | VNull => EmptyString
                       | _ => toString e
                       end) l)
  | VObj _ => "[object Object]"
  end.

Fixpoint assoc {A : Type} (k : string) (l : list (string * A)) : option A :=
  match l with
  | [] => None
  | (k', a) :: r => if String.eqb k k' then Some a else assoc k r
  end.

(** [v.k] for a value that is neither [null] nor [undefined]: an own
    property of an object; primitives and arrays have none of the names
    the code asks for. *)
Definition getProp (v : value) (k : string) : value :=
  match v with
  | VObj props => match assoc k props with Some x => x | None => VUndefined end
  | _ => VUndefined
  end.

(** The members every object literal inherits from [Object.prototype]: a
    lookup [o[k]] with one of these names finds a function (an object for
    [__proto__]) when [o] has no own property [k]. *)
Definition objectPrototypeNames : list string :=
  [ "constructor"; "__defineGetter__"; "__defineSetter__"; "hasOwnProperty";
    "__lookupGetter__"; "__lookupSetter__"; "isPrototypeOf";
    "propertyIsEnumerable"; "toString"; "valueOf"; "__proto__";
    "toLocaleString" ].

Definition isInherited (k : string) : bool :=
  existsb (String.eqb k) objectPrototypeNames.

(** [String(o[k])] for an inherited member. *)
Definition inheritedText (k : string) : string :=
  if String.eqb k "__proto__" then "[object Object]"
  else if String.eqb k "constructor" then "function Object() { [native code] }"
  else "function " ++ k ++ "() { [native code] }".

(** A computation that may throw; the message is the engine's. *)
Inductive thrown (A : Type) : Type :=
  | Ok (a : A)
  | Throw (message : string).
Arguments Ok {A} a.
Arguments Throw {A} message.

Definition bind {A B : Type} (m : thrown A) (k : A -> thrown B) : thrown B :=
  match m with
  | Ok a => k a
  | Throw e => Throw e
  end.

(** An argument that the code expects to be an array: [NotArray] is any
    value on which [Array.isArray] is false. *)
Inductive arg (A : Type) : Type :=
  | NotArray
  | Array (elems : list A).
Arguments NotArray {A}.
Arguments Array {A} elems.

(** The result objects [{ success, ... }]. *)
Inductive result (A : Type) : Type :=
  | Success (a : A)
  | Failure (error : string) (details : option string).
Arguments Success {A} a.
Arguments Failure {A} error details.

Definition timestamp : Type := Z.

(** [typeof v === 'object'], for a [v] that is not [null]. *)
Definition isObject (v : value) : bool :=
  match v with
  | VArr _ | VObj _ => true
  | _ => false
  end.

(** [isFinite(x)] for a number [x] *)
Definition isFinite (x : float) : bool :=
  negb (PrimFloat.is_nan x || PrimFloat.is_infinity x).

(** [l.join(sep)] for an array of values: [null] and [undefined] give the
    empty text. *)
Definition arrayJoin (sep : string) (l : list value) : string :=
  join sep
    (map (fun e => match e with
                   | VUndefined | VNull => EmptyString
                   | _ => toString e
                   end) l).

(** The UTF-16 code units a byte of UTF-8 text stands for: none for a
    continuation byte, two for the lead byte of a four-byte sequence. *)
Definition utf16Units (c : ascii) : nat :=
  if (code c <? 128)%nat then 1
  else if (code c <? 192)%nat then 0
  else if (code c <? 240)%nat then 1
  else 2.

(** [s.length] *)
Fixpoint utf16Length (s : string) : nat :=
  match s with
  | EmptyString => O
  | String c r => (utf16Units c + utf16Length r)%nat
  end.

(** The digits of [n] with a point before the last [f] of them, padded
    with zeros on the left so that a digit stands before the point. *)
Definition fixedDigits (n : Z) (f : nat) : string :=
  let m := digitsOf n in
  match f with
  | O => m
  | S _ =>
      let k := String.length m in
      let m := if (k <=? f)%nat then zeros (f + 1 - k) ++ m else m in
      let k := String.length m in
      substring 0 (k - f) m ++ "." ++ substringFrom (k - f) m
  end.

(** [x.toFixed(f)], for [0 <= f <= 100]: below [10^21], the integer [n]
    nearest to [x * 10^f], the larger one of two, written with [f]
    decimals. *)
Definition toFixed (x : float) (f : nat) : string :=
  match Prim2SF x with
  | S754_finite s m e =>
      if PrimFloat.leb 1e21 (PrimFloat.abs x) then numberToString x
      else
        let p := (Zpos m * 10 ^ Z.of_nat f)%Z in
        let n :=
          if (0 <=? e)%Z then (p * 2 ^ e)%Z
          else ((2 * p + 2 ^ (- e)) / (2 * 2 ^ (- e)))%Z in
        (if s then "-" else "") ++ fixedDigits n f
  | S754_zero _ => fixedDigits 0 f
  | _ => numberToString x
  end.

(** [s.replace(re, '')] for a global regular expression [re] that matches
    no empty text: [m t] is the length of the match of [re] at the head of
    [t], if there is one.  The scan goes from left to right and resumes
    after each match; [skip] counts the characters of the current match
    that are still to be dropped. *)
Fixpoint removeAll (m : string -> option nat) (skip : nat) (s : string)
  : string :=
  match s with
  | EmptyString => EmptyString
  | String c r =>
      match skip with
      | S k => removeAll m k r
      | O =>
          match m s with
          | Some (S k) => removeAll m k r
          | _ => String c (removeAll m O r)
          end
      end
  end.

(** [map.set(key, v)] on a [Map] with string keys, kept in insertion
    order: the value of a present key is replaced where it stands, a new
    key goes last. *)
Fixpoint mapSet {A : Type} (m : list (string * A)) (key : string) (v : A)
  : list (string * A) :=
  match m with
  | [] => [(key, v)]
  | (k, x) :: r =>
      if String.eqb key k then (k, v) :: r else (k, x) :: mapSet r key v
  end.

(** [map.delete(key)] *)
Fixpoint mapDelete {A : Type} (m : list (string * A)) (key : string)
  : list (string * A) :=
  match m with
  | [] => []
  | (k, x) :: r =>
      if String.eqb key k then r else (k, x) :: mapDelete r key
  end.

(** [l.sort((a, b) => key(b) - key(a))]: the sort is stable, so of two
    elements with equal keys the one that stood first stays first. *)
Fixpoint insertDescending {A : Type} (key : A -> Z) (x : A) (sorted : list A)
  : list A :=
  match sorted with
  | [] => [x]
  | y :: r =>
      if (key x <=? key y)%Z then y :: insertDescending key x r
      else x :: sorted
  end.

Definition sortDescending {A : Type} (key : A -> Z) (l : list A) : list A :=
  fold_left (fun sorted x => insertDescending key x sorted) l [].

End JS.

(* ================================================================== *)
(** * IngredientProcessor *)

Module IngredientProcessor.
Import JS.

Definition unitMap : list (string * string) :=
  [ (* Volume *)
    ("tbsp", "tablespoon"); ("tablespoons", "tablespoon");
    ("tsp", "teaspoon"); ("teaspoons", "teaspoon");
    ("cup", "cup"); ("cups", "cup");
    ("pt", "pint"); ("pint", "pint"); ("pints", "pint");
    ("qt", "quart"); ("quart", "quart"); ("quarts", "quart");
    ("gal", "gallon"); ("gallon", "gallon"); ("gallons", "gallon");
    (* Weight *)
    ("oz", "ounce"); ("ounce", "ounce"); ("ounces", "ounce");
    ("lb", "pound"); ("lbs", "pound"); ("pound", "pound");
    ("pounds", "pound");
    (* Length *)
    ("in", "inch"); ("inch", "inch"); ("inches", "inch") ].

Definition categoryMap : list (string * list string) :=
  [ ("meat",
     [ "beef"; "pork"; "chicken"; "turkey"; "lamb"; "fish"; "salmon"; "tuna";
       "shrimp"; "brisket"; "ribs"; "steak"; "ground beef"; "ground pork";
       "bacon"; "sausage" ]);
    ("vegetables",
     [ "onion"; "onions"; "carrot"; "carrots"; "celery"; "bell pepper";
       "peppers"; "mushroom"; "mushrooms"; "tomato"; "tomatoes"; "potato";
       "potatoes"; "ginger"; "jalapeño"; "jalapeños" ]);
    ("spices",
     [ "salt"; "pepper"; "paprika"; "cumin"; "chili powder"; "garlic powder";
       "onion powder"; "oregano"; "thyme"; "rosemary"; "bay leaves";
       "cayenne"; "black pepper"; "white pepper"; "red pepper flakes";
       "vanilla" ]);
    ("dairy",
     [ "milk"; "butter"; "cheese"; "cream"; "yogurt"; "sour cream";
       "cream cheese" ]);
    ("pantry",
     [ "flour"; "sugar"; "brown sugar"; "honey"; "oil"; "olive oil";
       "vinegar"; "soy sauce"; "worcestershire"; "ketchup"; "mustard";
       "bbq sauce"; "sauce" ]) ].

(** The value of a [unit] field: a string, or the member of
    [Object.prototype] that [unitMap[token]] finds for the tokens
    [constructor] and [__proto__]. *)
Inductive unit_value : Type :=
  | Unit (name : string)
  | Inherited (name : string).

Record IngredientLine : Type := {
  quantity : option float;
  unit : option unit_value;
  item : option string;
  originalText : option string;
  category : option string;
  consolidated : bool;
  scaled : bool;
  originalQuantity : option (option float)
}.

(** [this.unitMap[k]]: an own entry, else an inherited member. *)
Definition unitLookup (k : string) : option unit_value :=
  match assoc k unitMap with
  | Some u => Some (Unit u)
  | None => if isInherited k then Some (Inherited k) else None
  end.

Definition unitTruthy (u : option unit_value) : bool :=
  match u with
  | None => false
  | Some (Unit s) => negb (isEmpty s)
  | Some (Inherited _) => true
  end.

(** [String(u)] for a truthy unit. *)
Definition unitText (u : unit_value) : string :=
  match u with
  | Unit s => s
  | Inherited k => inheritedText k
  end.

Definition normalizeUnit (unit : string) : option unit_value :=
  if isEmpty unit then None
  else
    let normalized := unitLookup (toLowerCase unit) in
    if unitTruthy normalized then normalized else Some (Unit unit).

Definition categorizeIngredient (item : string) : string :=
  if isEmpty item then "pantry"
  else
    let lowerItem := toLowerCase item in
    match
      find (fun entry : string * list string =>
              existsb (fun categoryItem => includes lowerItem categoryItem)
                      (snd entry))
           categoryMap
    with
    | Some (category, _) => category
    | None => "pantry" (* Default category *)
    end.

(** [/^(\d+)\s+(\d+)\/(\d+)$/]: every quantifier is greedy over a class
    that excludes the character that must follow it, so the match, when
    there is one, is the maximal-munch one. *)
Definition matchMixed (str : string) : option (string * string * string) :=
  let whole := takeWhile isDigit str in
  let r1 := dropWhile isDigit str in
  let sp := takeWhile isSpace r1 in
  let r2 := dropWhile isSpace r1 in
  let num := takeWhile isDigit r2 in
  match afterChar "/" (dropWhile isDigit r2) with
  | Some r3 =>
      let den := takeWhile isDigit r3 in
      if negb (isEmpty whole) && negb (isEmpty sp) && negb (isEmpty num)
         && negb (isEmpty den) && isEmpty (dropWhile isDigit r3)
      then Some (whole, num, den)
      else None
  | None => None
  end.

(** [/^(\d+)\/(\d+)$/] *)
Definition matchSimple (str : string) : option (string * string) :=
  let num := takeWhile isDigit str in
  match afterChar "/" (dropWhile isDigit str) with
  | Some r =>
      let den := takeWhile isDigit r in
      if negb (isEmpty num) && negb (isEmpty den)
         && isEmpty (dropWhile isDigit r)
      then Some (num, den)
      else None
  | None => None
  end.

Definition parseFraction (fractionStr : string) : option float :=
  if isEmpty fractionStr then None
  else
    let str := trim fractionStr in
    (* Handle mixed numbers (e.g., "2 1/2") *)
    match matchMixed str with
    | Some (w, n, d) =>
        let whole := parseInt w in
        let numerator := parseInt n in
        let denominator := parseInt d in
        Some (whole + numerator / denominator)%float
    | None =>
        (* Handle simple fractions (e.g., "1/2") *)
        match matchSimple str with
        | Some (n, d) =>
            let numerator := parseInt n in
            let denominator := parseInt d in
            Some (numerator / denominator)%float
        | None =>
            (* Handle regular numbers (including decimals) *)
            let number := parseFloat str in
            if PrimFloat.is_nan number then None else Some number
        end
    end.

(** The optional group [(?:\s+\d+\/\d+|\.\d+|\/\d+)?] at the head of [r]:
    the text it takes.  The three alternatives start with different
    characters, so at most one can match; when none does the group is
    empty. *)
Definition quantityTail (r : string) : string :=
  match r with
  | String c r' =>
      if isSpace c then
        let sp := takeWhile isSpace r in
        let r1 := dropWhile isSpace r in
        let num := takeWhile isDigit r1 in
        match afterChar "/" (dropWhile isDigit r1) with
        | Some r2 =>
            let den := takeWhile isDigit r2 in
            if negb (isEmpty num) && negb (isEmpty den)
            then sp ++ num ++ "/" ++ den
            else EmptyString
        | None => EmptyString
        end
      else if Ascii.eqb c "." || Ascii.eqb c "/" then
        let ds := takeWhile isDigit r' in
        if isEmpty ds then EmptyString else String c ds
      else EmptyString
  | EmptyString => EmptyString
  end.

(** [remaining.match(/^(\d+(?:\s+\d+\/\d+|\.\d+|\/\d+)?)/)]: the matched
    text. *)
Definition matchQuantity (remaining : string) : option string :=
  let ds := takeWhile isDigit remaining in
  if isEmpty ds then None
  else Some (ds ++ quantityTail (dropWhile isDigit remaining)).

(** [remaining.match(/^(\w+)/)] *)
Definition matchWord (remaining : string) : option string :=
  let w := takeWhile isWord remaining in
  if isEmpty w then None else Some w.

(** The quantity and unit read off the lower-cased text, and what remains
    of it. *)
Definition stripQuantityAndUnit (original : string)
  : option float * option unit_value * string :=
  let remaining := toLowerCase original in
  (* Try to extract quantity (handles fractions and mixed numbers) *)
  let quantityMatch := matchQuantity remaining in
  let '(quantity, remaining) :=
    match quantityMatch with
    | Some m =>
        (parseFraction m, trim (substringFrom (String.length m) remaining))
    | None => (None, remaining)
    end in
  (* Try to extract unit *)
  let unitMatch := matchWord remaining in
  match unitMatch, quantity with
  | Some potentialUnit, Some _ =>
      let normalizedUnit := normalizeUnit potentialUnit in
      (* Only treat as unit if it's in our unit map *)
      if unitTruthy (unitLookup (toLowerCase potentialUnit)) then
        (quantity, normalizedUnit,
         trim (substringFrom (String.length potentialUnit) remaining))
      else (quantity, None, remaining)
  | _, _ => (quantity, None, remaining)
  end.

Definition parseIngredient (ingredientText : value) : option IngredientLine :=
  match ingredientText with
  | VStr text =>
      if isEmpty text then None
      else
        let original := trim text in
        let '(quantity, unit, remaining) := stripQuantityAndUnit original in
        (* Remaining text is the ingredient item *)
        let item := if isEmpty remaining then original else remaining in
        let category := categorizeIngredient item in
        Some {| quantity := quantity;
                unit := unit;
                item := Some item;
                originalText := Some original;
                category := Some category;
                consolidated := false;
                scaled := false;
                originalQuantity := None |}
  | _ => None
  end.

(** The key of the [Map]:
    [`${ingredient.item}-${ingredient.unit || 'no-unit'}`].  It is computed
    for records with a truthy item only. *)
Definition keyOf (ingredient : IngredientLine) : string :=
  (match item ingredient with Some s => s | None => "undefined" end)
  ++ "-" ++
  (match unit ingredient with
   | Some u => if unitTruthy (Some u) then unitText u else "no-unit"
   | None => "no-unit"
   end).

Definition itemTruthy (ingredient : IngredientLine) : bool :=
  match item ingredient with
  | Some s => negb (isEmpty s)
  | None => false
  end.

(** [existing.quantity += q; existing.consolidated = true] *)
Definition addQuantity (existing : IngredientLine) (q : float)
  : IngredientLine :=
  {| quantity := Some q;
     unit := unit existing;
     item := item existing;
     originalText := originalText existing;
     category := category existing;
     consolidated := true;
     scaled := scaled existing;
     originalQuantity := originalQuantity existing |}.

(** A [Map] with string keys, in insertion order. *)
Definition Map : Type := list (string * IngredientLine).

Fixpoint mapUpdate (m : Map) (key : string) (v : IngredientLine) : Map :=
  match m with
  | [] => []
  | (k, x) :: r =>
      if String.eqb key k then (k, v) :: r else (k, x) :: mapUpdate r key v
  end.

(** The body of the [forEach]. *)
Definition consolidateStep (consolidated : Map)
  (ingredient : option IngredientLine) : Map :=
  match ingredient with
  | None => consolidated
  | Some ingredient =>
      if negb (itemTruthy ingredient) then consolidated
      else
        let key := keyOf ingredient in
        match assoc key consolidated with
        | Some existing =>
            (* Only consolidate if both have quantities *)
            match quantity existing, quantity ingredient with
            | Some a, Some b =>
                mapUpdate consolidated key (addQuantity existing (a + b)%float)
            | _, _ => consolidated
            end
        | None => (consolidated ++ [(key, ingredient)])%list
        end
  end.

Definition consolidateIngredients (ingredients : arg (option IngredientLine))
  : list IngredientLine :=
  match ingredients with
  | NotArray => []
  | Array elems => map snd (fold_left consolidateStep elems [])
  end.

End IngredientProcessor.

(* ================================================================== *)
(** * ShoppingListGenerator *)

Module ShoppingListGenerator.
Import JS IngredientProcessor.

(** A shopping list object.  [items] is missing (or falsy), a value that is
    not an array, or an array whose elements are records or [null];
    [organized] is missing or an object whose properties are listed in the
    order of [Object.keys]. *)
Record ShoppingList : Type := {
  title : value;
  items : option (arg (option IngredientLine));
  organized : option (list (string * arg (option IngredientLine)));
  recipes : option (list value);
  itemCount : option nat;
  createdAt : option timestamp;
  scaleMultiplier : option float;
  scaledAt : option timestamp
}.

(** A property name that is an array index: such properties come first
    in an object, in ascending order. *)
Definition isArrayIndex (k : string) : bool :=
  negb (isEmpty k) && sall isDigit k
  && (String.eqb k "0" || negb (prefix "0" k))
  && (digitsValue 0 k <? 4294967295)%Z.

Definition comesBefore (k k' : string) : bool :=
  isArrayIndex k
  && (negb (isArrayIndex k') || (digitsValue 0 k <? digitsValue 0 k')%Z).

(** [o[k] = v] for a new property [k] *)
Fixpoint addProperty {A : Type} (o : list (string * A)) (k : string) (v : A)
  : list (string * A) :=
  match o with
  | [] => [(k, v)]
  | (k', v') :: r =>
      if comesBefore k k' then (k, v) :: o else (k', v') :: addProperty r k v
  end.

(** [o[k].push(x)] for an own property [k] *)
Fixpoint pushTo {A : Type} (o : list (string * list A)) (k : string) (x : A)
  : list (string * list A) :=
  match o with
  | [] => []
  | (k', l) :: r =>
      if String.eqb k k' then (k', (l ++ [x])%list) :: r
      else (k', l) :: pushTo r k x
  end.

(** [item.category || 'pantry'] *)
Definition categoryOrPantry (ingredient : IngredientLine) : string :=
  match category ingredient with
  | Some c => if isEmpty c then "pantry" else c
  | None => "pantry"
  end.

(** The body of the [forEach]. *)
Definition organizeStep
  (acc : thrown (list (string * list (option IngredientLine))))
  (item : option IngredientLine)
  : thrown (list (string * list (option IngredientLine))) :=
  bind acc (fun organized =>
    match item with
    | None => Throw "Cannot read properties of null (reading 'category')"
    | Some it =>
        let category := categoryOrPantry it in
        match assoc category organized with
        | Some _ => Ok (pushTo organized category item)
        | None =>
            if isInherited category
            then Throw "organized[category].push is not a function"
            else Ok (addProperty organized category [item])
        end
    end).

Definition organizeByCategory (items : arg (option IngredientLine))
  : thrown (list (string * list (option IngredientLine))) :=
  match items with
  | NotArray => Ok []
  | Array elems => fold_left organizeStep elems (Ok [])
  end.

Definition createShoppingListObject (now : timestamp)
  (items : list IngredientLine) (title : value) (recipeIds : list value)
  : thrown ShoppingList :=
  bind (organizeByCategory (Array (map Some items))) (fun organized =>
    Ok {| title := title;
          items := Some (Array (map Some items));
          organized := Some (map (fun e => (fst e, Array (snd e))) organized);
          recipes := Some recipeIds;
          itemCount := Some (List.length items);
          createdAt := Some now;
          scaleMultiplier := None;
          scaledAt := None |}).

(** [!recipe || !recipe.ingredients || !Array.isArray(recipe.ingredients)] *)
Definition ingredientsOf (recipe : value) : option (list value) :=
  if truthy recipe then
    match getProp recipe "ingredients" with
    | VArr l => Some l
    | _ => None
    end
  else None.

(** [l.filter(x => x !== null)] *)
Fixpoint somes {A : Type} (l : list (option A)) : list A :=
  match l with
  | [] => []
  | Some a :: r => a :: somes r
  | None :: r => somes r
  end.

(** The body of the loop over the recipes: the ingredients and the
    recipe ids collected so far. *)
Definition collectStep (acc : list IngredientLine * list value)
  (recipe : value) : list IngredientLine * list value :=
  let (allIngredients, recipeIds) := acc in
  match ingredientsOf recipe with
  | None => acc (* Skip invalid recipes *)
  | Some ingredients =>
      let processedIngredients := somes (map parseIngredient ingredients) in
      ((allIngredients ++ processedIngredients)%list,
       (recipeIds ++ [getProp recipe "id"])%list)
  end.

Definition generateFromMultipleRecipes (now : timestamp) (recipes : value)
  (customTitle : value) : result ShoppingList :=
  match recipes with
  | VArr [] => Failure "No recipes provided" None
  | VArr recipeList =>
      (* Collect all ingredients from all recipes *)
      let (allIngredients, recipeIds) :=
        fold_left collectStep recipeList ([], []) in
      match allIngredients with
      | [] => Failure "No valid ingredients found in recipes" None
      | _ =>
          (* Consolidate duplicate ingredients *)
          let consolidatedIngredients :=
            consolidateIngredients (Array (map Some allIngredients)) in
          let title :=
            orElse customTitle (VStr "Combined Recipes - Shopping List") in
          match
            createShoppingListObject now consolidatedIngredients title
              recipeIds
          with
          | Ok shoppingList => Success shoppingList
          | Throw message =>
              Failure ("Failed to generate shopping list: " ++ message) None
          end
      end
  | _ => Failure "Recipes must be an array" None
  end.

Definition generateFromRecipe (now : timestamp) (recipe : value)
  : result ShoppingList :=
  (* Validate recipe *)
  if negb (truthy recipe) || negb (isObject recipe) then
    Failure "Invalid recipe object" None
  else if negb (truthy (getProp recipe "title")) then
    Failure "Recipe must have a title" None
  else
    match getProp recipe "ingredients" with
    | VArr [] => Failure "Recipe has no ingredients" None
    | VArr ingredients =>
        (* Process ingredients *)
        let processedIngredients := somes (map parseIngredient ingredients) in
        let title :=
          VStr (toString (getProp recipe "title") ++ " - Shopping List") in
        let recipeIds := [getProp recipe "id"] in
        match
          createShoppingListObject now processedIngredients title recipeIds
        with
        | Ok shoppingList => Success shoppingList
        | Throw message =>
            Failure ("Failed to generate shopping list: " ++ message) None
        end
    | _ => Failure "Invalid recipe ingredients" None
    end.

(** The text [formatForDisplay] prints for an item: the quantity as a
    decimal number. *)
Definition formatItem (item : option IngredientLine) : string :=
  match item with
  | None => "Unknown item"
  | Some item =>
      if negb (itemTruthy item) then "Unknown item"
      else
        (match quantity item with
         | Some q =>
             numberToString q
             ++ (match unit item with
                 | Some u =>
                     if unitTruthy (Some u) then " " ++ unitText u
                     else EmptyString
                 | None => EmptyString
                 end)
             ++ " "
         | None => EmptyString
         end)
        ++ (match IngredientProcessor.item item with
            | Some s => s
            | None => EmptyString
            end)
  end.

(** The objects [{ isValid: true }] and [{ isValid: false, error }]. *)
Inductive recipeValidation : Type :=
  | ValidRecipe
  | InvalidRecipe (error : string).

(** Validation helper methods *)
Definition validateRecipe (recipe : value) : recipeValidation :=
  if negb (truthy recipe) || negb (isObject recipe) then
    InvalidRecipe "Invalid recipe object"
  else if negb (truthy (getProp recipe "title"))
          || negb (isString (getProp recipe "title")) then
    InvalidRecipe "Recipe must have a valid title"
  else
    match getProp recipe "ingredients" with
    | VArr [] => InvalidRecipe "Recipe must have at least one ingredient"
    | VArr _ => ValidRecipe
    | _ => InvalidRecipe "Recipe must have ingredients array"
    end.

End ShoppingListGenerator.

(* ================================================================== *)
(** * ReminderFormatter *)

Module ReminderFormatter.
Import JS IngredientProcessor ShoppingListGenerator.

Definition urlScheme : string := "shortcuts://run-shortcut".
Definition shortcutName : string := "Add Shopping List to Reminders".

(** The keys of the object literal are the numbers' strings; a lookup
    [commonFractions[x]] converts [x] to its string, which is a key exactly
    when [x] is the key's number. *)
Definition commonFractions : list (float * string) :=
  [ (0.25, "1/4"); (0.33, "1/3"); (0.5, "1/2"); (0.67, "2/3");
    (0.75, "3/4") ]%float.

Fixpoint fractionLookup (l : list (float * string)) (x : float)
  : option string :=
  match l with
  | [] => None
  | (k, v) :: r => if PrimFloat.eqb k x then Some v else fractionLookup r x
  end.

Definition denominators : list Z := [2; 3; 4; 5; 6; 8; 10; 12; 16]%Z.

(** [for (let num = 1; num < denom; num++)]: the first numerator within
    the tolerance. *)
Fixpoint findNumerator (count : nat) (num : Z) (denom : Z) (decimal : float)
  (tolerance : float) : option Z :=
  match count with
  | O => None
  | S c =>
      if PrimFloat.ltb (Math_abs (decimal - Z2F num / Z2F denom)) tolerance
      then Some num
      else findNumerator c (num + 1) denom decimal tolerance
  end.

Fixpoint findSimpleFraction (denoms : list Z) (decimal tolerance : float)
  : option (Z * Z) :=
  match denoms with
  | [] => None
  | denom :: r =>
      match findNumerator (Z.to_nat (denom - 1)) 1 denom decimal tolerance with
      | Some num => Some (num, denom)
      | None => findSimpleFraction r decimal tolerance
      end
  end.

Definition formatAsFraction (decimal : option float) : string :=
  match decimal with
  | None => EmptyString
  | Some decimal =>
      (* Handle whole numbers *)
      if PrimFloat.eqb (rem1 decimal) 0 then numberToString decimal
      else
        (* Check for common fractions *)
        let rounded := (Math_round (decimal * 100) / 100)%float in
        match fractionLookup commonFractions rounded with
        | Some f => f
        | None =>
            let whole := Math_floor decimal in
            let fraction := (decimal - whole)%float in
            let mixed :=
              (* Handle mixed numbers *)
              if PrimFloat.ltb 1 decimal then
                match fractionLookup commonFractions
                        (Math_round (fraction * 100) / 100)%float with
                | Some f => Some (numberToString whole ++ " " ++ f)
                | None => None
                end
              else None in
            match mixed with
            | Some text => text
            | None =>
                (* For other fractions, try to find simple fraction
                   representation *)
                let tolerance := 0.01%float in
                match findSimpleFraction denominators decimal tolerance with
                | Some (num, denom) =>
                    let f := numberToString (Z2F num) ++ "/"
                             ++ numberToString (Z2F denom) in
                    if PrimFloat.ltb 1 decimal
                    then numberToString whole ++ " " ++ f
                    else f
                | None =>
                    (* Fall back to decimal *)
                    numberToString decimal
                end
            end
        end
  end.

Definition formatItemText (item : option IngredientLine) : string :=
  match item with
  | None => EmptyString
  | Some item =>
      (* Handle quantity *)
      (match quantity item with
       | Some q =>
           (* Convert decimal to fraction if appropriate *)
           formatAsFraction (Some q)
           ++ (* Add unit if present *)
              (match unit item with
               | Some u =>
                   if unitTruthy (Some u) then " " ++ unitText u
                   else EmptyString
               | None => EmptyString
               end)
           ++ " "
       | None => EmptyString
       end)
      ++ (* Add item name *)
         (if itemTruthy item
          then match IngredientProcessor.item item with
               | Some s => s
               | None => EmptyString
               end
          else "Unknown item")
  end.

Inductive validation : Type :=
  | Valid
  | Invalid (error : string).

Definition titleIsValid (title : value) : bool :=
  match title with
  | VStr s => negb (isEmpty s) && negb (isEmpty (trim s))
  | _ => false
  end.

Definition validateShoppingList (shoppingList : option ShoppingList)
  : validation :=
  match shoppingList with
  | None => Invalid "Shopping list is required"
  | Some shoppingList =>
      if negb (titleIsValid (title shoppingList)) then
        Invalid "Shopping list must have a valid title"
      else
        match items shoppingList, organized shoppingList with
        | None, None =>
            Invalid "Shopping list must have items or organized categories"
        | Some NotArray, _ => Invalid "Shopping list items must be an array"
        | _, _ => Valid
        end
  end.

(** [value.forEach(...)] on a property that may not be an array. *)
Definition arrayOrThrow {A : Type} (what : string) (a : option (arg A))
  : thrown (list A) :=
  match a with
  | Some (Array l) => Ok l
  | Some NotArray => Throw (what ++ " is not a function")
  | None =>
      Throw ("Cannot read properties of undefined (reading '" ++ what ++ "')")
  end.

(** Helper method to flatten organized items into a single array *)
Fixpoint flattenOrganizedItems
  (organized : list (string * arg (option IngredientLine)))
  : thrown (list (option IngredientLine)) :=
  match organized with
  | [] => Ok []
  | (_, entries) :: r =>
      bind (arrayOrThrow "organized[category].forEach" (Some entries))
        (fun l => bind (flattenOrganizedItems r)
                    (fun rest => Ok (l ++ rest)%list))
  end.

Record Options : Type := {
  listName : value;
  organizeByCategory : bool;
  platform : value
}.

Definition itemLines (l : list (option IngredientLine)) : string :=
  String.concat EmptyString
    (map (fun item => formatItemText item ++ newline) l).

(** The text built over the categories: a blank line between two
    categories, a header, one line per item. *)
Fixpoint categoryLines (index : nat)
  (organized : list (string * arg (option IngredientLine)))
  : thrown (string * nat) :=
  match organized with
  | [] => Ok (EmptyString, O)
  | (category, entries) :: r =>
      bind (arrayOrThrow "shoppingList.organized[category].forEach"
              (Some entries))
        (fun l =>
           bind (categoryLines (S index) r)
             (fun rest =>
                Ok ((if (0 <? index)%nat then newline
                     else EmptyString)
                    ++ toUpperCase category ++ ":" ++ newline
                    ++ itemLines l ++ fst rest,
                    (List.length l + snd rest)%nat)))
  end.

Record Formatted : Type := {
  reminderText : string;
  formattedListName : value;
  formattedItemCount : nat
}.

Definition formatForReminders (shoppingList : option ShoppingList)
  (options : Options) : result Formatted :=
  (* Validate shopping list *)
  match validateShoppingList shoppingList, shoppingList with
  | Invalid error, _ => Failure error None
  | Valid, None => Failure "Shopping list is required" None
  | Valid, Some sl =>
      let body :=
        match organizeByCategory options, organized sl with
        | true, Some org =>
            (* Format organized by category *)
            categoryLines 0 org
        | _, _ =>
            (* Format as simple list *)
            bind (arrayOrThrow "shoppingList.items.forEach" (items sl))
              (fun l => Ok (itemLines l, List.length l))
        end in
      match body with
      | Ok (text, count) =>
          Success {| reminderText := trim text;
                     formattedListName := title sl;
                     formattedItemCount := count |}
      | Throw message =>
          Failure ("Failed to format for Reminders: " ++ message) None
      end
  end.

Record ReminderUrl : Type := {
  url : string;
  fallbackUrl : string;
  urlListName : value;
  urlItemCount : nat;
  shortcutRequired : bool;
  urlShortcutName : string;
  urlPlatform : value
}.

Definition generateReminderUrl (shoppingList : option ShoppingList)
  (options : Options) : result ReminderUrl :=
  (* Validate shopping list *)
  match validateShoppingList shoppingList, shoppingList with
  | Invalid error, _ => Failure error None
  | Valid, None => Failure "Shopping list is required" None
  | Valid, Some sl =>
      match items sl with
      | None | Some (Array []) => Failure "Shopping list is empty" None
      | _ =>
          let listName := orElse (listName options) (title sl) in
          let chosen :=
            match organizeByCategory options, organized sl with
            | true, Some org => flattenOrganizedItems org
            | _, _ => arrayOrThrow "items.map" (items sl)
            end in
          match chosen with
          | Throw message =>
              Failure ("Failed to generate URL: " ++ message) None
          | Ok items =>
              (* Create simple text list for the shortcut *)
              let itemTexts := map formatItemText items in
              let simpleText :=
                toString listName ++ newline ++ newline
                ++ join (newline) itemTexts in
              (* Encode the simple text as input for the shortcut *)
              let encodedData := encodeURIComponent simpleText in
              let encodedShortcutName := encodeURIComponent shortcutName in
              let shortcutsUrl :=
                urlScheme ++ "?name=" ++ encodedShortcutName ++ "&input="
                ++ encodedData in
              (* Also provide a fallback URL that uses the simpler
                 reminders scheme *)
              let formatResult := formatForReminders shoppingList options in
              let text :=
                match formatResult with
                | Success f => reminderText f
                | Failure _ _ => "undefined"
                end in
              let fallbackUrl :=
                "x-apple-reminderkit://REMSaveRequest?reminderText="
                ++ encodeURIComponent text ++ "&listName="
                ++ encodeURIComponent (toString listName) in
              Success {| url := shortcutsUrl;
                         fallbackUrl := fallbackUrl;
                         urlListName := listName;
                         urlItemCount := List.length items;
                         shortcutRequired := true;
                         urlShortcutName := shortcutName;
                         urlPlatform :=
                           orElse (platform options) (VStr "ios") |}
          end
      end
  end.


(** Helper method to clean up malformed items *)
Definition sanitizeItem (item : value) : value :=
  if negb (truthy item) || negb (isObject item) then VNull
  else
    VObj
      [ ("quantity",
         match getProp item "quantity" with
         | VNum n => VNum n
         | _ => VNull
         end);
        ("unit",
         match getProp item "unit" with
         | VStr s => VStr s
         | _ => VNull
         end);
        ("item",
         match getProp item "item" with
         | VStr s => VStr s
         | _ => VStr "Unknown item"
         end);
        ("category", orElse (getProp item "category") (VStr "pantry")) ].

(** Method to handle different platforms.  The parameter defaults to
    ['ios'] when it is [undefined] (and only then). *)
Definition getPlatformSpecificUrl (shoppingList : option ShoppingList)
  (platform : value) : result ReminderUrl :=
  let platform :=
    match platform with
    | VUndefined => VStr "ios"
    | _ => platform
    end in
  let baseResult :=
    generateReminderUrl shoppingList
      {| listName := VUndefined;
         organizeByCategory := false;
         platform := platform |} in
  match baseResult with
  | Failure error details => Failure error details
  | Success base =>
      Success {| url := url base;
                 fallbackUrl := fallbackUrl base;
                 urlListName := urlListName base;
                 urlItemCount := urlItemCount base;
                 shortcutRequired := shortcutRequired base;
                 urlShortcutName := urlShortcutName base;
                 urlPlatform := platform |}
  end.

End ReminderFormatter.

(* ================================================================== *)
(** * ShoppingListValidator *)

Module ShoppingListValidator.
Import JS IngredientProcessor ShoppingListGenerator ReminderFormatter.

Definition validCategories : list string :=
  [ "meat"; "vegetables"; "pantry"; "spices"; "dairy" ].

Definition validUnits : list string :=
  [ "cup"; "cups"; "tablespoon"; "tablespoons"; "tbsp"; "tsp"; "teaspoon";
    "teaspoons";
    "pound"; "pounds"; "lb"; "lbs"; "ounce"; "ounces"; "oz";
    "gram"; "grams"; "g"; "kilogram"; "kilograms"; "kg";
    "pint"; "pints"; "pt"; "quart"; "quarts"; "qt";
    "gallon"; "gallons"; "gal"; "liter"; "liters"; "l";
    "inch"; "inches"; "in" ].

Definition maxListNameLength : nat := 200.
Definition maxRecipeIds : nat := 50.

(** The objects [{ isValid: true, <sanitized value>, warning }] (the
    warning is optional) and [{ isValid: false, error }]. *)
Inductive checked (A : Type) : Type :=
  | Accepted (sanitized : A) (warning : option string)
  | Rejected (error : string).
Arguments Accepted {A} sanitized warning.
Arguments Rejected {A} error.

Definition accepted {A : Type} (c : checked A) : bool :=
  match c with
  | Accepted _ _ => true
  | Rejected _ => false
  end.

(** [[a-zA-Z0-9._-]] *)
Definition isIdChar (c : ascii) : bool :=
  isLower c || isUpper c || isDigit c
  || Ascii.eqb c "." || Ascii.eqb c "_" || Ascii.eqb c "-".

Definition validateRecipeId (id : value) : checked string :=
  match id with
  | VStr s =>
      if isEmpty s then Rejected "Recipe ID must be a non-empty string"
      else
        let trimmedId := trim s in
        if (utf16Length trimmedId <? 2)%nat then
          Rejected "Recipe ID must be at least 2 characters"
        else if (100 <? utf16Length trimmedId)%nat then
          Rejected "Recipe ID must be 100 characters or less"
        else
          (* Allow alphanumeric, dashes, underscores, and dots *)
          if negb (negb (isEmpty trimmedId) && sall isIdChar trimmedId) then
            Rejected "Recipe ID contains invalid characters"
          else Accepted trimmedId None
  | _ => Rejected "Recipe ID must be a non-empty string"
  end.

(** [.], which matches no line terminator: LF, CR, U+2028 and U+2029 (in
    UTF-8 the bytes E2 80 A8 and E2 80 A9). *)
Definition atLineTerminator (s : string) : bool :=
  match s with
  | String c _ =>
      (code c =? 10)%nat || (code c =? 13)%nat
      || prefix (String "226" (String "128" (String "168" EmptyString))) s
      || prefix (String "226" (String "128" (String "169" EmptyString))) s
  | EmptyString => false
  end.

(** [.*?<\/script>] with the flag [i], at the head of [s]: the length of
    the shortest run of [.] after which the closing tag stands. *)
Fixpoint beforeClosingScript (s : string) : option nat :=
  if prefix "</script>" (toLowerCase s) then Some O
  else
    match s with
    | EmptyString => None
    | String _ r =>
        if atLineTerminator s then None
        else option_map S (beforeClosingScript r)
    end.

Definition notGreater (c : ascii) : bool := negb (Ascii.eqb c ">").
Definition notSemicolon (c : ascii) : bool := negb (Ascii.eqb c ";").

(** [/<script[^>]*>.*?<\/script>/i] at the head of [s]: the length of the
    match.  [[^>]*>] can only stop at the first [>]. *)
Definition scriptElement (s : string) : option nat :=
  if prefix "<script" (toLowerCase s) then
    let r := substringFrom 7 s in
    let attributes := takeWhile notGreater r in
    match afterChar ">" (dropWhile notGreater r) with
    | Some body =>
        match beforeClosingScript body with
        | Some n => Some (7 + String.length attributes + 1 + n + 9)%nat
        | None => None
        end
    | None => None
    end
  else None.

(** [/<[^>]*>/] at the head of [s] *)
Definition htmlTag (s : string) : option nat :=
  match afterChar "<" s with
  | Some r =>
      match afterChar ">" (dropWhile notGreater r) with
      | Some _ => Some (S (S (String.length (takeWhile notGreater r))))
      | None => None
      end
  | None => None
  end.

(** [/&[^;]+;/] at the head of [s] *)
Definition htmlEntity (s : string) : option nat :=
  match afterChar "&" s with
  | Some r =>
      let name := takeWhile notSemicolon r in
      match afterChar ";" (dropWhile notSemicolon r) with
      | Some _ =>
          if isEmpty name then None else Some (S (S (String.length name)))
      | None => None
      end
  | None => None
  end.

Definition sanitizeHtml (input : value) : string :=
  if negb (truthy input) then EmptyString
  else
    trim
      (removeAll htmlEntity 0 (* Remove HTML entities *)
         (removeAll htmlTag 0 (* Remove HTML tags *)
            (removeAll scriptElement 0 (* Remove script tags and content *)
               (toString input)))).

Definition validateQuantity (quantity : value) : checked (option float) :=
  match quantity with
  | VNull | VUndefined => Accepted None None
  | VNum q =>
      if negb (isFinite q) || PrimFloat.ltb q 0 then
        Rejected "Quantity must be a positive number or null"
      else Accepted (Some q) None
  | _ => Rejected "Quantity must be a positive number or null"
  end.

Definition validateUnit (unit : value) : checked (option string) :=
  match unit with
  | VNull | VUndefined => Accepted None None
  | VStr unit =>
      let trimmedUnit := toLowerCase (trim unit) in
      if isEmpty trimmedUnit then Rejected "Unit cannot be empty string"
      else
        (* Check if it's a known unit *)
        if existsb (String.eqb trimmedUnit) validUnits then
          Accepted (Some trimmedUnit) None
        else
          (* Allow custom units with warning *)
          Accepted (Some trimmedUnit)
            (Some ("Unknown unit: " ++ unit ++ ". Using as-is."))
  | _ => Rejected "Unit must be a string or null"
  end.

Definition validateCategory (category : value) : checked string :=
  match category with
  | VStr text =>
      if isEmpty text then Accepted "pantry" None
      else
        let trimmedCategory := toLowerCase (trim text) in
        if existsb (String.eqb trimmedCategory) validCategories then
          Accepted trimmedCategory None
        else
          (* Default to pantry for unknown categories *)
          Accepted "pantry"
            (Some ("Unknown category: " ++ text ++ ". Defaulting to pantry."))
  | _ => Accepted "pantry" None
  end.

(** Utility method to validate entire recipe object *)
Definition validateRecipe (recipe : value) : validation :=
  if negb (truthy recipe) || negb (isObject recipe) then
    Invalid "Recipe must be an object"
  else if negb (titleIsValid (getProp recipe "title")) then
    Invalid "Recipe must have a valid title"
  else
    match getProp recipe "ingredients" with
    | VArr [] => Invalid "Recipe must have at least one ingredient"
    | VArr _ => Valid
    | _ => Invalid "Recipe must have ingredients array"
    end.

Record SanitizedOptions : Type := {
  scaleMultiplier : option float;
  categoryFilter : option (list value);
  organizeByCategory : option bool;
  includeMetadata : option bool
}.

Record SanitizedRequest : Type := {
  recipeIds : list value;
  listName : option string;
  options : SanitizedOptions
}.

Record RequestValidation : Type := {
  isValid : bool;
  errors : list string;
  sanitizedData : option SanitizedRequest;
  details : option string
}.

Definition idIsValid (id : value) : bool := accepted (validateRecipeId id).

(** Validate recipe IDs *)
Definition recipeIdErrors (recipeIds : value) : list string :=
  if negb (truthy recipeIds) then [ "Recipe IDs are required" ]
  else
    match recipeIds with
    | VArr [] => [ "At least one recipe ID is required" ]
    | VArr ids =>
        if (maxRecipeIds <? List.length ids)%nat then
          [ "Cannot process more than "
            ++ numberToString (Z2F (Z.of_nat maxRecipeIds))
            ++ " recipes at once" ]
        else
          (* Validate individual recipe IDs *)
          let invalidIds := filter (fun id => negb (idIsValid id)) ids in
          match invalidIds with
          | [] => []
          | _ => [ "All recipe IDs must be non-empty strings" ]
          end
    | _ => [ "Recipe IDs must be an array" ]
    end.

Definition sanitizedListNameOf (listName : value) : string :=
  if truthy listName then trim (sanitizeHtml listName) else EmptyString.

(** Validate list name *)
Definition listNameErrors (listName : value) : list string :=
  if truthy listName
     && (maxListNameLength <? utf16Length (sanitizedListNameOf listName))%nat
  then
    [ "List name must be "
      ++ numberToString (Z2F (Z.of_nat maxListNameLength))
      ++ " characters or less" ]
  else [].

(** Validate scale multiplier *)
Definition scaleMultiplierErrors (scaleMultiplier : value) : list string :=
  match scaleMultiplier with
  | VUndefined => []
  | VNum m =>
      if PrimFloat.leb m 0 || negb (isFinite m) then
        [ "Scale multiplier must be a positive number" ]
      else []
  | _ => [ "Scale multiplier must be a positive number" ]
  end.

(** [typeof cat !== 'string' || cat.trim() === '' ||
    !this.validCategories.includes(cat)] *)
Definition isInvalidCategory (cat : value) : bool :=
  match cat with
  | VStr s =>
      isEmpty (trim s) || negb (existsb (String.eqb s) validCategories)
  | _ => true
  end.

(** Validate category filter *)
Definition categoryFilterErrors (categoryFilter : value) : list string :=
  match categoryFilter with
  | VUndefined => []
  | VArr [] => [ "Category filter cannot be empty" ]
  | VArr cats =>
      let invalidCategories := filter isInvalidCategory cats in
      match invalidCategories with
      | [] => []
      | _ => [ "Invalid categories: " ++ arrayJoin ", " invalidCategories ]
      end
  | _ => [ "Category filter must be an array" ]
  end.

(** Copy other boolean options *)
Definition booleanOption (v : value) : option bool :=
  match v with
  | VUndefined => None
  | _ => Some (truthy v)
  end.

Definition validateShoppingListRequest (request : value) : RequestValidation :=
  if negb (truthy request) || negb (isObject request) then
    {| isValid := false;
       errors := [ "Invalid request object" ];
       sanitizedData := None;
       details := None |}
  else
    let requestOptions := getProp request "options" in
    let hasOptions := truthy requestOptions && isObject requestOptions in
    let given name :=
      if hasOptions then getProp requestOptions name else VUndefined in
    let errors :=
      (recipeIdErrors (getProp request "recipeIds")
       ++ listNameErrors (getProp request "listName")
       ++ scaleMultiplierErrors (given "scaleMultiplier")
       ++ categoryFilterErrors (given "categoryFilter"))%list in
    let sanitizedListName := sanitizedListNameOf (getProp request "listName") in
    let sanitizedOptions :=
      {| scaleMultiplier :=
           match given "scaleMultiplier" with
           | VNum m => Some m
           | _ => None
           end;
         categoryFilter :=
           match given "categoryFilter" with
           | VArr cats => Some cats
           | _ => None
           end;
         organizeByCategory := booleanOption (given "organizeByCategory");
         includeMetadata := booleanOption (given "includeMetadata") |} in
    match errors with
    | [] =>
        {| isValid := true;
           errors := [];
           sanitizedData :=
             Some {| recipeIds :=
                       match getProp request "recipeIds" with
                       | VArr ids => filter idIsValid ids
                       | _ => []
                       end;
                     listName :=
                       if isEmpty sanitizedListName then None
                       else Some sanitizedListName;
                     options := sanitizedOptions |};
           details := None |}
    | _ =>
        {| isValid := false;
           errors := errors;
           sanitizedData := None;
           details := Some "Request validation failed" |}
    end.

End ShoppingListValidator.

(* ================================================================== *)
(** * ShoppingListManager *)

Module ShoppingListManager.
Import JS IngredientProcessor ShoppingListGenerator.

(** [{ ...item, quantity: ..., scaled: true, originalQuantity: item.quantity }] *)
Definition scaleItem (multiplier : float) (item : option IngredientLine)
  : thrown (option IngredientLine) :=
  match item with
  | None => Throw "Cannot read properties of null (reading 'quantity')"
  | Some item =>
      Ok (Some
        {| quantity :=
             match quantity item with
             | Some q => Some (q * multiplier)%float
             | None => None
             end;
           unit := unit item;
           item := IngredientProcessor.item item;
           originalText := originalText item;
           category := category item;
           consolidated := consolidated item;
           scaled := true;
           originalQuantity := Some (quantity item) |})
  end.

Fixpoint mapThrown {A B : Type} (f : A -> thrown B) (l : list A)
  : thrown (list B) :=
  match l with
  | [] => Ok []
  | a :: r =>
      bind (f a) (fun b => bind (mapThrown f r) (fun bs => Ok (b :: bs)))
  end.

Definition scaleQuantities (now : timestamp)
  (shoppingList : option ShoppingList) (multiplier : value)
  : result ShoppingList :=
  match multiplier with
  | VNum m =>
      if PrimFloat.leb m 0 then
        Failure "Scale multiplier must be greater than 0" None
      else
        match shoppingList with
        | None => Failure "Invalid shopping list" None
        | Some sl =>
            match items sl with
            | None => Failure "Invalid shopping list" None
            | Some its =>
                let scaledList :=
                  bind (match its with
                        | Array l => mapThrown (scaleItem m) l
                        | NotArray =>
                            Throw "shoppingList.items.map is not a function"
                        end)
                    (fun scaledItems =>
                       bind (organizeByCategory (Array scaledItems))
                         (fun organized =>
                            Ok {| title :=
                                    VStr (toString (title sl) ++ " (scaled "
                                          ++ numberToString m ++ "x)");
                                  items := Some (Array scaledItems);
                                  organized :=
                                    Some (map (fun e => (fst e, Array (snd e)))
                                              organized);
                                  recipes := recipes sl;
                                  itemCount := itemCount sl;
                                  createdAt := createdAt sl;
                                  scaleMultiplier := Some m;
                                  scaledAt := Some now |})) in
                match scaledList with
                | Ok l => Success l
                | Throw message =>
                    Failure "Failed to scale quantities" (Some message)
                end
            end
        end
  | _ => Failure "Scale multiplier must be greater than 0" None
  end.

(** In what follows a list whose [items] is not an array holds a value
    that has no array methods and cannot be iterated (a number, a boolean,
    a plain object), and the manager is built with the default validator,
    [new ShoppingListValidator()]. *)

(** [categories.includes(item.category)]; the category of a record that
    has none is [undefined]. *)
Definition includesCategory (categories : list value)
  (category : option string) : bool :=
  existsb (fun c => match c, category with
                    | VStr s, Some text => String.eqb s text
                    | VUndefined, None => true
                    | _, _ => false
                    end) categories.

(** [shoppingList.items.filter(item =>
    categories.includes(item.category))] *)
Fixpoint filterItems (categories : list value)
  (items : list (option IngredientLine))
  : thrown (list (option IngredientLine)) :=
  match items with
  | [] => Ok []
  | None :: _ => Throw "Cannot read properties of null (reading 'category')"
  | Some item :: r =>
      bind (filterItems categories r)
        (fun rest =>
           Ok (if includesCategory categories (category item)
               then Some item :: rest else rest))
  end.

(** A filtered list: the list and its property [filteredCategories]. *)
Record FilteredList : Type := {
  filteredList : ShoppingList;
  filteredCategories : list value
}.

Definition filterByCategory (shoppingList : option ShoppingList)
  (categories : value) : result FilteredList :=
  match categories with
  | VArr (c :: cs) =>
      let categories := c :: cs in
      match shoppingList with
      | None => Failure "Invalid shopping list" None
      | Some sl =>
          match items sl with
          | None => Failure "Invalid shopping list" None
          | Some its =>
              let filtered :=
                bind (match its with
                      | Array l => filterItems categories l
                      | NotArray =>
                          Throw "shoppingList.items.filter is not a function"
                      end)
                  (fun filteredItems =>
                     bind (organizeByCategory (Array filteredItems))
                       (fun organized =>
                          Ok {| filteredList :=
                                  {| title :=
                                       VStr (toString (title sl) ++ " ("
                                             ++ arrayJoin ", " categories
                                             ++ ")");
                                     items := Some (Array filteredItems);
                                     organized :=
                                       Some (map (fun e =>
                                                    (fst e, Array (snd e)))
                                                 organized);
                                     recipes := recipes sl;
                                     itemCount :=
                                       Some (List.length filteredItems);
                                     createdAt := createdAt sl;
                                     scaleMultiplier := scaleMultiplier sl;
                                     scaledAt := scaledAt sl |};
                                filteredCategories := categories |})) in
              match filtered with
              | Ok l => Success l
              | Throw message =>
                  Failure "Failed to filter by category" (Some message)
              end
          end
      end
  | _ => Failure "No categories specified" None
  end.

(** [[...v]] for the items of a list *)
Definition spread {A : Type} (what : string) (a : option (arg A))
  : thrown (list A) :=
  match a with
  | Some (Array l) => Ok l
  | Some NotArray => Throw (what ++ " is not iterable")
  | None => Throw "undefined is not iterable"
  end.

(** An updated list: the list and its property [modifiedAt]. *)
Record UpdatedList : Type := {
  updatedList : ShoppingList;
  modifiedAt : timestamp
}.

Definition addIngredientsToExistingList (now : timestamp)
  (existingList : option ShoppingList) (newRecipe : value)
  : result UpdatedList :=
  match existingList with
  | None => Failure "Invalid shopping list" None
  | Some existing =>
      match items existing with
      | None => Failure "Invalid shopping list" None
      | Some existingItems =>
          if negb (truthy newRecipe)
             || negb (truthy (getProp newRecipe "ingredients")) then
            Failure "Invalid recipe" None
          else
            (* Generate list from new recipe *)
            match generateFromRecipe now newRecipe with
            | Failure error details => Failure error details
            | Success newList =>
                let updated :=
                  (* Combine items from both lists *)
                  bind (spread "existingList.items" (Some existingItems))
                    (fun old =>
                  bind (spread "newListResult.shoppingList.items"
                          (items newList))
                    (fun new =>
                  let allItems := (old ++ new)%list in
                  (* Consolidate duplicate ingredients *)
                  let consolidatedItems :=
                    consolidateIngredients (Array allItems) in
                  (* Re-organize by category *)
                  bind (organizeByCategory
                          (Array (map Some consolidatedItems)))
                    (fun organized =>
                  Ok {| updatedList :=
                          {| title := title existing;
                             items :=
                               Some (Array (map Some consolidatedItems));
                             organized :=
                               Some (map (fun e => (fst e, Array (snd e)))
                                         organized);
                             recipes :=
                               Some ((match recipes existing with
                                      | Some ids => ids
                                      | None => []
                                      end) ++ [getProp newRecipe "id"])%list;
                             itemCount :=
                               Some (List.length consolidatedItems);
                             createdAt := createdAt existing;
                             scaleMultiplier := scaleMultiplier existing;
                             scaledAt := scaledAt existing |};
                        modifiedAt := now |}))) in
                match updated with
                | Ok l => Success l
                | Throw message =>
                    Failure "Failed to add ingredients" (Some message)
                end
            end
      end
  end.

(** *** Saved lists *)

(** A saved list.  Anything can be saved: the list is not looked at. *)
Record SavedList (A : Type) : Type := {
  listId : string;
  shoppingList : A;
  savedAt : timestamp;
  version : nat
}.
Arguments listId {A} _.
Arguments shoppingList {A} _.
Arguments savedAt {A} _.
Arguments version {A} _.

(** [this.savedLists], a [Map] from the ids, which are strings, to the
    saved lists. *)
Definition SavedLists (A : Type) : Type := list (string * SavedList A).

Record Saved : Type := {
  savedListId : string;
  savedListAt : timestamp
}.

(** [generated] is the id that [this.generateListId()] makes from the
    clock and [Math.random()]; it is used when no id, or an empty one, is
    given. *)
Definition saveShoppingList {A : Type} (now : timestamp) (generated : string)
  (savedLists : SavedLists A) (shoppingList : A) (listId : option string)
  : SavedLists A * result Saved :=
  let id :=
    match listId with
    | Some s => if isEmpty s then generated else s
    | None => generated
    end in
  let savedList :=
    {| listId := id;
       shoppingList := shoppingList;
       savedAt := now;
       version := 1 |} in
  (mapSet savedLists id savedList,
   Success {| savedListId := id; savedListAt := savedAt savedList |}).

Definition getSavedLists {A : Type} (savedLists : SavedLists A)
  : result (list (SavedList A)) :=
  Success (sortDescending savedAt (map snd savedLists)).

Definition getSavedList {A : Type} (savedLists : SavedLists A)
  (listId : string) : result (SavedList A) :=
  match assoc listId savedLists with
  | None => Failure "Saved list not found" None
  | Some savedList => Success savedList
  end.

(** The map after the deletion, and the property [deleted] of the
    result, which always has [success: true]. *)
Definition deleteSavedList {A : Type} (savedLists : SavedLists A)
  (listId : string) : SavedLists A * bool :=
  let existed :=
    match assoc listId savedLists with
    | Some _ => true
    | None => false
    end in
  (mapDelete savedLists listId, existed).

(** Clear all saved lists (useful for testing) *)
Definition clearSavedLists {A : Type} (savedLists : SavedLists A)
  : SavedLists A * string :=
  ([], "All saved lists cleared").

Record Statistics : Type := {
  savedListsCount : nat;
  availableCategories : list string;
  supportedUnits : list string
}.

(** Get statistics about shopping list generation *)
Definition getStatistics {A : Type} (savedLists : SavedLists A) : Statistics :=
  {| savedListsCount := List.length savedLists;
     availableCategories := ShoppingListValidator.validCategories;
     supportedUnits := ShoppingListValidator.validUnits |}.

(** *** Generation from the repository *)

(** The basic validation the manager falls back on when its validator has
    no method [validateRecipe]. *)
Definition basicValidateRecipe (recipe : value) : ReminderFormatter.validation :=
  if negb (truthy recipe) || negb (isObject recipe) then
    ReminderFormatter.Invalid "Recipe must be an object"
  else if negb (ReminderFormatter.titleIsValid (getProp recipe "title")) then
    ReminderFormatter.Invalid "Recipe must have a valid title"
  else
    match getProp recipe "ingredients" with
    | VArr (_ :: _) => ReminderFormatter.Valid
    | _ => ReminderFormatter.Invalid "Recipe must have ingredients array"
    end.

(** Utility methods.  [validatorMethod] is [this.validator.validateRecipe]
    when the validator has such a function. *)
Definition validateRecipe
  (validatorMethod : option (value -> ReminderFormatter.validation))
  (recipe : value) : ReminderFormatter.validation :=
  match validatorMethod with
  | Some method => method recipe
  | None => (* Basic validation fallback *) basicValidateRecipe recipe
  end.

Definition defaultValidateRecipe : value -> ReminderFormatter.validation :=
  validateRecipe (Some ShoppingListValidator.validateRecipe).

(** The options the manager reads. *)
Module Options.
Record t : Type := {
  listName : value;
  scaleMultiplier : value;
  categoryFilter : value
}.
End Options.


(** [options.scaleMultiplier && options.scaleMultiplier !== 1] *)
Definition scalingRequested (multiplier : value) : bool :=
  truthy multiplier
  && negb (match multiplier with
           | VNum m => PrimFloat.eqb m 1
           | _ => false
           end).


(** What the loop over the ids collects: the valid recipes and the
    warnings. *)
Fixpoint retrieve (findById : value -> thrown value) (recipeIds : list value)
  : thrown (list value * list string) :=
  match recipeIds with
  | [] => Ok ([], [])
  | recipeId :: rest =>
      bind (findById recipeId) (fun recipe =>
        bind (retrieve findById rest) (fun collected =>
          let (recipes, warnings) := collected in
          if truthy recipe then
            match defaultValidateRecipe recipe with
            | ReminderFormatter.Valid => Ok (recipe :: recipes, warnings)
            | ReminderFormatter.Invalid error =>
                Ok (recipes,
                    ("Invalid recipe data for " ++ toString recipeId ++ ": "
                     ++ error) :: warnings)
            end
          else
            Ok (recipes,
                ("Recipe not found: " ++ toString recipeId) :: warnings)))
  end.

(** The list of a successful result, its property [filteredCategories]
    when a filter was applied, and the property [warnings] of the result
    (absent when there is none). *)
Record Generated : Type := {
  generatedList : ShoppingList;
  generatedFilter : option (list value);
  warnings : list string
}.

(** [findById] is the repository: the value it finds for an id, or the
    message of its rejection.  [now] is the clock when the list is made,
    [later] when it is scaled. *)
Definition generateFromMultipleRecipes (now later : timestamp)
  (findById : value -> thrown value) (recipeIds : value)
  (options : Options.t) : result Generated :=
  match recipeIds with
  | VArr (first :: others) =>
      let ids := first :: others in
      (* Validate request if validator is available *)
      let validation :=
        ShoppingListValidator.validateShoppingListRequest
          (VObj [ ("recipeIds", recipeIds);
                  ("listName", Options.listName options);
                  ("options",
                   VObj [ ("listName", Options.listName options);
                          ("scaleMultiplier", Options.scaleMultiplier options);
                          ("categoryFilter", Options.categoryFilter options)
                        ]) ]) in
      match ShoppingListValidator.errors validation with
      | error :: _ => Failure error None
      | [] =>
          (* Retrieve all recipes *)
          match retrieve findById ids with
          | Throw message =>
              Failure "Failed to generate shopping list" (Some message)
          | Ok ([], _) => Failure "No valid recipes found" None
          | Ok (recipes, warnings) =>
              (* Generate consolidated shopping list *)
              let listName :=
                orElse (Options.listName options)
                       (VStr "Combined Recipes - Shopping List") in
              match
                ShoppingListGenerator.generateFromMultipleRecipes now
                  (VArr recipes) listName
              with
              | Failure error details => Failure error details
              | Success shoppingList =>
                  (* Apply scaling if requested *)
                  let scaled :=
                    if scalingRequested (Options.scaleMultiplier options)
                    then scaleQuantities later (Some shoppingList)
                           (Options.scaleMultiplier options)
                    else Success shoppingList in
                  match scaled with
                  | Failure error details => Failure error details
                  | Success shoppingList =>
                      (* Apply category filter if requested *)
                      match Options.categoryFilter options with
                      | VArr categories =>
                          match
                            filterByCategory (Some shoppingList)
                              (VArr categories)
                          with
                          | Failure error details => Failure error details
                          | Success filtered =>
                              Success
                                {| generatedList := filteredList filtered;
                                   generatedFilter :=
                                     Some (filteredCategories filtered);
                                   warnings := warnings |}
                          end
                      | _ =>
                          Success {| generatedList := shoppingList;
                                     generatedFilter := None;
                                     warnings := warnings |}
                      end
                  end
              end
          end
      end
  | _ => Failure "No recipe IDs provided" None
  end.



End ShoppingListManager.

(* ================================================================== *)
(** * RecipeManager *)

Module RecipeManager.
Import JS.





End RecipeManager.

(* ================================================================== *)
(** * BBQCalculator *)

Module BBQCalculator.
Import JS.

(** An entry of [meatTypes]: it has [timePerLb] or [fixedTime]. *)
Record MeatConfig : Type := {
  timePerLb : option float;
  fixedTime : option float;
  temperature : float
}.

Definition meatTypes : list (string * MeatConfig) :=
  [ ("brisket",
     {| timePerLb := Some 1.25%float; fixedTime := None;
        temperature := 250%float |});
    ("ribs",
     {| timePerLb := None; fixedTime := Some 5.5%float;
        temperature := 225%float |});
    ("pork_shoulder",
     {| timePerLb := Some 1.5%float; fixedTime := None;
        temperature := 225%float |});
    ("whole_chicken",
     {| timePerLb := None; fixedTime := Some 3.5%float;
        temperature := 325%float |}) ].

Record CookTime : Type := {
  timeHours : float;
  description : option string
}.

(** [weight * meatConfig.timePerLb]; a missing rate is [undefined]. *)
Definition timesRate (weight : float) (rate : option float) : float :=
  match rate with
  | Some r => (weight * r)%float
  | None => nan
  end.

(** [meatConfig.fixedTime], as a condition *)
Definition fixedTimeOf (meatConfig : MeatConfig) : option float :=
  match fixedTime meatConfig with
  | Some t => if truthy (VNum t) then Some t else None
  | None => None
  end.

(** The weight is a number and the meat type a string.  A meat type that
    names a member of [Object.prototype] finds that member in
    [this.meatTypes], which has neither [fixedTime] nor [timePerLb]. *)
Definition calculateCookTime (weight : float) (meatType : string)
  : thrown CookTime :=
  if negb (truthy (VNum weight)) || isEmpty meatType
     || PrimFloat.leb weight 0 then
    Throw "Invalid weight or meat type provided"
  else
    let result (timeHours : float) (description : option string) :=
      Ok {| timeHours := parseFloat (toFixed timeHours 1);
            description := description |} in
    match assoc meatType meatTypes with
    | Some meatConfig =>
        match fixedTimeOf meatConfig with
        | Some timeHours =>
            result timeHours
              (if String.eqb meatType "ribs" then
                 Some ("5-6 hours total using 3-2-1 method<br>"
                       ++ "Weight doesn't significantly affect time")
               else if String.eqb meatType "whole_chicken" then
                 Some "3-4 hours at 325°F<br>Higher temp for crispy skin"
               else None)
        | None =>
            let timeHours := timesRate weight (timePerLb meatConfig) in
            result timeHours
              (if String.eqb meatType "brisket" then
                 Some (toFixed timeHours 1 ++ " hours at 250°F<br>"
                       ++ "Start early morning for evening service")
               else if String.eqb meatType "pork_shoulder" then
                 Some (toFixed timeHours 1 ++ " hours at 225°F<br>"
                       ++ "Allow extra time for resting")
               else None)
        end
    | None =>
        if isInherited meatType then result nan None
        else Throw ("Unsupported meat type: " ++ meatType)
    end.

End BBQCalculator.

(* ================================================================== *)
(** * Properties *)

Import JS IngredientProcessor ShoppingListGenerator ReminderFormatter.

(** ** The vocabulary of the statements *)

(** *** Sample data *)

(** A hand-written record [{ quantity, unit, item }]. *)
Definition line (q : option float) (u : option string) (i : string)
  : IngredientLine :=
  {| quantity := q;
     unit := option_map Unit u;
     item := Some i;
     originalText := None;
     category := None;
     consolidated := false;
     scaled := false;
     originalQuantity := None |}.

(** A recipe object [{ id, title, ingredients }]. *)
Definition recipe (id title : string) (ingredients : list string) : value :=
  VObj [ ("id", VStr id); ("title", VStr title);
         ("ingredients", VArr (map VStr ingredients)) ].

Definition ribs : value :=
  recipe "r1" "BBQ Ribs"
    [ "2 lbs baby back ribs"; "1/2 cup brown sugar"; "1 tsp salt" ].

Definition sauce : value :=
  recipe "r2" "BBQ Sauce"
    [ "1/4 cup brown sugar"; "2 tsp salt"; "1 cup ketchup" ].

Definition noOptions : ReminderFormatter.Options :=
  {| ReminderFormatter.listName := VUndefined;
     ReminderFormatter.organizeByCategory := false;
     ReminderFormatter.platform := VUndefined |}.

Definition flourList : ShoppingList :=
  {| title := VStr "Test Shopping List";
     items := Some (Array [Some (line (Some 2%float) (Some "cup") "flour")]);
     organized := None;
     recipes := None;
     itemCount := None;
     createdAt := None;
     scaleMultiplier := None;
     scaledAt := None |}.

(** *** Categories *)



(** *** Consolidation *)

(** The elements the loop does not skip, in order. *)
Definition usable (elems : list (option IngredientLine))
  : list IngredientLine :=
  filter itemTruthy (somes elems).

(** An element that is [null] or [undefined], or whose item is missing or
    empty. *)
Definition skippedElement (e : option IngredientLine) : Prop :=
  match e with
  | None => True
  | Some r => item r = None \/ item r = Some ""
  end.

(** The members of the group of key [k]. *)
Definition group (k : string) (l : list IngredientLine)
  : list IngredientLine :=
  filter (fun r => String.eqb (keyOf r) k) l.

(** What a later member of a group does to the record kept for the group. *)
Definition absorb (existing ingredient : IngredientLine) : IngredientLine :=
  match quantity existing, quantity ingredient with
  | Some a, Some b => addQuantity existing (a + b)%float
  | _, _ => existing
  end.

(** The distinct keys, in the order of their first appearance. *)
Fixpoint distinct (l : list string) : list string :=
  match l with
  | [] => []
  | k :: r => k :: filter (fun k' => negb (String.eqb k' k)) (distinct r)
  end.

(** The step of the loop on an element that is not skipped. *)
Definition keep (m : Map) (x : IngredientLine) : Map :=
  match assoc (keyOf x) m with
  | Some existing => mapUpdate m (keyOf x) (absorb existing x)
  | None => (m ++ [(keyOf x, x)])%list
  end.

(** The first member of every group, in the order of the list. *)
Fixpoint firsts (l : list IngredientLine) : list IngredientLine :=
  match l with
  | [] => []
  | x :: r =>
      x :: filter (fun y => negb (String.eqb (keyOf y) (keyOf x))) (firsts r)
  end.

(** The record the loop ends with for the group that [first] starts. *)
Definition afterGroup (l : list IngredientLine) (first : IngredientLine)
  : IngredientLine :=
  fold_left absorb (tl (group (keyOf first) l)) first.

(** Some record of [l] has the key [k]. *)
Definition hasKey (k : string) (l : list IngredientLine) : bool :=
  existsb (fun y => String.eqb (keyOf y) k) l.

(** The state of the map: one entry per first member. *)
Definition entries (h : IngredientLine -> IngredientLine)
  (fs : list IngredientLine) : Map :=
  map (fun f => (keyOf f, h f)) fs.

(** [t.endsWith(s)] *)
Fixpoint endsWith (t s : string) : bool :=
  String.eqb t s ||
  match t with
  | EmptyString => false
  | String _ r => endsWith r s
  end.

(** The texts that stand for a unit in a key, for records whose unit is
    [null] or canonical. *)
Definition unitTexts : list string := "no-unit" :: map snd unitMap.

(** A unit of the data model: [null], or a canonical unit name. *)
Definition canonicalOrNull (u : option unit_value) : Prop :=
  u = None \/ exists s, u = Some (Unit s) /\ In s (map snd unitMap).

(** The fields a summed record takes from the first member. *)
Definition sameDescription (r first : IngredientLine) : Prop :=
  unit r = unit first /\ item r = item first
  /\ originalText r = originalText first /\ category r = category first
  /\ scaled r = scaled first /\ originalQuantity r = originalQuantity first.

(** *** Written quantities *)







(** The first character of [s] satisfies [p]. *)
Definition startsWith (p : ascii -> bool) (s : string) : bool :=
  match s with
  | String c _ => p c
  | EmptyString => false
  end.

(** [s] is empty or its first character does not satisfy [p]. *)
Definition stopsAt (p : ascii -> bool) (s : string) : bool :=
  match s with
  | String c _ => negb (p c)
  | EmptyString => true
  end.

(** *** The reminder link *)

(** The arrays of the categories, one after the other, when every category
    holds an array. *)
Fixpoint categoryArrays (org : list (string * arg (option IngredientLine)))
  : option (list (option IngredientLine)) :=
  match org with
  | [] => Some []
  | (_, Array l) :: r => option_map (app l) (categoryArrays r)
  | (_, NotArray) :: _ => None
  end.



(** *** Categories of a list *)

(** A record whose category is not the name of a member of
    [Object.prototype]; [null] is not categorised. *)
Definition categorised (e : option IngredientLine) : bool :=
  match e with
  | Some r => negb (isInherited (categoryOrPantry r))
  | None => false
  end.

(** A record of the category [c]. *)
Definition inCategory (c : string) (e : option IngredientLine) : bool :=
  match e with
  | Some r => String.eqb (categoryOrPantry r) c
  | None => false
  end.

(** The array of the category [c] for the elements [l]: the elements of
    the category, in their order, when there is one. *)
Definition bucket (c : string) (l : list (option IngredientLine))
  : option (list (option IngredientLine)) :=
  if existsb (inCategory c) l then Some (filter (inCategory c) l) else None.

(** The records of a list. *)
Definition records (sl : ShoppingList) : list IngredientLine :=
  match items sl with
  | Some (Array l) => somes l
  | _ => []
  end.

(** An ingredient that [parseIngredient] turns into a record: a non-empty
    string. *)
Definition isLine (v : value) : bool :=
  match v with
  | VStr s => negb (isEmpty s)
  | _ => false
  end.

(** *** Scaling and filtering *)


(** The record [a] scaled by [m]. *)
Definition scaleRecord (m : float) (a : IngredientLine) : IngredientLine :=
  match ShoppingListManager.scaleItem m (Some a) with
  | Ok (Some b) => b
  | _ => a
  end.

(** The category of the record is one of [categories]. *)
Definition listed (categories : list value) (r : IngredientLine) : bool :=
  ShoppingListManager.includesCategory categories (category r).

(** Every element of the array is a record. *)
Definition allRecords (l : list (option IngredientLine)) : bool :=
  forallb (fun e => match e with Some _ => true | None => false end) l.


(** *** The characters of a link *)


(** *** Text without markup *)

(** The character [ch] occurs in the text. *)
Fixpoint hasChar (ch : ascii) (s : string) : bool :=
  match s with
  | EmptyString => false
  | String c r => Ascii.eqb c ch || hasChar ch r
  end.

(** The text holds a tag: some [<] of it is followed, later, by a [>]. *)
Fixpoint holdsTag (s : string) : bool :=
  match s with
  | EmptyString => false
  | String c r => (Ascii.eqb c "<" && hasChar ">" r) || holdsTag r
  end.

(** [s] is [t] with some characters left out. *)
Inductive within : string -> string -> Prop :=
  | within_empty : within EmptyString EmptyString
  | within_skip (c : ascii) (s t : string) :
      within s t -> within s (String c t)
  | within_keep (c : ascii) (s t : string) :
      within s t -> within (String c s) (String c t).

(** *** Searching *)


(** *** More sample data *)

(** A record with its category. *)
Definition lineIn (c : string) (q : option float) (u : option string)
  (i : string) : IngredientLine :=
  {| quantity := q;
     unit := option_map Unit u;
     item := Some i;
     originalText := None;
     category := Some c;
     consolidated := false;
     scaled := false;
     originalQuantity := None |}.

Definition beefAndFlour : ShoppingList :=
  {| title := VStr "Dinner";
     items :=
       Some (Array [ Some (lineIn "meat" (Some 2%float) (Some "pound") "beef");
                     Some (lineIn "pantry" (Some 1%float) (Some "cup")
                             "flour") ]);
     organized := None;
     recipes := None;
     itemCount := Some 2%nat;
     createdAt := None;
     scaleMultiplier := None;
     scaledAt := None |}.

(** The options [{ scaleMultiplier: 2 }]. *)
Definition doubled : ShoppingListManager.Options.t :=
  {| ShoppingListManager.Options.listName := VUndefined;
     ShoppingListManager.Options.scaleMultiplier := VNum 2;
     ShoppingListManager.Options.categoryFilter := VUndefined |}.

(** A repository that holds the ribs under every id, and one that
    rejects the ids that are not valid. *)
Definition ribsOnly (id : value) : thrown value := Ok ribs.

Definition ribsForValidIds (id : value) : thrown value :=
  if ShoppingListValidator.idIsValid id then Ok ribs
  else Throw "not a valid id".

(** Two saved texts. *)
Definition twoSaved : ShoppingListManager.SavedLists string :=
  [ ("monday",
     {| ShoppingListManager.listId := "monday";
        ShoppingListManager.shoppingList := "ribs";
        ShoppingListManager.savedAt := 10%Z;
        ShoppingListManager.version := 1 |});
    ("tuesday",
     {| ShoppingListManager.listId := "tuesday";
        ShoppingListManager.shoppingList := "sauce";
        ShoppingListManager.savedAt := 20%Z;
        ShoppingListManager.version := 1 |}) ].

(** A request for two recipes, with markup in the name of the list. *)
Definition ribsRequest : value :=
  VObj [ ("recipeIds", VArr [VStr "r1"; VStr " r2 "]);
         ("listName", VStr "<b>BBQ</b> night");
         ("options",
          VObj [ ("scaleMultiplier", VNum 2);
                 ("categoryFilter", VArr [VStr "meat"]) ]) ].

(** *** Reading escapes back *)


(** ** The end-to-end scenario *)

(** C3: the two BBQ recipes, consolidated, give a successful result with
    exactly four items of distinct names; brown sugar has quantity 0.75 and
    salt has quantity 3, both marked consolidated. *)
Theorem bbq_scenario (now : timestamp) :
  exists sl its,
    generateFromMultipleRecipes now (VArr [ribs; sauce]) VNull = Success sl
    /\ items sl = Some (Array (map Some its))
    /\ itemCount sl = Some 4%nat
    /\ List.length its = 4%nat
    /\ NoDup (map item its)
    /\ (exists x, In x its /\ item x = Some "brown sugar"
                  /\ quantity x = Some 0.75%float /\ consolidated x = true)
    /\ (exists x, In x its /\ item x = Some "salt"
                  /\ quantity x = Some 3%float /\ consolidated x = true).
Proof.
  pose (r := generateFromMultipleRecipes now (VArr [ribs; sauce]) VNull).
  vm_compute in r.
  match eval cbv delta [r] in r with
  | Success ?sl =>
      exists sl;
      match eval cbv in (items sl) with
      | Some (Array ?l) => exists (somes l)
      | _ => fail
      end
  | _ => fail
  end.
  split; [vm_compute; reflexivity|].
  split; [reflexivity|].
  split; [reflexivity|].
  split; [reflexivity|].
  split.
  - cbn [map item somes].
    repeat (constructor; [cbn [In]; intuition discriminate|]).
    constructor.
  - cbn [somes].
    split; eexists.
    + split; [right; left; reflexivity|repeat split].
    + split; [right; right; left; reflexivity|repeat split].
Qed.

(** ** Fractions *)

(** C9: printing the parsed value of each canonical fraction gives the
    fraction back. *)
Theorem canonical_fractions_round_trip :
  Forall (fun s => ReminderFormatter.formatAsFraction (parseFraction s) = s)
         [ "1/2"; "1/4"; "3/4"; "1/3"; "2/3" ].
Proof.
  repeat constructor; vm_compute; reflexivity.
Qed.

(** ** Parsing: which inputs give a record *)

Lemma parseIngredient_string (s : string) :
  s <> "" -> exists r, parseIngredient (VStr s) = Some r.
Proof.
  intros Hs. destruct s as [|c s]; [congruence|].
  unfold parseIngredient. cbn [isEmpty].
  destruct (stripQuantityAndUnit (trim (String c s))) as [[q u] rest].
  eexists. reflexivity.
Qed.

(** C6, as the code has it: [parseIngredient] returns a record exactly for
    the non-empty strings; every other value, the empty string included,
    gives [null]. *)
Theorem parseIngredient_record_iff (v : value) :
  (exists r, parseIngredient v = Some r) <-> (exists s, v = VStr s /\ s <> "").
Proof.
  split.
  - intros [r Hr]. destruct v; try discriminate.
    exists s. split; [reflexivity|].
    intros ->. discriminate.
  - intros [s [-> Hs]]. now apply parseIngredient_string.
Qed.

(** C6 fails on the empty string, which is a string and gives [null]. *)
Lemma parseIngredient_empty_string :
  isString (VStr "") = true /\ parseIngredient (VStr "") = None.
Proof. split; reflexivity. Qed.

(** ** Scaling *)

(** C7: the multiplier check lets [NaN] and [Infinity] through; scaling the
    one-item flour list by either succeeds and returns a scaled list, whose
    quantity is [NaN], or [Infinity].  Zero and a negative number are
    refused. *)
Theorem scaleQuantities_accepts_nan_and_infinity (now : timestamp) :
  (exists sl r,
     ShoppingListManager.scaleQuantities now (Some flourList) (VNum nan)
       = Success sl
     /\ title sl = VStr "Test Shopping List (scaled NaNx)"
     /\ scaleMultiplier sl = Some nan
     /\ items sl = Some (Array [Some r])
     /\ quantity r = Some nan)
  /\ (exists sl r,
        ShoppingListManager.scaleQuantities now (Some flourList)
          (VNum infinity) = Success sl
        /\ title sl = VStr "Test Shopping List (scaled Infinityx)"
        /\ scaleMultiplier sl = Some infinity
        /\ items sl = Some (Array [Some r])
        /\ quantity r = Some infinity)
  /\ ShoppingListManager.scaleQuantities now (Some flourList) (VNum 0)
     = Failure "Scale multiplier must be greater than 0" None
  /\ ShoppingListManager.scaleQuantities now (Some flourList) (VNum (-1))
     = Failure "Scale multiplier must be greater than 0" None.
Proof.
  split; [|split; [|split]];
    try (eexists; eexists; split; [vm_compute; reflexivity|];
         repeat split; reflexivity);
    vm_compute; reflexivity.
Qed.

(** ** Lemmas on strings *)

Lemma append_empty_r (s : string) : s ++ "" = s.
Proof. induction s as [|c s IH]; cbn; [reflexivity|now rewrite IH]. Qed.




(** ** Categories *)







(** ** Consolidation *)

Lemma skipped_step (m : Map) (e : option IngredientLine) :
  skippedElement e -> consolidateStep m e = m.
Proof.
  destruct e as [r|]; [|reflexivity].
  unfold skippedElement, consolidateStep, itemTruthy.
  now intros [-> | ->].
Qed.

Lemma not_skipped_truthy (r : IngredientLine) :
  itemTruthy r = false -> skippedElement (Some r).
Proof.
  unfold itemTruthy, skippedElement.
  destruct (item r) as [[|c s]|]; cbn; auto; discriminate.
Qed.

Lemma mapUpdate_same (m : Map) (k : string) (v : IngredientLine) :
  assoc k m = Some v -> mapUpdate m k v = m.
Proof.
  induction m as [|[k' x] m IH]; cbn; [reflexivity|].
  destruct (String.eqb k k').
  - now intros [= ->].
  - intros H. now rewrite IH.
Qed.

Lemma kept_step (m : Map) (r : IngredientLine) :
  itemTruthy r = true -> consolidateStep m (Some r) = keep m r.
Proof.
  intros Hr. unfold consolidateStep, keep. rewrite Hr. cbn [negb].
  destruct (assoc (keyOf r) m) as [existing|] eqn:Ha; [|reflexivity].
  unfold absorb.
  destruct (quantity existing), (quantity r);
    try reflexivity; now rewrite mapUpdate_same.
Qed.

Lemma fold_usable (elems : list (option IngredientLine)) (m : Map) :
  fold_left consolidateStep elems m = fold_left keep (usable elems) m.
Proof.
  revert m. unfold usable.
  induction elems as [|[r|] elems IH]; intros m; cbn [fold_left somes filter].
  - reflexivity.
  - destruct (itemTruthy r) eqn:Hr.
    + cbn [fold_left]. rewrite <- IH. now rewrite kept_step.
    + rewrite skipped_step by now apply not_skipped_truthy. apply IH.
  - apply IH.
Qed.

Lemma usable_app (a b : list (option IngredientLine)) :
  usable (a ++ b) = (usable a ++ usable b)%list.
Proof.
  unfold usable. rewrite <- filter_app. f_equal.
  induction a as [|[r|] a IH]; cbn; [reflexivity| |assumption].
  now rewrite IH.
Qed.

Lemma usable_skipped (e : option IngredientLine) :
  skippedElement e -> usable [e] = [].
Proof.
  destruct e as [r|]; [|reflexivity].
  unfold usable, skippedElement, itemTruthy. cbn.
  now intros [-> | ->].
Qed.

Lemma usable_truthy (elems : list (option IngredientLine)) :
  Forall (fun r => itemTruthy r = true) (usable elems).
Proof.
  unfold usable. apply Forall_forall. intros r Hr.
  now apply filter_In in Hr.
Qed.

Lemma mapUpdate_Forall (P : IngredientLine -> Prop) (m : Map) (k : string)
  (v : IngredientLine) :
  Forall (fun e => P (snd e)) m -> P v ->
  Forall (fun e => P (snd e)) (mapUpdate m k v).
Proof.
  intros Hm Hv. induction Hm as [|[k' x] m Hx Hm IH]; cbn; [constructor|].
  destruct (String.eqb k k'); constructor; auto.
Qed.

Lemma assoc_In {A : Type} (k : string) (m : list (string * A)) (v : A) :
  assoc k m = Some v -> In (k, v) m.
Proof.
  induction m as [|[k' x] m IH]; cbn; [discriminate|].
  destruct (String.eqb_spec k k') as [->|Hk].
  - intros [= ->]. now left.
  - intros H. right. now apply IH.
Qed.

Lemma absorb_item (a b : IngredientLine) : item (absorb a b) = item a.
Proof. unfold absorb. now destruct (quantity a), (quantity b). Qed.

Lemma keep_truthy (m : Map) (x : IngredientLine) :
  Forall (fun e => itemTruthy (snd e) = true) m -> itemTruthy x = true ->
  Forall (fun e => itemTruthy (snd e) = true) (keep m x).
Proof.
  intros Hm Hx. unfold keep.
  destruct (assoc (keyOf x) m) as [existing|] eqn:Ha.
  - apply (mapUpdate_Forall (fun r => itemTruthy r = true)); [assumption|].
    apply assoc_In in Ha.
    rewrite Forall_forall in Hm. specialize (Hm _ Ha). cbn in Hm.
    unfold itemTruthy in *. now rewrite absorb_item.
  - apply Forall_app. split; [assumption|]. now repeat constructor.
Qed.

Lemma fold_keep_truthy (l : list IngredientLine) (m : Map) :
  Forall (fun r => itemTruthy r = true) l ->
  Forall (fun e => itemTruthy (snd e) = true) m ->
  Forall (fun e => itemTruthy (snd e) = true) (fold_left keep l m).
Proof.
  intros Hl. revert m. induction Hl as [|x l Hx Hl IH]; intros m Hm; cbn.
  - assumption.
  - apply IH. now apply keep_truthy.
Qed.

(** C10: an argument that is not an array gives the empty list; an element
    that is [null], [undefined] or has a missing or empty item can be
    removed from the array without changing the result, and every record of
    the result has a non-empty item. *)
Theorem consolidate_skips_unusable :
  consolidateIngredients NotArray = []
  /\ (forall before e after,
        skippedElement e ->
        consolidateIngredients (Array (before ++ e :: after))
        = consolidateIngredients (Array (before ++ after)))
  /\ (forall elems r,
        In r (consolidateIngredients (Array elems)) ->
        exists s, item r = Some s /\ s <> "").
Proof.
  split; [reflexivity|split].
  - intros before e after He. unfold consolidateIngredients.
    rewrite !fold_usable, !usable_app.
    change (e :: after)%list with ([e] ++ after)%list.
    now rewrite usable_app, usable_skipped.
  - intros elems r Hr. unfold consolidateIngredients in Hr.
    rewrite fold_usable in Hr. apply in_map_iff in Hr.
    destruct Hr as [[k x] [<- Hin]].
    pose proof (fold_keep_truthy (usable elems) [] (usable_truthy elems)
                  (Forall_nil _)) as H.
    rewrite Forall_forall in H. specialize (H _ Hin). cbn in H |- *.
    unfold itemTruthy in H.
    destruct (item x) as [[|c s]|]; try discriminate.
    eexists. split; [reflexivity|discriminate].
Qed.

(** C10 on an array with a record for salt, a [null] and a record with an
    empty item: the last two can be removed. *)
Lemma consolidate_skips_null_and_itemless :
  consolidateIngredients
    (Array [ Some (line (Some 1%float) (Some "teaspoon") "salt"); None;
             Some (line (Some 2%float) (Some "teaspoon") "") ])
  = consolidateIngredients
      (Array [ Some (line (Some 1%float) (Some "teaspoon") "salt");
               Some (line (Some 2%float) (Some "teaspoon") "") ])
  /\ consolidateIngredients
       (Array [ Some (line (Some 1%float) (Some "teaspoon") "salt");
                Some (line (Some 2%float) (Some "teaspoon") "") ])
     = consolidateIngredients
         (Array [ Some (line (Some 1%float) (Some "teaspoon") "salt") ]).
Proof.
  split.
  - exact (proj1 (proj2 consolidate_skips_unusable)
             [ Some (line (Some 1%float) (Some "teaspoon") "salt") ] None
             [ Some (line (Some 2%float) (Some "teaspoon") "") ] I).
  - exact (proj1 (proj2 consolidate_skips_unusable)
             [ Some (line (Some 1%float) (Some "teaspoon") "salt") ]
             (Some (line (Some 2%float) (Some "teaspoon") "")) []
             (or_intror eq_refl)).
Defined.

Lemma existsb_filter {A : Type} (p q : A -> bool) (l : list A) :
  (forall y, p y = true -> q y = true) ->
  existsb p (filter q l) = existsb p l.
Proof.
  intros H. induction l as [|y l IH]; [reflexivity|].
  cbn [filter existsb]. destruct (q y) eqn:Hq; cbn [existsb].
  - now rewrite IH.
  - destruct (p y) eqn:Hp; [|exact IH].
    rewrite (H y Hp) in Hq. discriminate.
Qed.

Lemma hasKey_firsts (k : string) (l : list IngredientLine) :
  hasKey k (firsts l) = hasKey k l.
Proof.
  induction l as [|x l IH]; [reflexivity|].
  cbn [firsts hasKey existsb]. fold (hasKey k l). rewrite <- IH.
  destruct (String.eqb_spec (keyOf x) k) as [Hx|Hx]; [reflexivity|].
  cbn [orb]. unfold hasKey. apply existsb_filter.
  intros y Hy. apply String.eqb_eq in Hy.
  destruct (String.eqb_spec (keyOf y) (keyOf x)); [congruence|reflexivity].
Qed.

Lemma hasKey_false (k : string) (l : list IngredientLine) :
  hasKey k l = false -> forall y, In y l -> String.eqb (keyOf y) k = false.
Proof.
  unfold hasKey. intros H y Hy.
  destruct (String.eqb (keyOf y) k) eqn:E; [|reflexivity].
  rewrite <- H. symmetry. apply existsb_exists. eauto.
Qed.

Lemma firsts_snoc (l : list IngredientLine) (x : IngredientLine) :
  firsts (l ++ [x])
  = if hasKey (keyOf x) l then firsts l else (firsts l ++ [x])%list.
Proof.
  induction l as [|a l IH]; [reflexivity|].
  cbn [app firsts hasKey existsb]. fold (hasKey (keyOf x) l). rewrite IH.
  destruct (String.eqb_spec (keyOf a) (keyOf x)) as [Ha|Ha]; cbn [orb].
  - destruct (hasKey (keyOf x) l); [reflexivity|].
    rewrite filter_app. cbn [filter].
    rewrite Ha, String.eqb_refl. cbn [negb]. now rewrite app_nil_r.
  - destruct (hasKey (keyOf x) l); [reflexivity|].
    rewrite filter_app. cbn [filter].
    destruct (String.eqb_spec (keyOf x) (keyOf a)); [congruence|reflexivity].
Qed.

Lemma firsts_keys_NoDup (l : list IngredientLine) :
  NoDup (map keyOf (firsts l)).
Proof.
  induction l as [|x l IH]; cbn [firsts map]; constructor.
  - intros Hin. apply in_map_iff in Hin. destruct Hin as [y [Hy Hin]].
    apply filter_In in Hin. destruct Hin as [_ Hneq].
    rewrite Hy, String.eqb_refl in Hneq. discriminate.
  - induction (firsts l) as [|y f IHf]; [constructor|].
    cbn [filter]. inversion IH as [|? ? Hnot Hnd]; subst.
    destruct (negb (String.eqb (keyOf y) (keyOf x))); [|now apply IHf].
    cbn [map]. constructor; [|now apply IHf].
    intros Hin. apply Hnot. apply in_map_iff in Hin.
    destruct Hin as [z [Hz Hin]]. apply filter_In in Hin.
    apply in_map_iff. exists z. tauto.
Qed.

Lemma group_snoc (k : string) (l : list IngredientLine) (x : IngredientLine) :
  group k (l ++ [x])
  = if String.eqb (keyOf x) k then (group k l ++ [x])%list else group k l.
Proof.
  unfold group. rewrite filter_app. cbn [filter].
  destruct (String.eqb (keyOf x) k); [reflexivity|apply app_nil_r].
Qed.

Lemma group_empty (k : string) (l : list IngredientLine) :
  hasKey k l = false -> group k l = [].
Proof.
  intros H. unfold group. induction l as [|y l IH]; [reflexivity|].
  cbn [filter]. rewrite (hasKey_false k _ H y (or_introl eq_refl)).
  apply IH. unfold hasKey in *. cbn [existsb] in H.
  now apply orb_false_iff in H.
Qed.

Lemma group_nonempty (k : string) (l : list IngredientLine) :
  hasKey k l = true -> group k l <> [].
Proof.
  unfold hasKey. intros H. apply existsb_exists in H.
  destruct H as [y [Hin Hy]]. intros Hg.
  assert (In y (group k l)) as Hy' by (apply filter_In; tauto).
  now rewrite Hg in Hy'.
Qed.

Lemma assoc_entries_none (h : IngredientLine -> IngredientLine)
  (fs : list IngredientLine) (k : string) :
  hasKey k fs = false -> assoc k (entries h fs) = None.
Proof.
  induction fs as [|f fs IH]; [reflexivity|].
  unfold hasKey. cbn [existsb entries map assoc]. intros H.
  apply orb_false_iff in H. destruct H as [Hf Hfs].
  rewrite String.eqb_sym, Hf. now apply IH.
Qed.

Lemma assoc_entries_some (h : IngredientLine -> IngredientLine)
  (fs : list IngredientLine) (k : string) :
  hasKey k fs = true ->
  exists f, In f fs /\ keyOf f = k /\ assoc k (entries h fs) = Some (h f).
Proof.
  induction fs as [|f fs IH]; [discriminate|].
  unfold hasKey. cbn [existsb entries map assoc]. intros H.
  destruct (String.eqb_spec (keyOf f) k) as [Hf|Hf].
  - exists f. rewrite <- Hf, String.eqb_refl. auto with datatypes.
  - destruct (IH H) as [g [Hin [Hk Ha]]]. exists g.
    destruct (String.eqb_spec k (keyOf f)); [congruence|].
    auto with datatypes.
Qed.

Lemma mapUpdate_entries (h : IngredientLine -> IngredientLine)
  (fs : list IngredientLine) (k : string) (v : IngredientLine) :
  NoDup (map keyOf fs) ->
  mapUpdate (entries h fs) k v
  = entries (fun f => if String.eqb k (keyOf f) then v else h f) fs.
Proof.
  induction fs as [|f fs IH]; [reflexivity|].
  cbn [map entries mapUpdate]. intros Hnd.
  inversion Hnd as [|? ? Hnot Hnd']; subst.
  destruct (String.eqb_spec k (keyOf f)) as [->|Hk].
  - f_equal. apply map_ext_in. intros g Hg.
    destruct (String.eqb_spec (keyOf f) (keyOf g)) as [E|E]; [|reflexivity].
    exfalso. apply Hnot. rewrite E. now apply in_map.
  - f_equal. now apply IH.
Qed.

Lemma fold_keep_closed_form (l : list IngredientLine) :
  fold_left keep l [] = entries (afterGroup l) (firsts l).
Proof.
  induction l as [|x l IH] using rev_ind; [reflexivity|].
  rewrite fold_left_app. cbn [fold_left]. rewrite IH, firsts_snoc.
  unfold keep.
  destruct (hasKey (keyOf x) l) eqn:Hk.
  - pose proof Hk as Hk'. rewrite <- hasKey_firsts in Hk'.
    destruct (assoc_entries_some (afterGroup l) _ _ Hk') as [f [Hin [Hf Ha]]].
    rewrite Ha, mapUpdate_entries by apply firsts_keys_NoDup.
    apply map_ext_in. intros g Hg. f_equal.
    unfold afterGroup. rewrite group_snoc.
    destruct (String.eqb_spec (keyOf x) (keyOf g)) as [E|E].
    + assert (g = f) as ->.
      { pose proof (firsts_keys_NoDup l) as Hnd.
        clear - Hin Hg Hf E Hnd.
        induction (firsts l) as [|a fs IHfs]; [contradiction|].
        inversion Hnd as [|? ? Hnot Hnd']; subst.
        destruct Hin as [->|Hin], Hg as [->|Hg]; auto.
        - exfalso. apply Hnot. rewrite Hf, E. now apply in_map.
        - exfalso. apply Hnot. rewrite <- E, <- Hf. now apply in_map. }
      rewrite Hf.
      pose proof (group_nonempty _ _ Hk) as Hne.
      destruct (group (keyOf x) l) as [|a g']; [congruence|].
      cbn [tl app]. now rewrite fold_left_app.
    + reflexivity.
  - rewrite assoc_entries_none by now rewrite hasKey_firsts.
    unfold entries. rewrite map_app. cbn [map]. f_equal.
    + apply map_ext_in. intros g Hg. f_equal.
      unfold afterGroup. rewrite group_snoc.
      rewrite <- hasKey_firsts in Hk.
      destruct (String.eqb_spec (keyOf x) (keyOf g)) as [E|E]; [|reflexivity].
      pose proof (hasKey_false _ _ Hk g Hg) as Hg'.
      rewrite E, String.eqb_refl in Hg'. discriminate.
    + unfold afterGroup. rewrite group_snoc, String.eqb_refl.
      now rewrite (group_empty _ _ Hk).
Qed.

Lemma consolidate_closed_form (elems : list (option IngredientLine)) :
  consolidateIngredients (Array elems)
  = map (afterGroup (usable elems)) (firsts (usable elems)).
Proof.
  unfold consolidateIngredients.
  rewrite fold_usable, fold_keep_closed_form. unfold entries.
  rewrite map_map. reflexivity.
Qed.

Lemma absorb_key (a b : IngredientLine) : keyOf (absorb a b) = keyOf a.
Proof. unfold absorb. now destruct (quantity a), (quantity b). Qed.

Lemma fold_absorb_key (others : list IngredientLine) (first : IngredientLine) :
  keyOf (fold_left absorb others first) = keyOf first.
Proof.
  revert first. induction others as [|x others IH]; intros first; cbn.
  - reflexivity.
  - now rewrite IH, absorb_key.
Qed.

Lemma map_filter_key (p : string -> bool) (fs : list IngredientLine) :
  map keyOf (filter (fun y => p (keyOf y)) fs) = filter p (map keyOf fs).
Proof.
  induction fs as [|f fs IH]; cbn; [reflexivity|].
  destruct (p (keyOf f)); cbn; now rewrite IH.
Qed.

Lemma firsts_keys (l : list IngredientLine) :
  map keyOf (firsts l) = distinct (map keyOf l).
Proof.
  induction l as [|x l IH]; cbn [firsts map distinct]; [reflexivity|].
  f_equal. rewrite <- IH.
  apply (map_filter_key (fun k' => negb (String.eqb k' (keyOf x)))).
Qed.

Lemma firsts_head_group (l : list IngredientLine) (f : IngredientLine) :
  In f (firsts l) -> exists others, group (keyOf f) l = f :: others.
Proof.
  induction l as [|x l IH]; [contradiction|].
  cbn [firsts]. intros [->|Hin].
  - eexists. unfold group. cbn [filter]. now rewrite String.eqb_refl.
  - apply filter_In in Hin. destruct Hin as [Hin Hneq].
    destruct (IH Hin) as [others Ho]. exists others.
    unfold group in *. cbn [filter].
    rewrite String.eqb_sym.
    now destruct (String.eqb (keyOf f) (keyOf x)).
Qed.

Lemma fold_absorb_without_quantity (others : list IngredientLine)
  (first : IngredientLine) :
  quantity first = None -> fold_left absorb others first = first.
Proof.
  intros Hq. induction others as [|x others IH]; cbn; [reflexivity|].
  unfold absorb at 2. now rewrite Hq.
Qed.

Lemma fold_absorb_with_quantity (others : list IngredientLine)
  (first : IngredientLine) (q : float) :
  quantity first = Some q ->
  fold_left absorb others first
  = match somes (map quantity others) with
    | [] => first
    | qs => addQuantity first (fold_left PrimFloat.add qs q)
    end.
Proof.
  revert first q.
  induction others as [|x others IH]; intros first q Hq; [reflexivity|].
  cbn [fold_left map somes]. unfold absorb at 2. rewrite Hq.
  destruct (quantity x) as [b|].
  - rewrite (IH _ (q + b)%float) by reflexivity.
    cbn [fold_left]. now destruct (somes (map quantity others)).
  - now apply IH.
Qed.

Lemma somes_all_present (others : list IngredientLine) :
  Forall (fun x => quantity x <> None) others ->
  map Some (somes (map quantity others)) = map quantity others.
Proof.
  induction 1 as [|x others Hx _ IH]; [reflexivity|].
  cbn [map somes]. destruct (quantity x); [|congruence].
  cbn [map]. now rewrite IH.
Qed.

(** *** Keys and (item, unit) pairs *)

Lemma append_length (a b : string) :
  String.length (a ++ b) = (String.length a + String.length b)%nat.
Proof. induction a as [|x a IH]; cbn; [reflexivity|now rewrite IH]. Qed.

Lemma append_eq_split (a b s t : string) :
  a ++ s = b ++ t -> (String.length a <= String.length b)%nat ->
  exists d, b = a ++ d /\ s = d ++ t.
Proof.
  revert b. induction a as [|x a IH]; intros b H Hlen.
  - exists b. split; [reflexivity|exact H].
  - destruct b as [|y b]; [cbn in Hlen; lia|].
    cbn in H, Hlen. inversion H; subst.
    destruct (IH b H2 ltac:(lia)) as [d [-> ->]]. now exists d.
Qed.

Lemma endsWith_append (d s : string) : endsWith (d ++ s) s = true.
Proof.
  induction d as [|x d IH]; cbn [append endsWith].
  - destruct s; cbn; [reflexivity|]. now rewrite Ascii.eqb_refl, String.eqb_refl.
  - rewrite IH. apply orb_true_r.
Qed.

Lemma unitTexts_no_suffix :
  forallb (fun t1 =>
    forallb (fun t2 =>
      implb (endsWith ("-" ++ t2) ("-" ++ t1)) (String.eqb t1 t2))
      unitTexts) unitTexts = true.
Proof. vm_compute. reflexivity. Qed.

Lemma key_split (i1 i2 t1 t2 : string) :
  In t1 unitTexts -> In t2 unitTexts ->
  i1 ++ "-" ++ t1 = i2 ++ "-" ++ t2 -> i1 = i2 /\ t1 = t2.
Proof.
  intros H1 H2 E.
  pose proof unitTexts_no_suffix as T. rewrite forallb_forall in T.
  assert (forall a b u v, In u unitTexts -> In v unitTexts ->
            a ++ "-" ++ u = b ++ "-" ++ v ->
            (String.length a <= String.length b)%nat -> a = b /\ u = v) as W.
  { intros a b u v Hu Hv Huv Hlen.
    destruct (append_eq_split a b _ _ Huv Hlen) as [d [Hb Hd]].
    pose proof (T v Hv) as Tv. rewrite forallb_forall in Tv.
    specialize (Tv u Hu). rewrite Hd, endsWith_append in Tv. cbn in Tv.
    apply String.eqb_eq in Tv. subst v.
    split; [|reflexivity]. subst b.
    assert (String.length ("-" ++ u) = String.length (d ++ "-" ++ u))
      as L by now rewrite <- Hd.
    rewrite !append_length in L.
    destruct d; [now rewrite append_empty_r|cbn in L; lia]. }
  destruct (Nat.le_ge_cases (String.length i1) (String.length i2)) as [L|L].
  - now apply W.
  - destruct (W i2 i1 t2 t1 H2 H1 (eq_sym E) L). now split.
Qed.

Lemma canonical_text (r : IngredientLine) :
  canonicalOrNull (unit r) ->
  exists t, In t unitTexts
            /\ keyOf r = (match item r with Some s => s | None => "undefined" end)
                         ++ "-" ++ t
            /\ (t = "no-unit" <-> unit r = None)
            /\ (t <> "no-unit" -> unit r = Some (Unit t)).
Proof.
  unfold keyOf. intros [Hu|[s [Hu Hs]]]; rewrite Hu.
  - exists "no-unit". split; [now left|]. repeat split; congruence.
  - exists s.
    assert (s <> "" /\ s <> "no-unit") as [Hne Hnn].
    { revert Hs. clear. cbn. intuition (subst; discriminate). }
    split; [now right|]. split.
    + destruct s; [congruence|reflexivity].
    + split; [|reflexivity]. split; congruence.
Qed.

Lemma key_is_pair (r1 r2 : IngredientLine) :
  itemTruthy r1 = true -> itemTruthy r2 = true ->
  canonicalOrNull (unit r1) -> canonicalOrNull (unit r2) ->
  (keyOf r1 = keyOf r2 <-> item r1 = item r2 /\ unit r1 = unit r2).
Proof.
  intros I1 I2 U1 U2. split.
  - intros E.
    destruct (canonical_text r1 U1) as [t1 [T1 [K1 [N1 S1]]]].
    destruct (canonical_text r2 U2) as [t2 [T2 [K2 [N2 S2]]]].
    rewrite K1, K2 in E. unfold itemTruthy in I1, I2.
    destruct (item r1) as [i1|]; [|discriminate].
    destruct (item r2) as [i2|]; [|discriminate].
    destruct (key_split _ _ _ _ T1 T2 E) as [-> ->].
    split; [reflexivity|].
    destruct (string_dec t2 "no-unit") as [Hn|Hn].
    + rewrite (proj1 N1 Hn), (proj1 N2 Hn). reflexivity.
    + now rewrite (S1 Hn), (S2 Hn).
  - intros [Hi Hu]. unfold keyOf. now rewrite Hi, Hu.
Qed.

Lemma absorb_description (first x : IngredientLine) :
  sameDescription (absorb first x) first.
Proof.
  unfold absorb, sameDescription.
  destruct (quantity first), (quantity x); repeat split.
Qed.

Lemma fold_absorb_description (others : list IngredientLine)
  (first : IngredientLine) :
  sameDescription (fold_left absorb others first) first.
Proof.
  revert first. induction others as [|x others IH]; intros first.
  - cbn. repeat split.
  - cbn [fold_left].
    destruct (IH (absorb first x)) as (A & B & C & D & E & F).
    destruct (absorb_description first x) as (A' & B' & C' & D' & E' & F').
    repeat split; congruence.
Qed.

Lemma hasKey_In (k : string) (l : list IngredientLine) :
  hasKey k l = true <-> In k (map keyOf l).
Proof.
  unfold hasKey. rewrite existsb_exists, in_map_iff.
  split; intros [y [A B]]; exists y.
  - apply String.eqb_eq in B. tauto.
  - split; [tauto|]. apply String.eqb_eq. tauto.
Qed.

Lemma consolidate_keys (elems : list (option IngredientLine)) :
  map keyOf (consolidateIngredients (Array elems))
  = map keyOf (firsts (usable elems)).
Proof.
  rewrite consolidate_closed_form, map_map.
  apply map_ext. intros f. apply fold_absorb_key.
Qed.

(** C1, as the code has it.  The records that are not skipped are grouped
    by their key, the text [item-unit] with [no-unit] for a missing unit;
    the result has one record per distinct key, in the order of first
    appearance.  The record of a group is its first member after the other
    members, in order: a member with a quantity is added to the record
    (the quantities are summed, the record is marked consolidated) when the
    record has a quantity, and is dropped otherwise; the other fields stay
    those of the first member.  So a first member without quantity survives
    unchanged, and when all members have a quantity the record carries their
    sum.  For records whose unit is [null] or canonical, two keys are equal
    exactly when the items and the units are. *)
Theorem consolidate_by_key :
  (forall elems,
     consolidateIngredients (Array elems)
     = map (afterGroup (usable elems)) (firsts (usable elems))
     /\ map keyOf (consolidateIngredients (Array elems))
        = distinct (map keyOf (usable elems))
     /\ NoDup (map keyOf (consolidateIngredients (Array elems)))
     /\ (forall k,
           In k (map keyOf (consolidateIngredients (Array elems)))
           <-> In k (map keyOf (usable elems))))
  /\ (forall l first,
        In first (firsts l) ->
        exists others,
          group (keyOf first) l = first :: others
          /\ afterGroup l first = fold_left absorb others first)
  /\ (forall first others,
        sameDescription (fold_left absorb others first) first
        /\ (quantity first = None -> fold_left absorb others first = first)
        /\ (forall q,
              quantity first = Some q ->
              match somes (map quantity others) with
              | [] => fold_left absorb others first = first
              | qs =>
                  quantity (fold_left absorb others first)
                  = Some (fold_left PrimFloat.add qs q)
                  /\ consolidated (fold_left absorb others first) = true
              end)
        /\ (forall q,
              quantity first = Some q -> others <> [] ->
              Forall (fun x => quantity x <> None) others ->
              map Some (somes (map quantity others)) = map quantity others
              /\ quantity (fold_left absorb others first)
                 = Some (fold_left PrimFloat.add
                           (somes (map quantity others)) q)
              /\ consolidated (fold_left absorb others first) = true))
  /\ (forall r1 r2,
        itemTruthy r1 = true -> itemTruthy r2 = true ->
        canonicalOrNull (unit r1) -> canonicalOrNull (unit r2) ->
        (keyOf r1 = keyOf r2 <-> item r1 = item r2 /\ unit r1 = unit r2)).
Proof.
  split; [|split; [|split]].
  - intros elems. split; [apply consolidate_closed_form|].
    rewrite consolidate_keys.
    split; [apply firsts_keys|].
    split; [apply firsts_keys_NoDup|].
    intros k. now rewrite <- !hasKey_In, hasKey_firsts.
  - intros l first Hin.
    destruct (firsts_head_group l first Hin) as [others Ho].
    exists others. split; [exact Ho|].
    unfold afterGroup. now rewrite Ho.
  - intros first others.
    split; [apply fold_absorb_description|].
    split; [apply fold_absorb_without_quantity|].
    split.
    + intros q Hq. rewrite (fold_absorb_with_quantity others first q Hq).
      destruct (somes (map quantity others)); [reflexivity|].
      split; reflexivity.
    + intros q Hq Hne Hall.
      pose proof (somes_all_present others Hall) as Hs.
      split; [exact Hs|].
      rewrite (fold_absorb_with_quantity others first q Hq).
      destruct (somes (map quantity others)) as [|b qs].
      * destruct others; [congruence|discriminate].
      * split; reflexivity.
  - apply key_is_pair.
Qed.

(** C1 fails where a member without quantity comes after a first member
    that has one: the members around it are still summed. *)
Lemma consolidate_sums_around_missing_quantity :
  let a := line (Some 1%float) (Some "teaspoon") "salt" in
  let b := line None (Some "teaspoon") "salt" in
  let c := line (Some 2%float) (Some "teaspoon") "salt" in
  keyOf a = keyOf b /\ keyOf b = keyOf c /\ quantity b = None
  /\ consolidateIngredients (Array [Some a; Some b; Some c])
     = [addQuantity a 3%float]
  /\ addQuantity a 3%float <> a.
Proof.
  repeat split; try reflexivity. discriminate.
Qed.

(** C1 on one cup and two cups of onion: one record, quantity 3,
    consolidated. *)
Lemma consolidate_onion_cups :
  let a := line (Some 1%float) (Some "cup") "onion" in
  let b := line (Some 2%float) (Some "cup") "onion" in
  consolidateIngredients (Array [Some a; Some b])
  = [fold_left absorb [b] a]
  /\ quantity (fold_left absorb [b] a) = Some 3%float
  /\ consolidated (fold_left absorb [b] a) = true.
Proof.
  intros a b. split.
  - exact (proj1 (proj1 consolidate_by_key [Some a; Some b])).
  - refine (proj2 (proj2 (proj2 (proj2
              (proj1 (proj2 (proj2 consolidate_by_key)) a [b])))
              1%float eq_refl _ _)).
    + discriminate.
    + repeat constructor. discriminate.
Defined.

(** ** The case of the parsed item *)













(** ** Numbers that are not NaN *)

Lemma shr_1_nonneg (mrs : shr_record) :
  (0 <= shr_m mrs)%Z -> (0 <= shr_m (shr_1 mrs))%Z.
Proof.
  destruct mrs as [m r s]. cbn [shr_m]. intros H.
  destruct m as [|[p|p|]|p]; cbn; lia.
Qed.

Lemma iter_shr_1_nonneg (n : positive) (mrs : shr_record) :
  (0 <= shr_m mrs)%Z -> (0 <= shr_m (iter_pos shr_1 n mrs))%Z.
Proof.
  revert mrs. induction n as [n IH|n IH|]; intros mrs H; cbn [iter_pos].
  - apply IH, IH. now apply shr_1_nonneg.
  - now apply IH, IH.
  - now apply shr_1_nonneg.
Qed.

Lemma shr_fexp_nonneg (m e : Z) (l : location) :
  (0 <= m)%Z -> (0 <= shr_m (fst (shr_fexp prec emax m e l)))%Z.
Proof.
  intros H. unfold shr_fexp, shr.
  assert (0 <= shr_m (shr_record_of_loc m l))%Z as H0
    by (destruct l as [|[]]; exact H).
  destruct (fexp prec emax (Zdigits2 m + e) - e)%Z; cbn [fst]; auto.
  now apply iter_shr_1_nonneg.
Qed.

Lemma round_nearest_even_nonneg (m : Z) (l : location) :
  (0 <= m)%Z -> (0 <= round_nearest_even m l)%Z.
Proof.
  intros H. unfold round_nearest_even.
  destruct l as [|[]]; try destruct (Z.even m); lia.
Qed.

Lemma binary_round_aux_not_nan (sx : bool) (mx ex : Z) (lx : location) :
  (0 <= mx)%Z -> binary_round_aux prec emax sx mx ex lx <> S754_nan.
Proof.
  intros H. unfold binary_round_aux.
  pose proof (shr_fexp_nonneg mx ex lx H) as H1.
  destruct (shr_fexp prec emax mx ex lx) as [mrs' e']. cbn [fst] in H1.
  pose proof (shr_fexp_nonneg _ e' loc_Exact
                (round_nearest_even_nonneg _ (loc_of_shr_record mrs') H1)) as H2.
  destruct (shr_fexp prec emax _ e' loc_Exact) as [mrs'' e'']. cbn [fst] in H2.
  destruct (shr_m mrs'') as [|p|p]; try discriminate.
  - destruct (e'' <=? emax - prec)%Z; discriminate.
  - lia.
Qed.

Lemma binary_round_not_nan (sx : bool) (mx : positive) (ex : Z) :
  binary_round prec emax sx mx ex <> S754_nan.
Proof.
  unfold binary_round. destruct (shl_align mx ex _) as [mz ez].
  apply binary_round_aux_not_nan. lia.
Qed.

Lemma binary_normalize_not_nan (m e : Z) (szero : bool) :
  binary_normalize prec emax m e szero <> S754_nan.
Proof.
  destruct m; cbn [binary_normalize]; try apply binary_round_not_nan.
  discriminate.
Qed.

Lemma SFeqb_refl (s : spec_float) :
  s <> S754_nan -> SFeqb s s = true.
Proof.
  intros Hs. unfold SFeqb, SFcompare.
  destruct s as [[]|[]| |[] m e]; try reflexivity; try congruence.
  - rewrite Z.compare_refl, Pos.compare_cont_refl. reflexivity.
  - rewrite Z.compare_refl, Pos.compare_cont_refl. reflexivity.
Qed.

Lemma is_nan_false (x : float) :
  Prim2SF x <> S754_nan -> PrimFloat.is_nan x = false.
Proof.
  intros H. unfold PrimFloat.is_nan. rewrite FloatAxioms.eqb_spec.
  now rewrite SFeqb_refl.
Qed.

Lemma SF2Prim_not_nan (y : spec_float) :
  y <> S754_nan -> Prim2SF (SF2Prim y) <> S754_nan.
Proof.
  intros Hy. destruct y as [[]|[]| |s m e]; try (vm_compute; discriminate).
  - congruence.
  - cbn [SF2Prim].
    assert (Prim2SF (Z.ldexp (of_uint63 (Uint63.of_Z (Z.pos m))) e) <> S754_nan) as H.
    { rewrite Z_ldexp_spec, of_uint63_spec. unfold SFldexp.
      pose proof (binary_normalize_not_nan
                    (Uint63.to_Z (Uint63.of_Z (Z.pos m))) 0 false) as Hn.
      destruct (binary_normalize prec emax _ 0 false) as [| | |sx mx ex];
        try congruence; try discriminate.
      apply binary_round_not_nan. }
    destruct s; [|exact H].
    rewrite opp_spec.
    destruct (Prim2SF (Z.ldexp (of_uint63 (Uint63.of_Z (Z.pos m))) e));
      cbn; congruence.
Qed.

Lemma Z2F_not_nan (z : Z) : PrimFloat.is_nan (Z2F z) = false.
Proof.
  apply is_nan_false, SF2Prim_not_nan, binary_normalize_not_nan.
Qed.

Lemma Q2F_not_nan (p q : positive) : PrimFloat.is_nan (Q2F p q) = false.
Proof.
  apply is_nan_false, SF2Prim_not_nan.
  unfold SFdiv, SFdiv_core_binary.
  set (m' := match (0 - 0 - _)%Z with
             | Z0 => Z.pos p
             | Zpos _ => Z.shiftl (Z.pos p) _
             | Zneg _ => 0%Z
             end).
  assert (0 <= m')%Z as Hm.
  { subst m'. destruct (0 - 0 - _)%Z; try lia. apply Z.shiftl_nonneg. lia. }
  pose proof (Z.div_pos m' (Z.pos q) Hm ltac:(lia)) as Hq.
  unfold Z.div in Hq.
  destruct (Z.div_eucl m' (Z.pos q)) as [d r].
  now apply binary_round_aux_not_nan.
Qed.

Lemma decimal2F_not_nan (m e : Z) : PrimFloat.is_nan (decimal2F m e) = false.
Proof.
  unfold decimal2F. destruct m as [|p|p]; try reflexivity.
  destruct (400 <? e)%Z; [reflexivity|].
  destruct (e + Z.of_nat (ndigits (Z.pos p)) <? -400)%Z; [reflexivity|].
  destruct (0 <=? e)%Z; [apply Z2F_not_nan|apply Q2F_not_nan].
Qed.

(** ** Lines of the form quantity, unit, item *)

Lemma span_append (p : ascii -> bool) (a b : string) :
  sall p a = true -> stopsAt p b = true ->
  takeWhile p (a ++ b) = a /\ dropWhile p (a ++ b) = b.
Proof.
  intros Ha Hb. induction a as [|c a IH]; cbn [append].
  - destruct b as [|c b]; [now split|].
    cbn in Hb |- *. apply negb_true_iff in Hb. rewrite Hb. now split.
  - cbn in Ha |- *. apply andb_true_iff in Ha. destruct Ha as [Hc Ha].
    rewrite Hc. destruct (IH Ha) as [-> ->]. now split.
Qed.


Lemma span_none (p : ascii -> bool) (b : string) :
  stopsAt p b = true -> takeWhile p b = "" /\ dropWhile p b = b.
Proof. intros Hb. now apply (span_append p "" b). Qed.



Lemma startsWith_stopsAt (p q : ascii -> bool) (s : string) :
  (forall c, p c = true -> q c = false) ->
  startsWith p s = true -> stopsAt q s = true.
Proof.
  intros H. destruct s as [|c s]; [reflexivity|]. cbn.
  intros Hp. now rewrite (H c Hp).
Qed.



(** *** Character classes *)

Lemma digit_char (c : ascii) :
  isDigit c = true ->
  isSpace c = false /\ lowerChar c = c /\ Ascii.eqb c "/" = false
  /\ Ascii.eqb c "." = false /\ Ascii.eqb c "-" = false
  /\ Ascii.eqb c "+" = false /\ Ascii.eqb c "I" = false
  /\ Ascii.eqb c "x" = false /\ Ascii.eqb c "X" = false.
Proof.
  destruct c as [[] [] [] [] [] [] [] []]; intros H;
    try discriminate H; repeat split.
Qed.










(** *** Trimming *)







Lemma trimStart_stops (s : string) : stopsAt isSpace s = true -> trimStart s = s.
Proof. intros H. now apply span_none. Qed.




(** *** Reading numbers *)

Lemma splitSign_digits (s : string) :
  startsWith isDigit s = true -> splitSign s = (false, s).
Proof.
  destruct s as [|c r]; [discriminate|]. cbn [startsWith]. intros Hc.
  destruct (digit_char c Hc) as (_ & _ & _ & _ & Hm & Hp & _).
  destruct c as [[] [] [] [] [] [] [] []];
    try reflexivity; discriminate.
Qed.





(** *** The two patterns of [parseFraction] on a written quantity *)










Lemma trimStart_digit (s : string) :
  startsWith isDigit s = true -> trimStart s = s.
Proof.
  intros H. apply trimStart_stops. revert H. apply startsWith_stopsAt.
  intros c Hc. now apply digit_char.
Qed.





(** *** The quantity pattern at the head of a line *)





(** *** The unit token *)




(** *** The whole line *)





(** ** The reminder link *)

Lemma flattenOrganizedItems_spec
  (org : list (string * arg (option IngredientLine))) :
  flattenOrganizedItems org
  = match categoryArrays org with
    | Some l => Ok l
    | None => Throw "organized[category].forEach is not a function"
    end.
Proof.
  induction org as [|[k [|l]] org IH]; cbn [flattenOrganizedItems categoryArrays];
    try reflexivity.
  cbn [arrayOrThrow bind]. rewrite IH.
  now destruct (categoryArrays org).
Qed.




(* ================================================================== *)
(** * Further properties *)

(** ** Consolidating twice *)

Lemma firsts_fixed (l : list IngredientLine) :
  NoDup (map keyOf l) -> firsts l = l.
Proof.
  induction l as [|x l IH]; [reflexivity|].
  cbn [map firsts]. intros Hnd. inversion Hnd as [|? ? Hnot Hnd']; subst.
  rewrite IH by assumption. f_equal.
  apply forallb_filter_id. apply forallb_forall. intros y Hy.
  destruct (String.eqb_spec (keyOf y) (keyOf x)) as [E|E]; [|reflexivity].
  exfalso. apply Hnot. rewrite <- E. now apply in_map.
Qed.

Lemma group_single (l : list IngredientLine) (x : IngredientLine) :
  NoDup (map keyOf l) -> In x l -> group (keyOf x) l = [x].
Proof.
  induction l as [|y l IH]; [contradiction|].
  cbn [map]. intros Hnd Hin. inversion Hnd as [|? ? Hnot Hnd']; subst.
  unfold group. cbn [filter]. fold (group (keyOf x) l).
  destruct Hin as [->|Hin].
  - rewrite String.eqb_refl. f_equal. apply group_empty.
    unfold hasKey. destruct (existsb _ l) eqn:E; [|reflexivity].
    apply existsb_exists in E. destruct E as [z [Hz E]].
    apply String.eqb_eq in E. exfalso. apply Hnot. rewrite <- E.
    now apply in_map.
  - destruct (String.eqb_spec (keyOf y) (keyOf x)) as [E|E].
    + exfalso. apply Hnot. rewrite E. now apply in_map.
    + now apply IH.
Qed.

Lemma consolidated_truthy (elems : list (option IngredientLine)) :
  Forall (fun r => itemTruthy r = true) (consolidateIngredients (Array elems)).
Proof.
  unfold consolidateIngredients. rewrite fold_usable.
  pose proof (fold_keep_truthy (usable elems) [] (usable_truthy elems)
                (Forall_nil _)) as H.
  apply Forall_map. exact H.
Qed.

Lemma usable_all (l : list IngredientLine) :
  Forall (fun r => itemTruthy r = true) l -> usable (map Some l) = l.
Proof.
  intros H. unfold usable.
  assert (somes (map Some l) = l) as ->.
  { clear H. induction l as [|x l IH]; cbn; [reflexivity|now rewrite IH]. }
  apply forallb_filter_id. now apply forallb_forall, Forall_forall.
Qed.

Lemma consolidate_fixed (l : list IngredientLine) :
  Forall (fun r => itemTruthy r = true) l -> NoDup (map keyOf l) ->
  consolidateIngredients (Array (map Some l)) = l.
Proof.
  intros Ht Hnd. rewrite consolidate_closed_form, usable_all by assumption.
  rewrite firsts_fixed by assumption.
  rewrite <- (map_id l) at 3. apply map_ext_in. intros x Hx.
  unfold afterGroup. now rewrite group_single.
Qed.

(** X1: consolidating the result of a consolidation changes nothing, whatever
    the array consolidated first holds. *)
Theorem consolidate_idempotent (elems : list (option IngredientLine)) :
  consolidateIngredients
    (Array (map Some (consolidateIngredients (Array elems))))
  = consolidateIngredients (Array elems).
Proof.
  apply consolidate_fixed.
  - apply consolidated_truthy.
  - rewrite consolidate_keys. apply firsts_keys_NoDup.
Qed.

(** ** Organising by category *)

Lemma addProperty_split {A : Type} (o : list (string * A)) (k : string) (v : A) :
  exists a b, o = (a ++ b)%list /\ addProperty o k v = (a ++ (k, v) :: b)%list.
Proof.
  induction o as [|[k' v'] o IH]; cbn [addProperty].
  - now exists [], [].
  - destruct (comesBefore k k').
    + now exists [], ((k', v') :: o).
    + destruct IH as [a [b [-> H]]]. exists ((k', v') :: a), b.
      cbn. now rewrite H.
Qed.

Lemma assoc_app_none {A : Type} (k : string) (a b : list (string * A)) :
  assoc k a = None -> assoc k (a ++ b) = assoc k b.
Proof.
  induction a as [|[k' x] a IH]; cbn; [reflexivity|].
  destruct (String.eqb k k'); [discriminate|exact IH].
Qed.

Lemma assoc_app_some {A : Type} (k : string) (a b : list (string * A)) (v : A) :
  assoc k a = Some v -> assoc k (a ++ b) = Some v.
Proof.
  induction a as [|[k' x] a IH]; cbn; [discriminate|].
  destruct (String.eqb k k'); [trivial|exact IH].
Qed.

Lemma assoc_addProperty {A : Type} (o : list (string * A)) (k c : string)
  (v : A) :
  assoc k o = None ->
  assoc c (addProperty o k v) = if String.eqb c k then Some v else assoc c o.
Proof.
  induction o as [|[k' v'] o IH]; cbn [addProperty assoc]; intros Hk.
  - reflexivity.
  - destruct (String.eqb_spec k k') as [->|Hkk]; [discriminate|].
    destruct (comesBefore k k'); cbn [assoc].
    + reflexivity.
    + rewrite IH by assumption.
      destruct (String.eqb_spec c k') as [->|Hc]; [|reflexivity].
      destruct (String.eqb_spec k' k); [congruence|reflexivity].
Qed.

Lemma assoc_pushTo {A : Type} (o : list (string * list A)) (k c : string)
  (x : A) :
  assoc c (pushTo o k x)
  = if String.eqb c k then option_map (fun l => (l ++ [x])%list) (assoc c o)
    else assoc c o.
Proof.
  induction o as [|[k' l] o IH]; cbn [pushTo assoc].
  - now destruct (String.eqb c k).
  - destruct (String.eqb_spec k k') as [->|Hkk]; cbn [assoc].
    + destruct (String.eqb_spec c k'); reflexivity.
    + rewrite IH. destruct (String.eqb_spec c k') as [->|Hc]; [|reflexivity].
      destruct (String.eqb_spec k' k); [congruence|reflexivity].
Qed.

Lemma keys_pushTo {A : Type} (o : list (string * list A)) (k : string) (x : A) :
  map fst (pushTo o k x) = map fst o.
Proof.
  induction o as [|[k' l] o IH]; cbn [pushTo map]; [reflexivity|].
  destruct (String.eqb k k'); cbn [map fst]; [reflexivity|now rewrite IH].
Qed.

Lemma assoc_none_keys {A : Type} (k : string) (o : list (string * A)) :
  assoc k o = None -> ~ In k (map fst o).
Proof.
  induction o as [|[k' x] o IH]; cbn; [tauto|].
  destruct (String.eqb_spec k k') as [->|Hk]; [discriminate|].
  intros H [E|Hin]; [congruence|now apply IH].
Qed.

Lemma concat_pushTo {A : Type} (o : list (string * list A)) (k : string)
  (x : A) (l : list A) :
  assoc k o = Some l ->
  Permutation (concat (map snd (pushTo o k x))) (concat (map snd o) ++ [x]).
Proof.
  induction o as [|[k' l'] o IH]; cbn [pushTo assoc]; [discriminate|].
  destruct (String.eqb k k'); intros H; cbn [map snd concat].
  - rewrite <- !app_assoc. apply Permutation_app_head.
    apply Permutation_app_comm.
  - rewrite <- app_assoc. apply Permutation_app_head. now apply IH.
Qed.

Lemma organize_snoc (l : list (option IngredientLine))
  (e : option IngredientLine) :
  ShoppingListGenerator.organizeByCategory (Array (l ++ [e]))
  = organizeStep (ShoppingListGenerator.organizeByCategory (Array l)) e.
Proof.
  cbn [ShoppingListGenerator.organizeByCategory]. now rewrite fold_left_app.
Qed.

Lemma bucket_snoc (c : string) (l : list (option IngredientLine))
  (e : option IngredientLine) :
  bucket c (l ++ [e])
  = if inCategory c e
    then Some (match bucket c l with Some b => b | None => [] end ++ [e])%list
    else bucket c l.
Proof.
  unfold bucket. rewrite existsb_app, filter_app. cbn [existsb filter].
  destruct (inCategory c e); rewrite ?orb_true_r, ?orb_false_r, ?app_nil_r.
  - destruct (existsb (inCategory c) l) eqn:E; [reflexivity|].
    f_equal. f_equal.
    induction l as [|y l IH]; [reflexivity|].
    cbn [existsb filter] in *. apply orb_false_iff in E.
    destruct E as [-> E]. now apply IH.
  - reflexivity.
Qed.

(** The invariant of the loop. *)
Lemma organize_invariant (l : list (option IngredientLine)) :
  forallb categorised l = true ->
  exists org,
    ShoppingListGenerator.organizeByCategory (Array l) = Ok org
    /\ NoDup (map fst org)
    /\ (forall c, assoc c org = bucket c l)
    /\ Permutation (concat (map snd org)) l.
Proof.
  induction l as [|e l IH] using rev_ind; intros Hl.
  - exists []. repeat split; [constructor|constructor].
  - rewrite forallb_app in Hl. apply andb_true_iff in Hl.
    destruct Hl as [Hl He]. cbn [forallb] in He. rewrite andb_true_r in He.
    destruct (IH Hl) as [org [Ho [Hnd [Hb Hp]]]].
    rewrite organize_snoc, Ho.
    destruct e as [it|]; [|discriminate]. cbn [categorised] in He.
    apply negb_true_iff in He.
    cbn [organizeStep bind].
    destruct (assoc (categoryOrPantry it) org) as [b|] eqn:Ha.
    + eexists. split; [reflexivity|]. split; [|split].
      * now rewrite keys_pushTo.
      * intros c. rewrite assoc_pushTo, bucket_snoc. cbn [inCategory].
        rewrite (String.eqb_sym c).
        destruct (String.eqb_spec (categoryOrPantry it) c) as [<-|E];
          [|apply Hb].
        rewrite Ha. rewrite <- Hb, Ha. reflexivity.
      * eapply Permutation_trans; [now apply (concat_pushTo _ _ _ b)|].
        now apply Permutation_app_tail.
    + rewrite He. eexists. split; [reflexivity|].
      destruct (addProperty_split org (categoryOrPantry it) [Some it])
        as [a [b' [Eo Ea]]].
      rewrite Ea. split; [|split].
      * rewrite map_app. cbn [map fst].
        apply NoDup_Add with (a := categoryOrPantry it)
                             (l := (map fst a ++ map fst b')%list).
        -- apply Add_app.
        -- rewrite <- map_app, <- Eo. split; [assumption|].
           now apply assoc_none_keys.
      * intros c. rewrite <- Ea, assoc_addProperty by assumption.
        rewrite bucket_snoc. cbn [inCategory]. rewrite (String.eqb_sym c).
        destruct (String.eqb_spec (categoryOrPantry it) c) as [<-|E];
          [|apply Hb].
        now rewrite <- Hb, Ha.
      * rewrite map_app, concat_app. cbn [map snd concat].
        rewrite Eo, map_app, concat_app in Hp.
        eapply Permutation_trans;
          [|apply Permutation_app_tail; exact Hp].
        rewrite <- !app_assoc. apply Permutation_app_head.
        cbn [app]. apply Permutation_cons_append.
Qed.

Lemma organize_throw (l : list (option IngredientLine)) (m : string) :
  fold_left organizeStep l (Throw m) = Throw m.
Proof. induction l as [|e l IH]; [reflexivity|exact IH]. Qed.

Lemma bucket_member (c : string) (l b : list (option IngredientLine)) :
  forallb categorised l = true -> bucket c l = Some b -> isInherited c = false.
Proof.
  unfold bucket. intros Hl.
  destruct (existsb (inCategory c) l) eqn:E; [|discriminate]. intros _.
  apply existsb_exists in E. destruct E as [e [Hin He]].
  rewrite forallb_forall in Hl. specialize (Hl e Hin).
  destruct e as [r|]; [|discriminate]. cbn in He, Hl.
  apply String.eqb_eq in He. subst c. now apply negb_true_iff.
Qed.

Lemma organize_ok_categorised (l : list (option IngredientLine))
  (org : list (string * list (option IngredientLine))) :
  ShoppingListGenerator.organizeByCategory (Array l) = Ok org ->
  forallb categorised l = true.
Proof.
  revert org. induction l as [|e l IH] using rev_ind; intros org H.
  - reflexivity.
  - rewrite organize_snoc in H.
    destruct (ShoppingListGenerator.organizeByCategory (Array l))
      as [org'|m] eqn:Ho; [|discriminate].
    specialize (IH org' eq_refl). rewrite forallb_app, IH.
    cbn [forallb andb]. rewrite andb_true_r.
    destruct e as [it|]; [|discriminate]. cbn [organizeStep bind] in H.
    cbn [categorised]. apply negb_true_iff.
    destruct (organize_invariant l IH) as [org2 [Ho2 [_ [Hb _]]]].
    rewrite Ho in Ho2. injection Ho2 as <-.
    destruct (assoc (categoryOrPantry it) org') as [b|] eqn:Ha.
    + rewrite Hb in Ha. now apply (bucket_member _ _ _ IH Ha).
    + now destruct (isInherited (categoryOrPantry it)).
Qed.

(** The outcome of [organizeByCategory], as the proofs below use it. *)
Lemma organize_cases (elems : list (option IngredientLine)) :
  match ShoppingListGenerator.organizeByCategory (Array elems) with
  | Ok organized =>
      forallb categorised elems = true
      /\ NoDup (map fst organized)
      /\ (forall c, assoc c organized = bucket c elems)
      /\ Permutation (concat (map snd organized)) elems
  | Throw _ => forallb categorised elems = false
  end.
Proof.
  destruct (ShoppingListGenerator.organizeByCategory (Array elems))
    as [org|m] eqn:Ho.
  - pose proof (organize_ok_categorised _ _ Ho) as Hc.
    destruct (organize_invariant elems Hc) as [org' [Ho' H]].
    rewrite Ho in Ho'. injection Ho' as <-. tauto.
  - destruct (forallb categorised elems) eqn:Hc; [|reflexivity].
    destruct (organize_invariant elems Hc) as [org' [Ho' _]]. congruence.
Qed.

(** X2: [organizeByCategory] throws exactly when some element is [null] or has
    the name of a member of [Object.prototype] as its category.  Otherwise
    its result has each category once, the array of a category holds the
    elements of that category in their order, a category without elements
    has no array, and the arrays together hold the elements of the list. *)
Theorem organize_by_category (elems : list (option IngredientLine)) :
  match ShoppingListGenerator.organizeByCategory (Array elems) with
  | Ok organized =>
      forallb categorised elems = true
      /\ NoDup (map fst organized)
      /\ (forall c, assoc c organized = bucket c elems)
      /\ Permutation (concat (map snd organized)) elems
  | Throw _ => forallb categorised elems = false
  end.
Proof. exact (organize_cases elems). Qed.

(** ** Lists from one recipe *)

Lemma categorizeIngredient_known (s : string) :
  In (categorizeIngredient s) (map fst categoryMap).
Proof.
  unfold categorizeIngredient.
  destruct (isEmpty s); [cbn; tauto|].
  destruct (find _ categoryMap) as [[c ks]|] eqn:E; [|cbn; tauto].
  apply find_some in E. destruct E as [E _].
  apply (in_map fst) in E. exact E.
Qed.

Lemma known_not_inherited (c : string) :
  In c (map fst categoryMap) ->
  isInherited (if isEmpty c then "pantry" else c) = false.
Proof.
  cbn. intros H.
  repeat (destruct H as [<-|H]; [reflexivity|]). contradiction.
Qed.

Lemma parsed_categorised (v : value) (r : IngredientLine) :
  parseIngredient v = Some r -> categorised (Some r) = true.
Proof.
  destruct v; try discriminate. cbn [parseIngredient].
  destruct (isEmpty s); [discriminate|].
  destruct (stripQuantityAndUnit (trim s)) as [[q u] rest].
  intros [= <-]. cbn [categorised categoryOrPantry category].
  apply negb_true_iff, known_not_inherited, categorizeIngredient_known.
Qed.

Lemma somes_map_Some {A : Type} (l : list A) : somes (map Some l) = l.
Proof. induction l as [|x l IH]; cbn; [reflexivity|now rewrite IH]. Qed.

Lemma parsed_all_categorised (l : list value) :
  Forall (fun r => categorised (Some r) = true) (somes (map parseIngredient l)).
Proof.
  induction l as [|v l IH]; cbn [map somes]; [constructor|].
  destruct (parseIngredient v) as [r|] eqn:E; [|exact IH].
  constructor; [now apply (parsed_categorised v)|exact IH].
Qed.

Lemma categorised_Some (l : list IngredientLine) :
  Forall (fun r => categorised (Some r) = true) l ->
  forallb categorised (map Some l) = true.
Proof.
  intros H. apply forallb_forall. intros e He.
  apply in_map_iff in He. destruct He as [r [<- Hr]].
  rewrite Forall_forall in H. now apply H.
Qed.

Lemma createShoppingListObject_ok (now : timestamp) (l : list IngredientLine)
  (title : value) (ids : list value) :
  Forall (fun r => categorised (Some r) = true) l ->
  exists organized,
    ShoppingListGenerator.organizeByCategory (Array (map Some l)) = Ok organized
    /\ createShoppingListObject now l title ids
       = Ok {| title := title;
               items := Some (Array (map Some l));
               organized := Some (map (fun e => (fst e, Array (snd e))) organized);
               recipes := Some ids;
               itemCount := Some (List.length l);
               createdAt := Some now;
               scaleMultiplier := None;
               scaledAt := None |}.
Proof.
  intros H. destruct (organize_invariant _ (categorised_Some l H)) as [org [Ho _]].
  exists org. split; [exact Ho|].
  unfold createShoppingListObject. now rewrite Ho.
Qed.

Lemma parsed_count (l : list value) :
  List.length (somes (map parseIngredient l)) = List.length (filter isLine l).
Proof.
  induction l as [|v l IH]; [reflexivity|].
  cbn [map somes filter].
  destruct v; cbn [parseIngredient isLine]; try exact IH.
  destruct (isEmpty s); cbn [negb]; [exact IH|].
  destruct (stripQuantityAndUnit (trim s)) as [[q u] rest].
  cbn [somes List.length]. now rewrite IH.
Qed.

(** The outcome of [generateFromRecipe], as the proofs below use it. *)
Lemma generateFromRecipe_cases (now : timestamp) (recipe : value) :
  match generateFromRecipe now recipe with
  | Success sl =>
      exists ingredients,
        getProp recipe "ingredients" = VArr ingredients
        /\ ingredients <> []
        /\ title sl
           = VStr (toString (getProp recipe "title") ++ " - Shopping List")
        /\ items sl
           = Some (Array (map Some (somes (map parseIngredient ingredients))))
        /\ itemCount sl = Some (List.length (filter isLine ingredients))
        /\ recipes sl = Some [getProp recipe "id"]
  | Failure error details =>
      details = None
      /\ In error [ "Invalid recipe object"; "Recipe must have a title";
                    "Invalid recipe ingredients"; "Recipe has no ingredients" ]
  end.
Proof.
  unfold generateFromRecipe.
  destruct (negb (truthy recipe) || negb (isObject recipe));
    [cbn; tauto|].
  destruct (negb (truthy (getProp recipe "title"))); [cbn; tauto|].
  destruct (getProp recipe "ingredients") as [| | | | |l|] eqn:E;
    try (cbn; tauto).
  destruct l as [|i l]; [cbn; tauto|].
  destruct (createShoppingListObject_ok now
              (somes (map parseIngredient (i :: l)))
              (VStr (toString (getProp recipe "title") ++ " - Shopping List"))
              [getProp recipe "id"] (parsed_all_categorised _))
    as [org [_ ->]].
  exists (i :: l). cbn [title items itemCount recipes].
  rewrite parsed_count. repeat split. discriminate.
Qed.


Lemma consolidated_categorised (l : list IngredientLine) :
  Forall (fun r => categorised (Some r) = true) l ->
  Forall (fun r => categorised (Some r) = true)
         (consolidateIngredients (Array (map Some l))).
Proof.
  intros H. rewrite consolidate_closed_form.
  apply Forall_forall. intros r Hr. apply in_map_iff in Hr.
  destruct Hr as [f [<- Hf]].
  assert (In f l) as Hin.
  { assert (forall l', incl (firsts l') l') as Hincl.
    { induction l' as [|x l' IH]; [easy|]. cbn [firsts].
      intros y [->|Hy]; [now left|]. right. apply IH.
      now apply filter_In in Hy. }
    apply Hincl in Hf. unfold usable in Hf. apply filter_In in Hf.
    now rewrite somes_map_Some in Hf. }
  rewrite Forall_forall in H. specialize (H f Hin).
  unfold afterGroup.
  destruct (fold_absorb_description (tl (group (keyOf f) (usable (map Some l)))) f)
    as (_ & _ & _ & Hc & _).
  unfold categorised, categoryOrPantry in *. now rewrite Hc.
Qed.

Lemma collect_one (recipe : value) (ingredients : list value) :
  getProp recipe "ingredients" = VArr ingredients -> truthy recipe = true ->
  fold_left collectStep [recipe] ([], [])
  = (somes (map parseIngredient ingredients), [getProp recipe "id"]).
Proof.
  intros E Ht. cbn [fold_left collectStep]. unfold ingredientsOf.
  now rewrite Ht, E.
Qed.

(** X4: for a recipe of which [generateFromRecipe] makes a list,
    [generateFromMultipleRecipes] on that recipe alone gives the
    consolidation of the items of that list, and fails exactly when the
    list has no item. *)
Theorem one_recipe_consolidated (now : timestamp) (recipe customTitle : value)
  (sl : ShoppingList) :
  generateFromRecipe now recipe = Success sl ->
  match ShoppingListGenerator.generateFromMultipleRecipes
          now (VArr [recipe]) customTitle with
  | Success combined =>
      records sl <> []
      /\ records combined
         = consolidateIngredients (Array (map Some (records sl)))
      /\ items combined = Some (Array (map Some (records combined)))
      /\ itemCount combined = Some (List.length (records combined))
  | Failure error details =>
      records sl = []
      /\ error = "No valid ingredients found in recipes" /\ details = None
  end.
Proof.
  intros H. pose proof (generateFromRecipe_cases now recipe) as Ho.
  rewrite H in Ho. destruct Ho as [l [E [Hl [_ [Hi _]]]]].
  assert (truthy recipe = true) as Ht.
  { unfold generateFromRecipe in H.
    destruct (truthy recipe); [reflexivity|discriminate]. }
  assert (records sl = somes (map parseIngredient l)) as Hr.
  { unfold records. now rewrite Hi, somes_map_Some. }
  rewrite Hr. clear Hr.
  unfold ShoppingListGenerator.generateFromMultipleRecipes.
  rewrite (collect_one recipe l E Ht).
  destruct (somes (map parseIngredient l)) as [|r rs] eqn:Ep.
  - repeat split.
  - rewrite <- Ep.
    destruct (createShoppingListObject_ok now
                (consolidateIngredients
                   (Array (map Some (somes (map parseIngredient l)))))
                (orElse customTitle (VStr "Combined Recipes - Shopping List"))
                [getProp recipe "id"]
                (consolidated_categorised _ (parsed_all_categorised l)))
      as [org [_ ->]].
    unfold records. cbn [items itemCount]. rewrite somes_map_Some.
    repeat split. rewrite Ep. discriminate.
Qed.

(** X4 at the ribs. *)
Lemma one_recipe_consolidated_ribs :
  exists sl,
    generateFromRecipe 0%Z ribs = Success sl
    /\ match ShoppingListGenerator.generateFromMultipleRecipes
               0%Z (VArr [ribs]) VNull with
       | Success combined =>
           records sl <> []
           /\ records combined
              = consolidateIngredients (Array (map Some (records sl)))
           /\ items combined = Some (Array (map Some (records combined)))
           /\ itemCount combined = Some (List.length (records combined))
       | Failure error details =>
           records sl = []
           /\ error = "No valid ingredients found in recipes"
           /\ details = None
       end.
Proof.
  eexists. split; [vm_compute; reflexivity|].
  apply (one_recipe_consolidated 0%Z ribs VNull). vm_compute. reflexivity.
Defined.

(** The three checks of a recipe, as the proofs below use them. *)
Lemma recipe_validations (recipe : value) :
  (ShoppingListManager.basicValidateRecipe recipe = Valid
   <-> ShoppingListValidator.validateRecipe recipe = Valid)
  /\ (ShoppingListValidator.validateRecipe recipe = Valid ->
      ShoppingListGenerator.validateRecipe recipe = ValidRecipe)
  /\ (ShoppingListGenerator.validateRecipe recipe = ValidRecipe ->
      forall now, exists sl, generateFromRecipe now recipe = Success sl).
Proof.
  unfold ShoppingListManager.basicValidateRecipe,
    ShoppingListValidator.validateRecipe, ShoppingListGenerator.validateRecipe.
  split; [|split].
  - destruct (negb (truthy recipe) || negb (isObject recipe));
      [split; discriminate|].
    destruct (negb (titleIsValid (getProp recipe "title")));
      [split; discriminate|].
    destruct (getProp recipe "ingredients") as [| | | | |[|i l]|];
      split; congruence.
  - destruct (negb (truthy recipe) || negb (isObject recipe)); [discriminate|].
    destruct (getProp recipe "title") as [| | | |t| |]; try discriminate.
    cbn [titleIsValid truthy isString]. destruct (isEmpty t); [discriminate|].
    cbn [negb andb orb].
    destruct (negb (negb (isEmpty (trim t)))); [discriminate|].
    destruct (getProp recipe "ingredients") as [| | | | |[|i l]|];
      congruence.
  - intros H now.
    pose proof (generateFromRecipe_cases now recipe) as Ho.
    destruct (generateFromRecipe now recipe) as [sl|e d] eqn:G;
      [now exists sl|].
    exfalso. unfold generateFromRecipe in G.
    destruct (negb (truthy recipe) || negb (isObject recipe));
      [discriminate|].
    destruct (negb (truthy (getProp recipe "title"))); [discriminate|].
    cbn [orb] in H.
    destruct (negb (isString (getProp recipe "title"))); [discriminate|].
    destruct (getProp recipe "ingredients") as [| | | | |[|i l]|] eqn:E;
      try discriminate.
    destruct (createShoppingListObject_ok now
                (somes (map parseIngredient (i :: l)))
                (VStr (toString (getProp recipe "title") ++ " - Shopping List"))
                [getProp recipe "id"] (parsed_all_categorised _))
      as [org [_ Hc]].
    rewrite Hc in G. discriminate.
Qed.

(** X5: the manager's own check of a recipe accepts the recipes that the
    validator accepts, and no other; a recipe the validator accepts is
    accepted by the generator's check, and a recipe the generator's check
    accepts is one of which [generateFromRecipe] makes a list. *)
Theorem recipe_validations_agree (recipe : value) :
  (ShoppingListManager.basicValidateRecipe recipe = Valid
   <-> ShoppingListValidator.validateRecipe recipe = Valid)
  /\ (ShoppingListValidator.validateRecipe recipe = Valid ->
      ShoppingListGenerator.validateRecipe recipe = ValidRecipe)
  /\ (ShoppingListGenerator.validateRecipe recipe = ValidRecipe ->
      forall now, exists sl, generateFromRecipe now recipe = Success sl).
Proof. exact (recipe_validations recipe). Qed.

(** ** Scaling a list *)

Import ShoppingListManager.




Lemma mapThrown_scale (m : float) (l : list (option IngredientLine)) :
  mapThrown (scaleItem m) l
  = if allRecords l then Ok (map Some (map (scaleRecord m) (somes l)))
    else Throw "Cannot read properties of null (reading 'quantity')".
Proof.
  induction l as [|[r|] l IH]; cbn [mapThrown allRecords forallb];
    [reflexivity| |reflexivity].
  cbn [scaleItem bind andb]. rewrite IH. fold (allRecords l).
  destruct (allRecords l); reflexivity.
Qed.

Lemma categorised_scaled (m : float) (l : list IngredientLine) :
  forallb categorised (map Some (map (scaleRecord m) l))
  = forallb categorised (map Some l).
Proof.
  induction l as [|r l IH]; [reflexivity|].
  cbn [map forallb]. now rewrite IH.
Qed.

Lemma organize_ok (l : list (option IngredientLine)) :
  forallb categorised l = true ->
  exists org, ShoppingListGenerator.organizeByCategory (Array l) = Ok org.
Proof.
  intros H. pose proof (organize_cases l) as Ho.
  destruct (ShoppingListGenerator.organizeByCategory (Array l)) as [org|msg];
    [now exists org|congruence].
Qed.




(** ** Filtering a list *)

Lemma filterItems_spec (categories : list value)
  (l : list (option IngredientLine)) :
  filterItems categories l
  = if allRecords l then Ok (map Some (filter (listed categories) (somes l)))
    else Throw "Cannot read properties of null (reading 'category')".
Proof.
  induction l as [|[r|] l IH]; cbn [filterItems allRecords forallb];
    [reflexivity| |reflexivity].
  rewrite IH. fold (allRecords l). cbn [andb].
  destruct (allRecords l); [|reflexivity].
  cbn [bind somes filter].
  change (includesCategory categories (category r))
    with (listed categories r).
  now destruct (listed categories r).
Qed.

Lemma categorised_filter (p : IngredientLine -> bool) (l : list IngredientLine) :
  forallb categorised (map Some l) = true ->
  forallb categorised (map Some (filter p l)) = true.
Proof.
  induction l as [|r l IH]; [reflexivity|].
  cbn [map forallb filter]. intros H. apply andb_true_iff in H.
  destruct H as [Hr Hl]. destruct (p r); cbn [map forallb]; auto.
  now rewrite Hr, IH.
Qed.


Lemma filter_idem {A : Type} (p : A -> bool) (l : list A) :
  filter p (filter p l) = filter p l.
Proof.
  induction l as [|x l IH]; [reflexivity|].
  cbn [filter]. destruct (p x) eqn:E; [|exact IH].
  cbn [filter]. now rewrite E, IH.
Qed.

Lemma allRecords_Some (l : list IngredientLine) : allRecords (map Some l) = true.
Proof. induction l; cbn; auto. Qed.

(** X8: filtering a filtered list by the same categories succeeds and gives
    the same items, organisation, count and categories. *)
Theorem filterByCategory_idempotent (sl : ShoppingList) (categories : value)
  (f : FilteredList) :
  filterByCategory (Some sl) categories = Success f ->
  exists again,
    filterByCategory (Some (filteredList f)) categories = Success again
    /\ items (filteredList again) = items (filteredList f)
    /\ organized (filteredList again) = organized (filteredList f)
    /\ itemCount (filteredList again) = itemCount (filteredList f)
    /\ filteredCategories again = filteredCategories f.
Proof.
  unfold filterByCategory.
  destruct categories as [| | | | |[|c cs]|]; try discriminate.
  destruct (items sl) as [[|l]|] eqn:Hi; try discriminate.
  rewrite filterItems_spec.
  destruct (allRecords l) eqn:Ha; [|discriminate]. cbn [bind].
  destruct (ShoppingListGenerator.organizeByCategory
              (Array (map Some (filter (listed (c :: cs)) (somes l)))))
    as [org|msg] eqn:Ho; [|discriminate].
  cbn [bind]. intros [= <-]. cbn [filteredList items].
  rewrite filterItems_spec, allRecords_Some, somes_map_Some, filter_idem.
  cbn [bind]. rewrite Ho. cbn [bind].
  eexists. split; [reflexivity|].
  cbn [filteredList filteredCategories items organized itemCount].
  repeat split.
Qed.

(** X8 at a list of beef and flour, filtered by meat. *)
Lemma filter_beef_twice :
  exists f again,
    filterByCategory (Some beefAndFlour) (VArr [VStr "meat"]) = Success f
    /\ filterByCategory (Some (filteredList f)) (VArr [VStr "meat"])
       = Success again
    /\ items (filteredList again) = items (filteredList f)
    /\ organized (filteredList again) = organized (filteredList f)
    /\ itemCount (filteredList again) = itemCount (filteredList f)
    /\ filteredCategories again = filteredCategories f.
Proof.
  destruct (filterByCategory (Some beefAndFlour) (VArr [VStr "meat"]))
    as [f|e d] eqn:E; [|vm_compute in E; discriminate E].
  destruct (filterByCategory_idempotent _ _ _ E) as [again H].
  exists f, again. split; [reflexivity|exact H].
Defined.

Lemma listed_scaled (categories : list value) (m : float) (r : IngredientLine) :
  listed categories (scaleRecord m r) = listed categories r.
Proof. reflexivity. Qed.

Lemma filter_map_scaled (categories : list value) (m : float)
  (l : list IngredientLine) :
  filter (listed categories) (map (scaleRecord m) l)
  = map (scaleRecord m) (filter (listed categories) l).
Proof.
  induction l as [|r l IH]; [reflexivity|].
  cbn [map filter]. rewrite listed_scaled.
  destruct (listed categories r); cbn [map]; now rewrite IH.
Qed.

(** X9: when scaling a list and then filtering the result succeed, filtering
    the list and then scaling succeeds too, with the same items,
    organisation, count, multiplier and time. *)
Theorem scale_then_filter (now : timestamp) (sl scaledList : ShoppingList)
  (m : float) (categories : value) (both : FilteredList) :
  scaleQuantities now (Some sl) (VNum m) = Success scaledList ->
  filterByCategory (Some scaledList) categories = Success both ->
  exists f other,
    filterByCategory (Some sl) categories = Success f
    /\ scaleQuantities now (Some (filteredList f)) (VNum m) = Success other
    /\ items other = items (filteredList both)
    /\ organized other = organized (filteredList both)
    /\ itemCount other = itemCount (filteredList both)
    /\ scaleMultiplier other = scaleMultiplier (filteredList both)
    /\ scaledAt other = scaledAt (filteredList both).
Proof.
  unfold scaleQuantities, filterByCategory.
  destruct (PrimFloat.leb m 0); [discriminate|].
  destruct (items sl) as [[|l]|] eqn:Hi; try discriminate.
  rewrite mapThrown_scale.
  destruct (allRecords l) eqn:Ha; [|discriminate]. cbn [bind].
  destruct (ShoppingListGenerator.organizeByCategory
              (Array (map Some (map (scaleRecord m) (somes l)))))
    as [org|msg] eqn:Ho; [|discriminate].
  cbn [bind]. intros [= <-].
  destruct categories as [| | | | |[|c cs]|]; try discriminate.
  cbn [items]. rewrite filterItems_spec, allRecords_Some, somes_map_Some.
  cbn [bind]. rewrite filter_map_scaled.
  destruct (ShoppingListGenerator.organizeByCategory
              (Array (map Some (map (scaleRecord m)
                                    (filter (listed (c :: cs)) (somes l))))))
    as [org2|msg] eqn:Ho2; [|discriminate].
  cbn [bind]. intros [= <-].
  pose proof (organize_cases
                (map Some (map (scaleRecord m)
                               (filter (listed (c :: cs)) (somes l))))) as Hc.
  rewrite Ho2 in Hc. destruct Hc as [Hc _]. rewrite categorised_scaled in Hc.
  destruct (organize_ok _ Hc) as [org3 Ho3].
  rewrite filterItems_spec, Ha. cbn [bind]. rewrite Ho3. cbn [bind].
  eexists. eexists. split; [reflexivity|].
  cbn [filteredList items].
  rewrite mapThrown_scale, allRecords_Some, somes_map_Some. cbn [bind].
  rewrite Ho2. cbn [bind]. split; [reflexivity|].
  cbn [filteredList items organized itemCount scaleMultiplier scaledAt].
  rewrite !length_map. repeat split.
Qed.

(** X9 at a list of beef and flour, doubled and filtered by meat. *)
Lemma scale_then_filter_beef :
  exists scaledList both f other,
    scaleQuantities 5%Z (Some beefAndFlour) (VNum 2) = Success scaledList
    /\ filterByCategory (Some scaledList) (VArr [VStr "meat"]) = Success both
    /\ filterByCategory (Some beefAndFlour) (VArr [VStr "meat"]) = Success f
    /\ scaleQuantities 5%Z (Some (filteredList f)) (VNum 2) = Success other
    /\ items other = items (filteredList both)
    /\ organized other = organized (filteredList both)
    /\ itemCount other = itemCount (filteredList both)
    /\ scaleMultiplier other = scaleMultiplier (filteredList both)
    /\ scaledAt other = scaledAt (filteredList both).
Proof.
  destruct (scaleQuantities 5%Z (Some beefAndFlour) (VNum 2))
    as [scaledList|e d] eqn:Es; [|vm_compute in Es; discriminate Es].
  destruct (filterByCategory (Some scaledList) (VArr [VStr "meat"]))
    as [both|e d] eqn:Ef;
    [|injection Es as <-; vm_compute in Ef; discriminate Ef].
  destruct (scale_then_filter _ _ _ _ _ _ Es Ef) as [f [other H]].
  exists scaledList, both, f, other.
  split; [reflexivity|]. split; [exact Ef|]. exact H.
Defined.

(** ** Generation by the manager *)

Lemma positive_when_not_leb (m : float) :
  PrimFloat.leb m 0 = false -> PrimFloat.is_nan m = false ->
  PrimFloat.ltb 0 m = true.
Proof.
  rewrite leb_spec, ltb_spec. unfold PrimFloat.is_nan.
  rewrite FloatAxioms.eqb_spec.
  change (Prim2SF 0) with (S754_zero false).
  destruct (Prim2SF m) as [[]|[]| |[] mm e]; cbn; congruence.
Qed.

Lemma scale_records (now : timestamp) (sl : ShoppingList) (m : float)
  (its : list IngredientLine) :
  items sl = Some (Array (map Some its)) ->
  forallb categorised (map Some its) = true ->
  PrimFloat.leb m 0 = false ->
  exists scaledList,
    scaleQuantities now (Some sl) (VNum m) = Success scaledList
    /\ items scaledList = Some (Array (map Some (map (scaleRecord m) its)))
    /\ scaleMultiplier scaledList = Some m
    /\ scaledAt scaledList = Some now
    /\ itemCount scaledList = itemCount sl
    /\ recipes scaledList = recipes sl.
Proof.
  intros Hi Hc Hm. unfold scaleQuantities. rewrite Hm, Hi.
  rewrite mapThrown_scale, allRecords_Some, somes_map_Some. cbn [bind].
  rewrite <- (categorised_scaled m) in Hc.
  destruct (organize_ok _ Hc) as [org ->]. cbn [bind].
  eexists. split; [reflexivity|]. repeat split.
Qed.





Lemma request_errors (ids name multiplier filter : value) :
  ShoppingListValidator.errors
    (ShoppingListValidator.validateShoppingListRequest
       (VObj [ ("recipeIds", ids); ("listName", name);
               ("options",
                VObj [ ("listName", name); ("scaleMultiplier", multiplier);
                       ("categoryFilter", filter) ]) ]))
  = (ShoppingListValidator.recipeIdErrors ids
     ++ ShoppingListValidator.listNameErrors name
     ++ ShoppingListValidator.scaleMultiplierErrors multiplier
     ++ ShoppingListValidator.categoryFilterErrors filter)%list.
Proof.
  unfold ShoppingListValidator.validateShoppingListRequest.
  cbn [truthy isObject negb orb andb getProp assoc String.eqb Ascii.eqb
       Bool.eqb].
  destruct (_ ++ _)%list; reflexivity.
Qed.

Lemma multiplier_checked (multiplier : value) :
  ShoppingListValidator.scaleMultiplierErrors multiplier = [] ->
  multiplier = VUndefined
  \/ exists m, multiplier = VNum m /\ PrimFloat.leb m 0 = false
               /\ isFinite m = true.
Proof.
  destruct multiplier as [| | |m| | |]; try discriminate; [now left|].
  cbn [ShoppingListValidator.scaleMultiplierErrors].
  destruct (PrimFloat.leb m 0) eqn:Hm; [discriminate|].
  destruct (isFinite m) eqn:Hf; [|discriminate].
  right. now exists m.
Qed.

Lemma ids_checked (first : value) (others : list value) :
  ShoppingListValidator.recipeIdErrors (VArr (first :: others)) = [] ->
  forallb ShoppingListValidator.idIsValid (first :: others) = true
  /\ (List.length (first :: others) <= ShoppingListValidator.maxRecipeIds)%nat.
Proof.
  unfold ShoppingListValidator.recipeIdErrors. cbn [truthy negb].
  destruct (_ <? _)%nat eqn:E; [discriminate|].
  apply Nat.ltb_ge in E.
  destruct (filter _ _) as [|x invalid] eqn:Ef; [|discriminate].
  intros _. split; [|exact E].
  apply forallb_forall. intros id Hid.
  destruct (ShoppingListValidator.idIsValid id) eqn:Ev; [reflexivity|].
  assert (In id (filter (fun id => negb (ShoppingListValidator.idIsValid id))
                        (first :: others))) as Hin.
  { apply filter_In. split; [exact Hid|now rewrite Ev]. }
  rewrite Ef in Hin. contradiction.
Qed.

Lemma retrieve_ext (f g : value -> thrown value) (ids : list value) :
  (forall id, In id ids -> f id = g id) -> retrieve f ids = retrieve g ids.
Proof.
  induction ids as [|id ids IH]; [reflexivity|]. intros H.
  cbn [retrieve]. rewrite (H id (or_introl eq_refl)), IH; [reflexivity|].
  intros id' Hid. apply H. now right.
Qed.

(** X11: [generateFromMultipleRecipes] of the manager asks the repository for
    valid ids only: with two repositories that agree on the valid ids it
    gives the same result. *)
Theorem repository_sees_valid_ids (now later : timestamp)
  (f g : value -> thrown value) (recipeIds : value) (options : Options.t) :
  (forall id, ShoppingListValidator.idIsValid id = true -> f id = g id) ->
  generateFromMultipleRecipes now later f recipeIds options
  = generateFromMultipleRecipes now later g recipeIds options.
Proof.
  intros H. unfold generateFromMultipleRecipes.
  destruct recipeIds as [| | | | |[|first others]|]; try reflexivity.
  rewrite request_errors.
  destruct (_ ++ _)%list as [|e es] eqn:E; [|reflexivity].
  apply app_eq_nil in E. destruct E as [E _].
  destruct (ids_checked _ _ E) as [Hids _].
  rewrite (retrieve_ext f g); [reflexivity|].
  intros id Hid. apply H. rewrite forallb_forall in Hids. now apply Hids.
Qed.

(** X11 at the id r1, with a repository that throws on the other ids. *)
Lemma repositories_agree_on_r1 :
  generateFromMultipleRecipes 0%Z 1%Z ribsOnly (VArr [VStr "r1"]) doubled
  = generateFromMultipleRecipes 0%Z 1%Z ribsForValidIds (VArr [VStr "r1"])
      doubled.
Proof.
  apply (repository_sees_valid_ids 0%Z 1%Z ribsOnly ribsForValidIds).
  intros id H. unfold ribsOnly, ribsForValidIds. rewrite H. reflexivity.
Defined.

Lemma generator_records (now : timestamp) (recipes title : value)
  (sl : ShoppingList) :
  ShoppingListGenerator.generateFromMultipleRecipes now recipes title
  = Success sl ->
  items sl = Some (Array (map Some (records sl)))
  /\ forallb categorised (map Some (records sl)) = true
  /\ scaleMultiplier sl = None.
Proof.
  unfold ShoppingListGenerator.generateFromMultipleRecipes.
  destruct recipes as [| | | | |[|r rs]|]; try discriminate.
  destruct (fold_left collectStep (r :: rs) ([], [])) as [all ids] eqn:Ef.
  destruct all as [|a all]; [discriminate|].
  assert (Forall (fun x => categorised (Some x) = true) (a :: all)) as Hall.
  { assert (forall l acc,
              Forall (fun x => categorised (Some x) = true) (fst acc) ->
              Forall (fun x => categorised (Some x) = true)
                     (fst (fold_left collectStep l acc))) as Hgen.
    { induction l as [|v l IH]; intros acc Hacc; [exact Hacc|].
      cbn [fold_left]. apply IH. unfold collectStep.
      destruct acc as [xs seen]. destruct (ingredientsOf v); [|exact Hacc].
      cbn [fst] in *. apply Forall_app. split; [exact Hacc|].
      apply parsed_all_categorised. }
    specialize (Hgen (r :: rs) ([], []) (Forall_nil _)).
    now rewrite Ef in Hgen. }
  destruct (createShoppingListObject_ok now
              (consolidateIngredients (Array (map Some (a :: all))))
              (orElse title (VStr "Combined Recipes - Shopping List")) ids
              (consolidated_categorised _ Hall)) as [org [_ ->]].
  intros [= <-]. unfold records. cbn [items scaleMultiplier].
  rewrite somes_map_Some. split; [reflexivity|]. split; [|reflexivity].
  apply categorised_Some. exact (consolidated_categorised _ Hall).
Qed.

(** X12: a list that [generateFromMultipleRecipes] of the manager returns was
    asked for without multiplier or with a finite positive one, and is
    scaled exactly when that multiplier is not 1. *)
Theorem multiple_recipes_multiplier (now later : timestamp)
  (findById : value -> thrown value) (recipeIds : value)
  (options : Options.t) (g : Generated) :
  generateFromMultipleRecipes now later findById recipeIds options
  = Success g ->
  match Options.scaleMultiplier options with
  | VUndefined => scaleMultiplier (generatedList g) = None
  | VNum m =>
      isFinite m = true /\ PrimFloat.ltb 0 m = true
      /\ scaleMultiplier (generatedList g)
         = (if PrimFloat.eqb m 1 then None else Some m)
  | _ => False
  end.
Proof.
  unfold generateFromMultipleRecipes.
  destruct recipeIds as [| | | | |[|first others]|]; try discriminate.
  rewrite request_errors.
  destruct (_ ++ _)%list as [|e es] eqn:E; [|discriminate].
  apply app_eq_nil in E. destruct E as [_ E].
  apply app_eq_nil in E. destruct E as [_ E].
  apply app_eq_nil in E. destruct E as [Em _].
  destruct (retrieve findById (first :: others)) as [[rs ws]|msg];
    [|discriminate].
  destruct rs as [|r rs]; [discriminate|].
  destruct (ShoppingListGenerator.generateFromMultipleRecipes now
              (VArr (r :: rs)) _) as [sl|e d] eqn:Eg; [|discriminate].
  destruct (generator_records _ _ _ _ Eg) as [Hi [Hc Hs]].
  assert (forall fl shoppingList,
            match Options.categoryFilter options with
            | VArr categories =>
                match filterByCategory (Some shoppingList) (VArr categories)
                with
                | Failure error details => Failure error details
                | Success filtered =>
                    Success {| generatedList := filteredList filtered;
                               generatedFilter :=
                                 Some (filteredCategories filtered);
                               warnings := ws |}
                end
            | _ => Success {| generatedList := shoppingList;
                              generatedFilter := None;
                              warnings := ws |}
            end = Success fl ->
            scaleMultiplier (generatedList fl) = scaleMultiplier shoppingList)
    as Hfilter.
  { intros fl shoppingList.
    destruct (Options.categoryFilter options) as [| | | | |cats|];
      try (intros [= <-]; reflexivity).
    unfold filterByCategory.
    destruct cats as [|c cs]; [discriminate|].
    destruct (items shoppingList) as [its|]; [|discriminate].
    destruct (bind _ _) as [fl'|msg] eqn:Eb; [|discriminate].
    intros [= <-]. cbn [generatedList].
    destruct (match its with NotArray => _ | Array l => _ end)
      as [fi|msg]; [|discriminate].
    cbn [bind] in Eb.
    destruct (ShoppingListGenerator.organizeByCategory _) as [org|msg];
      [|discriminate].
    cbn [bind] in Eb. now injection Eb as <-. }
  destruct (multiplier_checked _ Em) as [Eu|[m [Eu [Hm Hf]]]]; rewrite Eu.
  - cbn [scalingRequested truthy andb]. intros H.
    now rewrite (Hfilter _ _ H).
  - unfold scalingRequested. cbn [truthy].
    assert (PrimFloat.is_nan m = false) as Hn.
    { unfold isFinite in Hf. apply negb_true_iff, orb_false_iff in Hf. tauto. }
    assert (PrimFloat.eqb m 0 = false) as Hz.
    { rewrite FloatAxioms.eqb_spec. rewrite leb_spec in Hm.
      change (Prim2SF 0) with (S754_zero false) in *.
      destruct (Prim2SF m) as [[]|[]| |[] mm e]; cbn in *; congruence. }
    rewrite Hz, Hn. cbn [orb negb andb].
    split; [exact Hf|]. split; [now apply positive_when_not_leb|].
    destruct (PrimFloat.eqb m 1); cbn [negb] in *.
    + rewrite (Hfilter _ _ H). exact Hs.
    + destruct (scale_records later sl m (records sl) Hi Hc Hm)
        as [scaledList [Hsc [_ [Hsm _]]]].
      rewrite Hsc in H. now rewrite (Hfilter _ _ H).
Qed.

(** X12 at the ribs, doubled. *)
Lemma ribs_doubled_multiplier :
  exists g,
    generateFromMultipleRecipes 0%Z 1%Z ribsOnly (VArr [VStr "r1"]) doubled
    = Success g
    /\ isFinite 2 = true /\ PrimFloat.ltb 0 2 = true
    /\ scaleMultiplier (generatedList g)
       = (if PrimFloat.eqb 2 1 then None else Some 2%float).
Proof.
  destruct (generateFromMultipleRecipes 0%Z 1%Z ribsOnly (VArr [VStr "r1"])
              doubled) as [g|e d] eqn:E; [|vm_compute in E; discriminate E].
  exists g. split; [reflexivity|].
  exact (multiple_recipes_multiplier _ _ _ _ _ _ E).
Defined.

(** ** Adding a recipe to a list *)

Lemma hasKey_app (k : string) (a b : list IngredientLine) :
  hasKey k (a ++ b) = hasKey k a || hasKey k b.
Proof. unfold hasKey. apply existsb_app. Qed.

Lemma firsts_app (a b : list IngredientLine) :
  firsts (a ++ b)
  = (firsts a ++ filter (fun y => negb (hasKey (keyOf y) a)) (firsts b))%list.
Proof.
  induction b as [|x b IH] using rev_ind.
  - cbn [firsts filter]. now rewrite !app_nil_r.
  - rewrite app_assoc, !firsts_snoc, hasKey_app, IH.
    destruct (hasKey (keyOf x) b); [now rewrite orb_true_r|].
    rewrite orb_false_r, filter_app. cbn [filter].
    destruct (hasKey (keyOf x) a); cbn [negb].
    + now rewrite app_nil_r.
    + now rewrite app_assoc.
Qed.

(** X13: adding a recipe to a list gives the consolidation of the items of the
    list followed by the parsed ingredients; the keys of the list come
    first, in their order, the count is the number of items, the recipe
    is appended to the recipes and the title is kept. *)
Theorem added_ingredients_follow (now : timestamp) (existing : ShoppingList)
  (newRecipe : value) (u : UpdatedList) :
  addIngredientsToExistingList now (Some existing) newRecipe = Success u ->
  exists old ingredients added,
    items existing = Some (Array old)
    /\ getProp newRecipe "ingredients" = VArr ingredients
    /\ records (updatedList u)
       = consolidateIngredients
           (Array (old ++ map Some (somes (map parseIngredient ingredients))))
    /\ map keyOf (records (updatedList u))
       = (map keyOf (consolidateIngredients (Array old)) ++ added)%list
    /\ items (updatedList u) = Some (Array (map Some (records (updatedList u))))
    /\ itemCount (updatedList u)
       = Some (List.length (records (updatedList u)))
    /\ recipes (updatedList u)
       = Some (match recipes existing with
               | Some ids => ids
               | None => []
               end ++ [getProp newRecipe "id"])%list
    /\ title (updatedList u) = title existing
    /\ modifiedAt u = now.
Proof.
  unfold addIngredientsToExistingList.
  destruct (items existing) as [[|old]|] eqn:Hi; try discriminate.
  - destruct (negb (truthy newRecipe) || _); [discriminate|].
    destruct (generateFromRecipe now newRecipe); discriminate.
  - destruct (negb (truthy newRecipe) || _); [discriminate|].
    pose proof (generateFromRecipe_cases now newRecipe) as Hg.
    destruct (generateFromRecipe now newRecipe) as [newList|e d];
      [|discriminate].
    destruct Hg as [ingredients [Ei [_ [_ [Hn _]]]]].
    rewrite Hn. cbn [spread bind].
    destruct (ShoppingListGenerator.organizeByCategory _) as [org|msg];
      [|discriminate].
    cbn [bind]. intros [= <-].
    exists old, ingredients.
    eexists. unfold records.
    cbn [updatedList modifiedAt items itemCount recipes title].
    rewrite somes_map_Some.
    split; [reflexivity|]. split; [exact Ei|]. split; [reflexivity|].
    split; [|repeat split].
    pose proof (consolidate_keys
                  (old ++ map Some (somes (map parseIngredient ingredients))))
      as Hk.
    cbn [consolidateIngredients] in Hk. rewrite Hk.
    rewrite consolidate_keys, usable_app, firsts_app, map_app.
    reflexivity.
Qed.

(** X13 at the sauce added to a list of flour. *)
Lemma sauce_added_to_flour :
  exists u old ingredients added,
    addIngredientsToExistingList 7%Z (Some flourList) sauce = Success u
    /\ items flourList = Some (Array old)
    /\ getProp sauce "ingredients" = VArr ingredients
    /\ records (updatedList u)
       = consolidateIngredients
           (Array (old ++ map Some (somes (map parseIngredient ingredients))))
    /\ map keyOf (records (updatedList u))
       = (map keyOf (consolidateIngredients (Array old)) ++ added)%list
    /\ items (updatedList u) = Some (Array (map Some (records (updatedList u))))
    /\ itemCount (updatedList u)
       = Some (List.length (records (updatedList u)))
    /\ recipes (updatedList u)
       = Some (match recipes flourList with
               | Some ids => ids
               | None => []
               end ++ [getProp sauce "id"])%list
    /\ title (updatedList u) = title flourList
    /\ modifiedAt u = 7%Z.
Proof.
  destruct (addIngredientsToExistingList 7%Z (Some flourList) sauce)
    as [u|e d] eqn:E; [|vm_compute in E; discriminate E].
  destruct (added_ingredients_follow _ _ _ _ E)
    as [old [ingredients [added H]]].
  exists u, old, ingredients, added. split; [reflexivity|exact H].
Defined.

(** ** Saved lists *)

Lemma assoc_mapSet {A : Type} (m : list (string * A)) (key k : string) (v : A) :
  assoc k (mapSet m key v) = if String.eqb k key then Some v else assoc k m.
Proof.
  induction m as [|[k' x] m IH]; cbn [mapSet assoc].
  - reflexivity.
  - destruct (String.eqb_spec key k') as [->|Hk]; cbn [assoc].
    + destruct (String.eqb_spec k k'); reflexivity.
    + rewrite IH. destruct (String.eqb_spec k k') as [->|Hkk]; [|reflexivity].
      destruct (String.eqb_spec k' key); [congruence|reflexivity].
Qed.

Lemma keys_mapSet {A : Type} (m : list (string * A)) (key : string) (v : A) :
  map fst (mapSet m key v)
  = match assoc key m with
    | Some _ => map fst m
    | None => (map fst m ++ [key])%list
    end.
Proof.
  induction m as [|[k' x] m IH]; cbn [mapSet assoc map fst app].
  - reflexivity.
  - destruct (String.eqb_spec key k') as [->|Hk]; cbn [map fst].
    + reflexivity.
    + rewrite IH. now destruct (assoc key m).
Qed.

Lemma assoc_mapDelete {A : Type} (m : list (string * A)) (key k : string) :
  NoDup (map fst m) ->
  assoc k (mapDelete m key) = if String.eqb k key then None else assoc k m.
Proof.
  induction m as [|[k' x] m IH]; cbn [mapDelete assoc map fst]; intros Hnd.
  - now destruct (String.eqb k key).
  - inversion Hnd as [|? ? Hnot Hnd']; subst.
    destruct (String.eqb_spec key k') as [Ek|Hk]; cbn [assoc].
    + subst k'. destruct (String.eqb_spec k key) as [Ekk|Hkk]; [|reflexivity].
      subst k. destruct (assoc key m) eqn:Ea; [|reflexivity].
      exfalso. apply Hnot. apply assoc_In in Ea.
      now apply (in_map fst) in Ea.
    + rewrite IH by assumption.
      destruct (String.eqb_spec k k') as [Ekk|Hkk]; [|reflexivity].
      subst k'. destruct (String.eqb_spec k key); [congruence|reflexivity].
Qed.

Lemma keys_mapDelete {A : Type} (m : list (string * A)) (key : string) :
  NoDup (map fst m) -> NoDup (map fst (mapDelete m key)).
Proof.
  induction m as [|[k' x] m IH]; cbn [mapDelete map fst]; intros Hnd.
  - constructor.
  - inversion Hnd as [|? ? Hnot Hnd']; subst.
    destruct (String.eqb key k'); [assumption|].
    cbn [map fst]. constructor; [|now apply IH].
    intros Hin. apply Hnot. clear - Hin.
    induction m as [|[k2 y] m IHm]; [contradiction|].
    cbn [mapDelete] in Hin. destruct (String.eqb key k2).
    + now right.
    + destruct Hin as [<-|Hin]; [now left|right; now apply IHm].
Qed.

Lemma length_mapDelete {A : Type} (m : list (string * A)) (key : string) :
  List.length (mapDelete m key)
  = match assoc key m with
    | Some _ => pred (List.length m)
    | None => List.length m
    end.
Proof.
  induction m as [|[k' x] m IH]; cbn [mapDelete assoc List.length].
  - reflexivity.
  - destruct (String.eqb key k'); [reflexivity|].
    cbn [List.length]. rewrite IH.
    destruct (assoc key m) eqn:Ea; [|reflexivity].
    destruct m; [discriminate|reflexivity].
Qed.

(** X14: a list saved under an id is found under that id, as saved; the other
    ids find what they found before, the number of saved lists grows by
    one exactly when the id is new, and ids stay distinct. *)
Theorem saved_list_is_found {A : Type} (now : timestamp) (generated : string)
  (savedLists : SavedLists A) (shoppingList : A) (listId : option string) :
  let id := match listId with
            | Some s => if isEmpty s then generated else s
            | None => generated
            end in
  let after := fst (saveShoppingList now generated savedLists shoppingList
                      listId) in
  snd (saveShoppingList now generated savedLists shoppingList listId)
  = Success {| savedListId := id; savedListAt := now |}
  /\ getSavedList after id
     = Success {| ShoppingListManager.listId := id;
                  ShoppingListManager.shoppingList := shoppingList;
                  savedAt := now;
                  version := 1 |}
  /\ (forall other, other <> id ->
        getSavedList after other = getSavedList savedLists other)
  /\ List.length after
     = (match getSavedList savedLists id with
        | Success _ => List.length savedLists
        | Failure _ _ => S (List.length savedLists)
        end)
  /\ (NoDup (map fst savedLists) -> NoDup (map fst after)).
Proof.
  intros id after. unfold after, saveShoppingList, getSavedList.
  fold id. cbn [fst snd savedAt].
  split; [reflexivity|]. split; [|split; [|split]].
  - now rewrite assoc_mapSet, String.eqb_refl.
  - intros other Ho. rewrite assoc_mapSet.
    destruct (String.eqb_spec other id); [congruence|reflexivity].
  - rewrite <- !(length_map fst), keys_mapSet.
    destruct (assoc id savedLists); [reflexivity|].
    rewrite length_app. cbn. lia.
  - intros Hnd. rewrite keys_mapSet.
    destruct (assoc id savedLists) eqn:Ea; [assumption|].
    apply NoDup_Add with (a := id) (l := map fst savedLists).
    + pose proof (Add_app id (map fst savedLists) []) as Hadd.
      now rewrite app_nil_r in Hadd.
    + split; [assumption|]. now apply assoc_none_keys.
Qed.

(** X15: after [deleteSavedList] the id finds nothing and the other ids find
    what they found before; the call returns [true] exactly when the id
    was saved, and then there is one saved list less. *)
Theorem deleted_list_is_gone {A : Type} (savedLists : SavedLists A)
  (listId : string) :
  NoDup (map fst savedLists) ->
  let after := fst (deleteSavedList savedLists listId) in
  let deleted := snd (deleteSavedList savedLists listId) in
  getSavedList after listId = Failure "Saved list not found" None
  /\ (forall other, other <> listId ->
        getSavedList after other = getSavedList savedLists other)
  /\ (deleted = true
      <-> exists saved, getSavedList savedLists listId = Success saved)
  /\ List.length after
     = (if deleted then pred (List.length savedLists)
        else List.length savedLists)
  /\ NoDup (map fst after).
Proof.
  intros Hnd after deleted. unfold after, deleted, deleteSavedList, getSavedList.
  cbn [fst snd].
  split; [|split; [|split; [|split]]].
  - now rewrite assoc_mapDelete, String.eqb_refl.
  - intros other Ho. rewrite assoc_mapDelete by assumption.
    destruct (String.eqb_spec other listId); [congruence|reflexivity].
  - destruct (assoc listId savedLists) as [s|]; split; try discriminate.
    + intros _. now exists s.
    + reflexivity.
    + intros [s Hs]. discriminate.
  - rewrite length_mapDelete. now destruct (assoc listId savedLists).
  - now apply keys_mapDelete.
Qed.

(** X15 at two saved lists. *)
Lemma monday_deleted :
  getSavedList (fst (deleteSavedList twoSaved "monday")) "monday"
  = Failure "Saved list not found" None
  /\ (forall other, other <> "monday" ->
        getSavedList (fst (deleteSavedList twoSaved "monday")) other
        = getSavedList twoSaved other)
  /\ (snd (deleteSavedList twoSaved "monday") = true
      <-> exists saved, getSavedList twoSaved "monday" = Success saved)
  /\ List.length (fst (deleteSavedList twoSaved "monday"))
     = (if snd (deleteSavedList twoSaved "monday")
        then pred (List.length twoSaved)
        else List.length twoSaved)
  /\ NoDup (map fst (fst (deleteSavedList twoSaved "monday"))).
Proof.
  apply (deleted_list_is_gone twoSaved "monday").
  repeat constructor; cbn; intuition discriminate.
Defined.

Lemma sortDescending_snoc {A : Type} (key : A -> Z) (l : list A) (x : A) :
  sortDescending key (l ++ [x])
  = insertDescending key x (sortDescending key l).
Proof. unfold sortDescending. now rewrite fold_left_app. Qed.

Lemma insert_permutation {A : Type} (key : A -> Z) (x : A) (s : list A) :
  Permutation (insertDescending key x s) (s ++ [x]).
Proof.
  induction s as [|y s IH]; cbn [insertDescending app]; [reflexivity|].
  destruct (key x <=? key y)%Z.
  - now constructor.
  - change (y :: s ++ [x])%list with ((y :: s) ++ [x])%list.
    apply Permutation_cons_append.
Qed.

Lemma insert_sorted {A : Type} (key : A -> Z) (x : A) (s : list A) :
  StronglySorted (fun a b => (key b <= key a)%Z) s ->
  StronglySorted (fun a b => (key b <= key a)%Z) (insertDescending key x s).
Proof.
  induction 1 as [|y s Hs IH Hy]; cbn [insertDescending].
  - repeat constructor.
  - destruct (key x <=? key y)%Z eqn:E.
    + apply Z.leb_le in E. constructor; [assumption|].
      eapply Permutation_Forall; [symmetry; apply insert_permutation|].
      apply Forall_app. split; [assumption|]. now repeat constructor.
    + apply Z.leb_gt in E. constructor; [now constructor|].
      constructor; [lia|].
      eapply Forall_impl; [|exact Hy]. cbn. intros. lia.
Qed.

Lemma insert_filter {A : Type} (key : A -> Z) (x : A) (s : list A) (t : Z) :
  StronglySorted (fun a b => (key b <= key a)%Z) s ->
  filter (fun a => (key a =? t)%Z) (insertDescending key x s)
  = (filter (fun a => (key a =? t)%Z) s
     ++ if (key x =? t)%Z then [x] else [])%list.
Proof.
  induction 1 as [|y s Hs IH Hy]; cbn [insertDescending filter app].
  - reflexivity.
  - destruct (key x <=? key y)%Z eqn:E.
    + cbn [filter]. rewrite IH. now destruct (key y =? t)%Z.
    + apply Z.leb_gt in E. cbn [filter].
      destruct (key x =? t)%Z eqn:Ex.
      * apply Z.eqb_eq in Ex.
        assert ((key y =? t)%Z = false) as -> by (apply Z.eqb_neq; lia).
        assert (filter (fun a => (key a =? t)%Z) s = []) as ->; [|reflexivity].
        clear - Hy E Ex. induction Hy as [|z s Hz Hy IH]; [reflexivity|].
        cbn [filter].
        assert ((key z =? t)%Z = false) as -> by (apply Z.eqb_neq; lia).
        exact IH.
      * now rewrite app_nil_r.
Qed.

Lemma sort_sorted {A : Type} (key : A -> Z) (l : list A) :
  StronglySorted (fun a b => (key b <= key a)%Z) (sortDescending key l).
Proof.
  induction l as [|x l IH] using rev_ind; [constructor|].
  rewrite sortDescending_snoc. now apply insert_sorted.
Qed.

(** X16: [getSavedLists] returns every saved list once, latest first; lists
    saved at the same instant keep the order in which their ids were
    first used. *)
Theorem saved_lists_latest_first {A : Type} (savedLists : SavedLists A) :
  exists lists,
    getSavedLists savedLists = Success lists
    /\ Permutation lists (map snd savedLists)
    /\ StronglySorted (fun a b => (savedAt b <= savedAt a)%Z) lists
    /\ forall t,
         filter (fun a => (savedAt a =? t)%Z) lists
         = filter (fun a => (savedAt a =? t)%Z) (map snd savedLists).
Proof.
  eexists. split; [reflexivity|].
  generalize (map snd savedLists) as l. intros l.
  split; [|split; [apply sort_sorted|]].
  - induction l as [|x l IH] using rev_ind; [constructor|].
    rewrite sortDescending_snoc.
    eapply Permutation_trans; [apply insert_permutation|].
    now apply Permutation_app_tail.
  - intros t. induction l as [|x l IH] using rev_ind; [reflexivity|].
    rewrite sortDescending_snoc, insert_filter by apply sort_sorted.
    now rewrite IH, filter_app.
Qed.

(** ** The reminder link and its text *)

Import ReminderFormatter.

(** X17: [sanitizeItem] changes nothing in what it returns, which is [null] or
    an object of four properties: a quantity that is a number or [null],
    a unit that is a string or [null], an item that is a string and a
    category that is not falsy. *)
Theorem sanitizeItem_idempotent (item : value) :
  sanitizeItem (sanitizeItem item) = sanitizeItem item
  /\ (sanitizeItem item = VNull
      \/ exists q u name c,
           sanitizeItem item
           = VObj [ ("quantity", q); ("unit", u); ("item", VStr name);
                    ("category", c) ]
           /\ (q = VNull \/ exists n, q = VNum n)
           /\ (u = VNull \/ exists s, u = VStr s)
           /\ truthy c = true).
Proof.
  destruct (negb (truthy item) || negb (isObject item)) eqn:G.
  - unfold sanitizeItem at 2 3 4. rewrite G. split; [reflexivity|now left].
  - assert (sanitizeItem item
            = VObj
                [ ("quantity",
                   match getProp item "quantity" with
                   | VNum n => VNum n
                   | _ => VNull
                   end);
                  ("unit",
                   match getProp item "unit" with
                   | VStr s => VStr s
                   | _ => VNull
                   end);
                  ("item",
                   VStr match getProp item "item" with
                        | VStr s => s
                        | _ => "Unknown item"
                        end);
                  ("category",
                   orElse (getProp item "category") (VStr "pantry")) ]) as E.
    { unfold sanitizeItem. rewrite G. repeat f_equal.
      now destruct (getProp item "item"). }
    assert (truthy (orElse (getProp item "category") (VStr "pantry")) = true)
      as Hc.
    { unfold orElse. now destruct (truthy (getProp item "category")) eqn:T. }
    split.
    + rewrite E. unfold sanitizeItem.
      cbn [truthy isObject negb orb getProp assoc String.eqb Ascii.eqb
           Bool.eqb].
      apply f_equal.
      apply f_equal2;
        [apply f_equal; now destruct (getProp item "quantity")|].
      apply f_equal2; [apply f_equal; now destruct (getProp item "unit")|].
      apply f_equal2; [reflexivity|].
      apply f_equal2; [apply f_equal|reflexivity].
      unfold orElse at 1. now rewrite Hc.
    + right. do 4 eexists. split; [exact E|]. split; [|split; [|exact Hc]].
      * destruct (getProp item "quantity"); eauto.
      * destruct (getProp item "unit"); eauto.
Qed.

Lemma url_without_platform (sl : option ShoppingList) (o o' : Options) :
  listName o = listName o' ->
  ReminderFormatter.organizeByCategory o
  = ReminderFormatter.organizeByCategory o' ->
  match generateReminderUrl sl o, generateReminderUrl sl o' with
  | Success a, Success b =>
      url a = url b /\ fallbackUrl a = fallbackUrl b
      /\ urlListName a = urlListName b /\ urlItemCount a = urlItemCount b
      /\ shortcutRequired a = shortcutRequired b
      /\ urlShortcutName a = urlShortcutName b
      /\ urlPlatform a = orElse (platform o) (VStr "ios")
  | Failure e d, Failure e' d' => e = e' /\ d = d'
  | _, _ => False
  end.
Proof.
  intros Hn Ho. unfold generateReminderUrl.
  destruct sl as [sl|]; [|now destruct (validateShoppingList None)].
  destruct (validateShoppingList (Some sl)); [|now split].
  unfold formatForReminders.
  destruct (validateShoppingList (Some sl)).
  - rewrite <- Hn, <- Ho.
    destruct (items sl) as [[|[|i l]]|]; try (now split).
    + destruct (ReminderFormatter.organizeByCategory o), (organized sl);
        cbn [arrayOrThrow]; try (now split).
      destruct (flattenOrganizedItems l); now repeat split.
    + destruct (ReminderFormatter.organizeByCategory o), (organized sl);
        cbn [arrayOrThrow]; try (now repeat split).
      destruct (flattenOrganizedItems l0); now repeat split.
  - rewrite <- Hn, <- Ho.
    destruct (items sl) as [[|[|i l]]|]; try (now split).
    + destruct (ReminderFormatter.organizeByCategory o), (organized sl);
        cbn [arrayOrThrow]; try (now split).
      destruct (flattenOrganizedItems l); now repeat split.
    + destruct (ReminderFormatter.organizeByCategory o), (organized sl);
        cbn [arrayOrThrow]; try (now repeat split).
      destruct (flattenOrganizedItems l0); now repeat split.
Qed.

(** X18: [getPlatformSpecificUrl] returns what [generateReminderUrl] without
    options returns, for every platform, with the platform asked for
    added, which is ['ios'] only when none is given. *)
Theorem platform_link_is_plain_link (sl : option ShoppingList)
  (platform : value) :
  match getPlatformSpecificUrl sl platform, generateReminderUrl sl noOptions
  with
  | Success a, Success b =>
      url a = url b /\ fallbackUrl a = fallbackUrl b
      /\ urlListName a = urlListName b /\ urlItemCount a = urlItemCount b
      /\ shortcutRequired a = shortcutRequired b
      /\ urlShortcutName a = urlShortcutName b
      /\ urlPlatform a
         = match platform with
           | VUndefined => VStr "ios"
           | _ => platform
           end
  | Failure e d, Failure e' d' => e = e' /\ d = d'
  | _, _ => False
  end.
Proof.
  unfold getPlatformSpecificUrl.
  set (p := match platform with VUndefined => VStr "ios" | _ => platform end).
  pose proof (url_without_platform sl
                {| listName := VUndefined;
                   ReminderFormatter.organizeByCategory := false;
                   ReminderFormatter.platform := p |}
                noOptions eq_refl eq_refl) as H.
  destruct (generateReminderUrl sl {| listName := VUndefined;
                   ReminderFormatter.organizeByCategory := false;
                   ReminderFormatter.platform := p |}) as [a|e d],
           (generateReminderUrl sl noOptions) as [b|e' d'];
    try contradiction; [|exact H].
  cbn [url fallbackUrl urlListName urlItemCount shortcutRequired
       urlShortcutName urlPlatform].
  tauto.
Qed.

Lemma categoryLines_arrays (index : nat)
  (org : list (string * arg (option IngredientLine))) :
  match categoryArrays org with
  | Some l => exists text, categoryLines index org = Ok (text, List.length l)
  | None => exists message, categoryLines index org = Throw message
  end.
Proof.
  revert index. induction org as [|[c [|l]] org IH]; intros index;
    cbn [categoryArrays categoryLines arrayOrThrow bind].
  - now eexists.
  - now eexists.
  - specialize (IH (S index)).
    destruct (categoryArrays org) as [rest|]; cbn [option_map].
    + destruct IH as [text ->]. cbn [bind fst snd].
      eexists. now rewrite length_app.
    + destruct IH as [message ->]. now eexists.
Qed.

(** X19: when [generateReminderUrl] makes a link, [formatForReminders] succeeds
    on the same list and options; the fallback link carries its text,
    and both count the same items. *)
Theorem link_carries_reminder_text (sl : ShoppingList) (options : Options)
  (u : ReminderUrl) :
  generateReminderUrl (Some sl) options = Success u ->
  exists f,
    formatForReminders (Some sl) options = Success f
    /\ formattedItemCount f = urlItemCount u
    /\ formattedListName f = title sl
    /\ fallbackUrl u
       = "x-apple-reminderkit://REMSaveRequest?reminderText="
         ++ encodeURIComponent (reminderText f) ++ "&listName="
         ++ encodeURIComponent (toString (urlListName u)).
Proof.
  unfold generateReminderUrl, formatForReminders.
  destruct (validateShoppingList (Some sl)); [|discriminate].
  destruct (items sl) as [[|[|i l]]|] eqn:Hi; try discriminate;
    (destruct (ReminderFormatter.organizeByCategory options),
              (organized sl) as [org|];
     cbn [arrayOrThrow bind]; try discriminate;
     try (intros [= <-]; eexists; repeat split);
     rewrite flattenOrganizedItems_spec;
     pose proof (categoryLines_arrays 0 org) as Hc;
     (destruct (categoryArrays org) as [listed|]; [|discriminate]);
     destruct Hc as [text ->];
     intros [= <-]; eexists; repeat split).
Qed.

(** X19 at a list of flour. *)
Lemma flour_link_text :
  exists u f,
    generateReminderUrl (Some flourList) noOptions = Success u
    /\ formatForReminders (Some flourList) noOptions = Success f
    /\ formattedItemCount f = urlItemCount u
    /\ formattedListName f = title flourList
    /\ fallbackUrl u
       = "x-apple-reminderkit://REMSaveRequest?reminderText="
         ++ encodeURIComponent (reminderText f) ++ "&listName="
         ++ encodeURIComponent (toString (urlListName u)).
Proof.
  destruct (generateReminderUrl (Some flourList) noOptions)
    as [u|e d] eqn:E; [|vm_compute in E; discriminate E].
  destruct (link_carries_reminder_text _ _ _ E) as [f H].
  exists u, f. split; [reflexivity|exact H].
Defined.









(** ** The validator *)

Lemma within_refl (s : string) : within s s.
Proof. induction s; constructor; assumption. Qed.

Lemma within_trans (a b c : string) : within a b -> within b c -> within a c.
Proof.
  intros Hab Hbc. revert a Hab.
  induction Hbc as [|x b c Hbc IH|x b c Hbc IH]; intros a Hab.
  - exact Hab.
  - apply within_skip. now apply IH.
  - inversion Hab; subst.
    + apply within_skip. now apply IH.
    + apply within_keep. now apply IH.
Qed.

Lemma within_hasChar (ch : ascii) (s t : string) :
  within s t -> hasChar ch s = true -> hasChar ch t = true.
Proof.
  induction 1 as [|c s t H IH|c s t H IH]; cbn [hasChar]; intros Hs.
  - exact Hs.
  - rewrite (IH Hs). apply orb_true_r.
  - apply orb_true_iff in Hs. destruct Hs as [->|Hs]; [reflexivity|].
    rewrite (IH Hs). apply orb_true_r.
Qed.

Lemma within_holdsTag (s t : string) :
  within s t -> holdsTag t = false -> holdsTag s = false.
Proof.
  induction 1 as [|c s t H IH|c s t H IH]; cbn [holdsTag]; intros Ht.
  - reflexivity.
  - apply orb_false_iff in Ht. now apply IH.
  - apply orb_false_iff in Ht. destruct Ht as [Hc Ht].
    rewrite (IH Ht), orb_false_r.
    destruct (Ascii.eqb c "<"); [|reflexivity]. cbn [andb] in *.
    destruct (hasChar ">" s) eqn:E; [|reflexivity].
    now rewrite (within_hasChar _ _ _ H E) in Hc.
Qed.

Lemma removeAll_within (m : string -> option nat) (skip : nat) (s : string) :
  within (removeAll m skip s) s.
Proof.
  revert skip. induction s as [|c s IH]; intros skip; cbn [removeAll].
  - constructor.
  - destruct skip as [|k]; [|constructor; apply IH].
    destruct (m (String c s)) as [[|k]|]; constructor; apply IH.
Qed.

Lemma dropWhile_within (p : ascii -> bool) (s : string) :
  within (dropWhile p s) s.
Proof.
  induction s as [|c s IH]; cbn [dropWhile]; [constructor|].
  destruct (p c); [now constructor|apply within_refl].
Qed.

Lemma trimEnd_within (s : string) : within (trimEnd s) s.
Proof.
  induction s as [|c s IH]; cbn [trimEnd]; [constructor|].
  destruct (isSpace c && isEmpty (trimEnd s)) eqn:E.
  - apply andb_true_iff in E. destruct E as [_ E].
    destruct (trimEnd s); [|discriminate]. now constructor.
  - now constructor.
Qed.

Lemma trim_within (s : string) : within (trim s) s.
Proof.
  unfold trim, trimStart.
  eapply within_trans; [apply trimEnd_within|apply dropWhile_within].
Qed.

Lemma no_greater (r : string) :
  afterChar ">" (dropWhile ShoppingListValidator.notGreater r) = None ->
  hasChar ">" r = false.
Proof.
  induction r as [|c r IH]; [reflexivity|].
  cbn [dropWhile hasChar]. unfold ShoppingListValidator.notGreater at 1.
  destruct (Ascii.eqb c ">") eqn:E; cbn [negb].
  - cbn [afterChar]. now rewrite E.
  - exact IH.
Qed.

Lemma tags_removed (skip : nat) (s : string) :
  holdsTag (removeAll ShoppingListValidator.htmlTag skip s) = false.
Proof.
  revert skip. induction s as [|c s IH]; intros skip; cbn [removeAll].
  - reflexivity.
  - destruct skip as [|k]; [|apply IH].
    destruct (ShoppingListValidator.htmlTag (String c s)) as [[|k]|] eqn:E;
      try apply IH; cbn [holdsTag]; rewrite IH, orb_false_r.
    + unfold ShoppingListValidator.htmlTag in E. cbn [afterChar] in E.
      destruct (Ascii.eqb c "<"); [|reflexivity].
      destruct (afterChar ">" _); discriminate.
    + unfold ShoppingListValidator.htmlTag in E. cbn [afterChar] in E.
      destruct (Ascii.eqb c "<"); [|reflexivity]. cbn [andb].
      destruct (afterChar ">" _) eqn:Ea; [discriminate|].
      apply no_greater in Ea.
      destruct (hasChar ">" (removeAll _ 0 s)) eqn:Eh; [|reflexivity].
      now rewrite (within_hasChar _ _ _ (removeAll_within _ 0 s) Eh) in Ea.
Qed.

Lemma hasChar_split (ch : ascii) (s : string) :
  hasChar ch s = true <-> exists a b, s = a ++ String ch b.
Proof.
  induction s as [|c s IH]; cbn [hasChar].
  - split; [discriminate|]. intros [[|x a] [b H]]; discriminate.
  - rewrite orb_true_iff, IH. split.
    + intros [E|[a [b ->]]].
      * apply Ascii.eqb_eq in E. subst. now exists "", s.
      * now exists (String c a), b.
    + intros [[|x a] [b H]]; cbn in H; injection H as -> ->.
      * left. apply Ascii.eqb_refl.
      * right. now exists a, b.
Qed.

Lemma holdsTag_split (s : string) :
  holdsTag s = true <-> exists a b c, s = a ++ "<" ++ b ++ ">" ++ c.
Proof.
  induction s as [|x s IH]; cbn [holdsTag].
  - split; [discriminate|]. intros [[|y a] [b [c H]]]; discriminate.
  - rewrite orb_true_iff, andb_true_iff, IH, hasChar_split. split.
    + intros [[E [b [c ->]]]|[a [b [c ->]]]].
      * apply Ascii.eqb_eq in E. subst. now exists "", b, c.
      * now exists (String x a), b, c.
    + intros [[|y a] [b [c H]]]; cbn in H; injection H as -> ->.
      * left. split; [reflexivity|]. now exists b, c.
      * right. now exists a, b, c.
Qed.

Lemma sanitizeHtml_no_tag (input : value) :
  holdsTag (ShoppingListValidator.sanitizeHtml input) = false.
Proof.
  unfold ShoppingListValidator.sanitizeHtml.
  destruct (negb (truthy input)); [reflexivity|].
  eapply within_holdsTag; [|apply (tags_removed 0)].
  eapply within_trans; [apply trim_within|apply removeAll_within].
Qed.

(** X21: the result of [sanitizeHtml] holds no [<] that is followed by a
    [>]. *)
Theorem sanitizeHtml_leaves_no_tag (input : value) :
  holdsTag (ShoppingListValidator.sanitizeHtml input) = false
  /\ forall a b c,
       ShoppingListValidator.sanitizeHtml input <> a ++ "<" ++ b ++ ">" ++ c.
Proof.
  pose proof (sanitizeHtml_no_tag input) as H.
  split; [exact H|].
  intros a b c E.
  assert (holdsTag (ShoppingListValidator.sanitizeHtml input) = true) as H'
    by (apply holdsTag_split; eauto).
  congruence.
Qed.






Lemma known_category (c : string) :
  In c (map fst categoryMap) ->
  ShoppingListValidator.validateCategory (VStr c)
  = ShoppingListValidator.Accepted c None.
Proof.
  cbn. intros H.
  repeat (destruct H as [<-|H]; [reflexivity|]). contradiction.
Qed.

Lemma known_unit (u : string) :
  In u (map snd unitMap) ->
  ShoppingListValidator.validateUnit (VStr u)
  = ShoppingListValidator.Accepted (Some u) None.
Proof.
  cbn. intros H.
  repeat (destruct H as [<-|H]; [reflexivity|]). contradiction.
Qed.

Lemma assoc_snd {A : Type} (k : string) (m : list (string * A)) (v : A) :
  assoc k m = Some v -> In v (map snd m).
Proof. intros H. apply assoc_In in H. now apply (in_map snd) in H. Qed.

Lemma unitLookup_cases (k : string) :
  match unitLookup k with
  | Some (Unit u) => In u (map snd unitMap)
  | Some (Inherited name) => isInherited name = true
  | None => True
  end.
Proof.
  unfold unitLookup. destruct (assoc k unitMap) as [u|] eqn:E.
  - now apply assoc_snd in E.
  - now destruct (isInherited k) eqn:Ei.
Qed.

Lemma stripped_unit (original : string) :
  match snd (fst (stripQuantityAndUnit original)) with
  | Some (Unit u) => In u (map snd unitMap)
  | Some (Inherited name) => isInherited name = true
  | None => True
  end.
Proof.
  unfold stripQuantityAndUnit.
  destruct (matchQuantity (toLowerCase original)) as [m|].
  - destruct (matchWord _) as [w|]; [|exact I].
    destruct (parseFraction m); [|exact I].
    destruct (unitTruthy (unitLookup (toLowerCase w))) eqn:E; [|exact I].
    cbn [fst snd]. unfold normalizeUnit.
    destruct (isEmpty w); [exact I|]. rewrite E. apply unitLookup_cases.
  - destruct (matchWord _); exact I.
Qed.

(** X23: what the processor assigns, the validator knows: the category of a
    parsed line is one of the valid categories and is accepted unchanged
    and without warning, and so is its unit, unless it is a member of
    [Object.prototype]. *)
Theorem parsed_line_is_known (v : value) (r : IngredientLine) :
  parseIngredient v = Some r ->
  (exists c,
     category r = Some c
     /\ In c ShoppingListValidator.validCategories
     /\ ShoppingListValidator.validateCategory (VStr c)
        = ShoppingListValidator.Accepted c None)
  /\ match unit r with
     | Some (Unit u) =>
         In u ShoppingListValidator.validUnits
         /\ ShoppingListValidator.validateUnit (VStr u)
            = ShoppingListValidator.Accepted (Some u) None
     | Some (Inherited name) => isInherited name = true
     | None => True
     end.
Proof.
  destruct v; try discriminate. cbn [parseIngredient].
  destruct (isEmpty s); [discriminate|].
  pose proof (stripped_unit (trim s)) as Hu.
  destruct (stripQuantityAndUnit (trim s)) as [[q u] rest].
  intros [= <-]. cbn [category unit fst snd] in *. split.
  - eexists. split; [reflexivity|].
    pose proof (categorizeIngredient_known
                  (if isEmpty rest then trim s else rest)) as Hc.
    split; [|now apply known_category].
    cbn in Hc |- *. tauto.
  - destruct u as [[u|name]|]; try exact Hu.
    split; [|now apply known_unit].
    cbn in Hu |- *. tauto.
Qed.

(** X23 at two pounds of ground beef. *)
Lemma beef_line_is_known :
  exists r,
    parseIngredient (VStr "2 LBS Ground Beef") = Some r
    /\ (exists c,
          category r = Some c
          /\ In c ShoppingListValidator.validCategories
          /\ ShoppingListValidator.validateCategory (VStr c)
             = ShoppingListValidator.Accepted c None)
    /\ match unit r with
       | Some (Unit u) =>
           In u ShoppingListValidator.validUnits
           /\ ShoppingListValidator.validateUnit (VStr u)
              = ShoppingListValidator.Accepted (Some u) None
       | Some (Inherited name) => isInherited name = true
       | None => True
       end.
Proof.
  destruct (parseIngredient (VStr "2 LBS Ground Beef")) as [r|] eqn:E;
    [|vm_compute in E; discriminate E].
  exists r. split; [reflexivity|].
  exact (parsed_line_is_known _ _ E).
Defined.

Lemma filter_nil_forall {A : Type} (p : A -> bool) (l : list A) :
  filter p l = [] -> forall x, In x l -> p x = false.
Proof.
  intros H x Hx. destruct (p x) eqn:E; [|reflexivity].
  assert (In x (filter p l)) as Hin by (apply filter_In; auto).
  now rewrite H in Hin.
Qed.

Lemma existsb_eqb_In (s : string) (l : list string) :
  existsb (String.eqb s) l = true -> In s l.
Proof.
  intros H. apply existsb_exists in H. destruct H as [x [Hx E]].
  apply String.eqb_eq in E. now subst.
Qed.

Lemma ids_array (v : value) :
  ShoppingListValidator.recipeIdErrors v = [] ->
  exists first others, v = VArr (first :: others).
Proof.
  unfold ShoppingListValidator.recipeIdErrors.
  destruct (negb (truthy v)); [discriminate|].
  destruct v as [| | | | |[|first others]|]; try discriminate.
  intros _. now exists first, others.
Qed.

(** X24: a request that [validateShoppingListRequest] finds valid has sanitized
    data: the ids are those of the request, 1 to 50 of them, all valid;
    the name, when there is one, is not empty, holds no tag and has at
    most 200 UTF-16 units; the multiplier, when there is one, is finite
    and positive; the categories, when there are some, are valid ones. *)
Theorem valid_request_is_sound (request : value) :
  ShoppingListValidator.isValid
    (ShoppingListValidator.validateShoppingListRequest request) = true ->
  exists data ids,
    ShoppingListValidator.sanitizedData
      (ShoppingListValidator.validateShoppingListRequest request) = Some data
    /\ getProp request "recipeIds" = VArr ids
    /\ ShoppingListValidator.recipeIds data = ids
    /\ (1 <= List.length ids <= 50)%nat
    /\ forallb ShoppingListValidator.idIsValid ids = true
    /\ match ShoppingListValidator.listName data with
       | Some name =>
           name <> "" /\ holdsTag name = false
           /\ (utf16Length name <= 200)%nat
       | None => True
       end
    /\ match ShoppingListValidator.scaleMultiplier
               (ShoppingListValidator.options data) with
       | Some m => isFinite m = true /\ PrimFloat.ltb 0 m = true
       | None => True
       end
    /\ match ShoppingListValidator.categoryFilter
               (ShoppingListValidator.options data) with
       | Some categories =>
           categories <> []
           /\ Forall (fun c => exists s,
                        c = VStr s
                        /\ In s ShoppingListValidator.validCategories)
                     categories
       | None => True
       end.
Proof.
  unfold ShoppingListValidator.validateShoppingListRequest.
  destruct (negb (truthy request) || negb (isObject request));
    [discriminate|].
  cbv zeta.
  set (multiplier :=
         if truthy (getProp request "options")
            && isObject (getProp request "options")
         then getProp (getProp request "options") "scaleMultiplier"
         else VUndefined).
  set (categories :=
         if truthy (getProp request "options")
            && isObject (getProp request "options")
         then getProp (getProp request "options") "categoryFilter"
         else VUndefined).
  destruct (_ ++ _)%list as [|e es] eqn:E; [|discriminate].
  intros _.
  apply app_eq_nil in E. destruct E as [Eids E].
  apply app_eq_nil in E. destruct E as [Ename E].
  apply app_eq_nil in E. destruct E as [Em Ef].
  cbn [ShoppingListValidator.sanitizedData].
  destruct (ids_array _ Eids) as [first [others Ei]]. rewrite Ei in *.
  destruct (ids_checked _ _ Eids) as [Hvalid Hcount].
  eexists. exists (first :: others). split; [reflexivity|].
  cbn [ShoppingListValidator.recipeIds ShoppingListValidator.listName
       ShoppingListValidator.options ShoppingListValidator.scaleMultiplier
       ShoppingListValidator.categoryFilter].
  split; [reflexivity|]. split.
  { apply forallb_filter_id. exact Hvalid. }
  split.
  { unfold ShoppingListValidator.maxRecipeIds in Hcount. cbn [List.length] in *.
    lia. }
  split; [exact Hvalid|]. split; [|split].
  - unfold ShoppingListValidator.listNameErrors,
      ShoppingListValidator.sanitizedListNameOf in *.
    destruct (truthy (getProp request "listName")); [|exact I].
    cbn [andb] in Ename.
    destruct (isEmpty _) eqn:Ee; [exact I|].
    split; [intros H; now rewrite H in Ee|]. split.
    + eapply within_holdsTag; [apply trim_within|apply sanitizeHtml_no_tag].
    + destruct (_ <? _)%nat eqn:El; [discriminate|].
      apply Nat.ltb_ge in El. exact El.
  - destruct (multiplier_checked _ Em) as [->|[m [-> [Hm Hf]]]]; [exact I|].
    split; [exact Hf|]. apply positive_when_not_leb; [exact Hm|].
    unfold isFinite in Hf. apply negb_true_iff, orb_false_iff in Hf. tauto.
  - destruct categories as [| | | | |[|c cs]|]; try exact I;
      try discriminate.
    cbn [ShoppingListValidator.categoryFilterErrors] in Ef.
    destruct (filter _ (c :: cs)) eqn:Efl; [|discriminate].
    split; [discriminate|].
    apply Forall_forall. intros x Hx.
    pose proof (filter_nil_forall _ _ Efl x Hx) as Hv.
    destruct x as [| | | |s| |]; try discriminate.
    exists s. split; [reflexivity|].
    cbn [ShoppingListValidator.isInvalidCategory] in Hv.
    apply orb_false_iff in Hv. destruct Hv as [_ Hv].
    apply negb_false_iff in Hv. now apply existsb_eqb_In.
Qed.

(** X24 at a request for two recipes. *)
Lemma ribs_request_is_sound :
  exists data ids,
    ShoppingListValidator.sanitizedData
      (ShoppingListValidator.validateShoppingListRequest ribsRequest)
    = Some data
    /\ getProp ribsRequest "recipeIds" = VArr ids
    /\ ShoppingListValidator.recipeIds data = ids
    /\ (1 <= List.length ids <= 50)%nat
    /\ forallb ShoppingListValidator.idIsValid ids = true
    /\ match ShoppingListValidator.listName data with
       | Some name =>
           name <> "" /\ holdsTag name = false
           /\ (utf16Length name <= 200)%nat
       | None => True
       end
    /\ match ShoppingListValidator.scaleMultiplier
               (ShoppingListValidator.options data) with
       | Some m => isFinite m = true /\ PrimFloat.ltb 0 m = true
       | None => True
       end
    /\ match ShoppingListValidator.categoryFilter
               (ShoppingListValidator.options data) with
       | Some categories =>
           categories <> []
           /\ Forall (fun c => exists s,
                        c = VStr s
                        /\ In s ShoppingListValidator.validCategories)
                     categories
       | None => True
       end.
Proof.
  apply (valid_request_is_sound ribsRequest). vm_compute. reflexivity.
Defined.





(** ** Searching recipes *)

Import RecipeManager.










(** ** The two texts of an item *)

(** X28: for an item that has a name, and no quantity or a whole one,
    [formatItem] of the generator and [formatItemText] of the reminder
    formatter give the same text. *)
Theorem display_and_reminder_agree (r : IngredientLine) :
  itemTruthy r = true ->
  match quantity r with
  | Some q => PrimFloat.eqb (rem1 q) 0 = true
  | None => True
  end ->
  formatItem (Some r) = formatItemText (Some r).
Proof.
  intros Hi Hq. unfold formatItem, formatItemText. rewrite Hi. cbn [negb].
  destruct (quantity r) as [q|]; [|reflexivity].
  unfold formatAsFraction. now rewrite Hq.
Qed.

(** X28 at two cups of flour. *)
Lemma two_cups_of_flour_texts :
  formatItem (Some (line (Some 2%float) (Some "cup") "flour"))
  = formatItemText (Some (line (Some 2%float) (Some "cup") "flour")).
Proof.
  apply (display_and_reminder_agree
           (line (Some 2%float) (Some "cup") "flour")).
  - reflexivity.
  - vm_compute. reflexivity.
Defined.

(** ** The cook time *)

Import BBQCalculator.

Lemma not_nan_spec (x : float) :
  PrimFloat.is_nan x = false -> Prim2SF x <> S754_nan.
Proof.
  unfold PrimFloat.is_nan. rewrite FloatAxioms.eqb_spec. intros H E.
  rewrite E in H. discriminate.
Qed.

Lemma mul_finite_not_nan (w r : float) (s : bool) (m : positive) (e : Z) :
  Prim2SF r = S754_finite s m e -> PrimFloat.is_nan w = false ->
  PrimFloat.is_nan (w * r) = false.
Proof.
  intros Hr Hw. apply not_nan_spec in Hw. apply is_nan_false.
  rewrite mul_spec, Hr. unfold SF64mul, SFmul.
  destruct (Prim2SF w) as [sw|sw| |sw mw ew]; try discriminate; [congruence|].
  apply binary_round_aux_not_nan. lia.
Qed.

Lemma digitChar_digit (d : Z) :
  (0 <= d < 10)%Z -> isDigit (digitChar d) = true.
Proof.
  intros H.
  assert (d = 0 \/ d = 1 \/ d = 2 \/ d = 3 \/ d = 4 \/ d = 5 \/ d = 6
          \/ d = 7 \/ d = 8 \/ d = 9)%Z as Hd by lia.
  repeat (destruct Hd as [->|Hd]; [reflexivity|]). now subst.
Qed.

Lemma digitsOfFuel_digit (fuel : nat) (z : Z) (acc : string) :
  startsWith isDigit (digitsOfFuel (S fuel) z acc) = true.
Proof.
  revert z acc. induction fuel as [|fuel IH]; intros z acc.
  - cbn [digitsOfFuel].
    assert (isDigit (digitChar (z mod 10)) = true) as Hd
      by (apply digitChar_digit, Z.mod_pos_bound; lia).
    now destruct (z <? 10)%Z.
  - change (digitsOfFuel (S (S fuel)) z acc)
      with (let acc' := String (digitChar (z mod 10)) acc in
            if (z <? 10)%Z then acc'
            else digitsOfFuel (S fuel) (z / 10) acc').
    cbv zeta. destruct (z <? 10)%Z; [|apply IH].
    apply digitChar_digit, Z.mod_pos_bound. lia.
Qed.

Lemma digitsOf_digit (z : Z) : startsWith isDigit (digitsOf z) = true.
Proof. apply digitsOfFuel_digit. Qed.

Lemma startsWith_append_l (p : ascii -> bool) (a b : string) :
  startsWith p a = true -> startsWith p (a ++ b) = true.
Proof. destruct a; [discriminate|trivial]. Qed.

Lemma startsWith_substring (p : ascii -> bool) (n : nat) (s : string) :
  startsWith p s = true -> startsWith p (substring 0 (S n) s) = true.
Proof. destruct s; [discriminate|trivial]. Qed.

Lemma zeros_length (n : nat) : String.length (zeros n) = n.
Proof. induction n; cbn; auto. Qed.

Lemma fixedDigits_digit (n : Z) (f : nat) :
  startsWith isDigit (fixedDigits n f) = true.
Proof.
  unfold fixedDigits. destruct f as [|f]; [apply digitsOf_digit|].
  pose proof (digitsOf_digit n) as Hd.
  remember (String.length (digitsOf n)) as k eqn:Ek.
  destruct (k <=? S f)%nat eqn:E.
  - apply Nat.leb_le in E.
    rewrite append_length, zeros_length, <- Ek.
    replace (S f + 1 - k + k - S f)%nat with 1%nat by lia.
    apply startsWith_append_l, startsWith_substring.
    replace (S f + 1 - k)%nat with (S (S f - k)) by lia. reflexivity.
  - apply Nat.leb_gt in E. rewrite <- Ek.
    replace (k - S f)%nat with (S (k - S f - 1)) by lia.
    now apply startsWith_append_l, startsWith_substring.
Qed.

Lemma formatDigits_digit (s k n : Z) :
  startsWith isDigit (formatDigits s k n) = true.
Proof.
  unfold formatDigits. pose proof (digitsOf_digit s) as Hd.
  destruct ((k <=? n)%Z && (n <=? 21)%Z); [now apply startsWith_append_l|].
  destruct ((0 <? n)%Z && (n <=? 21)%Z) eqn:E.
  - apply andb_true_iff in E. destruct E as [E _]. apply Z.ltb_lt in E.
    replace (Z.to_nat n) with (S (Z.to_nat n - 1)) by lia.
    now apply startsWith_append_l, startsWith_substring.
  - destruct ((-6 <? n)%Z && (n <=? 0)%Z); [reflexivity|].
    destruct (k =? 1)%Z; [now apply startsWith_append_l|].
    now apply startsWith_append_l, (startsWith_substring _ 0).
Qed.

Lemma opp_not_nan (x : float) :
  PrimFloat.is_nan x = false -> PrimFloat.is_nan (- x) = false.
Proof.
  intros H. apply not_nan_spec in H. apply is_nan_false.
  rewrite opp_spec. destruct (Prim2SF x); cbn; congruence.
Qed.

Lemma parseFloat_after_sign (neg : bool) (r : string) :
  startsWith isDigit r = true ->
  PrimFloat.is_nan
    (if prefix "Infinity" r then withSign neg infinity
     else
       let ip := takeWhile isDigit r in
       let r1 := dropWhile isDigit r in
       let (fp, r2) :=
         match afterChar "." r1 with
         | Some r' => (takeWhile isDigit r', dropWhile isDigit r')
         | None => (EmptyString, r1)
         end in
       if isEmpty ip && isEmpty fp then nan
       else
         withSign neg
           (decimal2F (digitsValue 0 (ip ++ fp))
                      (exponentPart r2 - Z.of_nat (String.length fp))))
  = false.
Proof.
  intros H. destruct r as [|c r]; [discriminate|]. cbn [startsWith] in H.
  destruct (digit_char c H) as (_ & _ & _ & _ & _ & _ & HI & _).
  assert (prefix "Infinity" (String c r) = false) as ->.
  { cbn [prefix]. destruct (ascii_dec "I" c) as [<-|]; [discriminate|].
    reflexivity. }
  cbn [takeWhile dropWhile]. rewrite H.
  destruct (match afterChar "." (dropWhile isDigit r) with
            | Some r' => _ | None => _ end) as [fp r2].
  cbn [isEmpty andb].
  destruct neg; cbn [withSign];
    [apply opp_not_nan|]; apply decimal2F_not_nan.
Qed.

Lemma parseFloat_digits_not_nan (s : string) :
  startsWith isDigit s = true -> PrimFloat.is_nan (parseFloat s) = false.
Proof.
  intros H. unfold parseFloat.
  rewrite (trimStart_digit s H), (splitSign_digits s H).
  now apply parseFloat_after_sign.
Qed.

Lemma parseFloat_negative_not_nan (s : string) :
  startsWith isDigit s = true ->
  PrimFloat.is_nan (parseFloat ("-" ++ s)) = false.
Proof.
  intros H. unfold parseFloat.
  change (trimStart ("-" ++ s)) with (String "-" s).
  change (splitSign (String "-" s)) with (true, s).
  now apply parseFloat_after_sign.
Qed.

Lemma parseFloat_signed_not_nan (sg : bool) (s : string) :
  startsWith isDigit s = true ->
  PrimFloat.is_nan (parseFloat ((if sg then "-" else "") ++ s)) = false.
Proof.
  destruct sg; [apply parseFloat_negative_not_nan|].
  apply parseFloat_digits_not_nan.
Qed.

Lemma toFixed_reads_back (x : float) (f : nat) :
  PrimFloat.is_nan x = false ->
  PrimFloat.is_nan (parseFloat (toFixed x f)) = false.
Proof.
  intros H. apply not_nan_spec in H.
  unfold toFixed, numberToString.
  destruct (Prim2SF x) as [s|[|]| |s m e] eqn:E; try congruence.
  - apply parseFloat_digits_not_nan, fixedDigits_digit.
  - reflexivity.
  - reflexivity.
  - destruct (PrimFloat.leb 1e21 (PrimFloat.abs x)).
    + destruct (shortestFrom _ _ _ _ _ _) as [[ds k] n].
      apply parseFloat_signed_not_nan, formatDigits_digit.
    + apply parseFloat_signed_not_nan, fixedDigits_digit.
Qed.

Lemma zero_is_not_above (w : float) :
  PrimFloat.eqb w 0 = true -> PrimFloat.leb w 0 = true.
Proof.
  rewrite FloatAxioms.eqb_spec, leb_spec.
  unfold SFeqb, SFleb. now destruct (SFcompare _ _) as [[| |]|].
Qed.

Lemma weight_guard (w : float) :
  negb (truthy (VNum w)) || PrimFloat.leb w 0
  = PrimFloat.is_nan w || PrimFloat.leb w 0.
Proof.
  cbn [truthy]. rewrite negb_involutive.
  destruct (PrimFloat.eqb w 0) eqn:E; [|reflexivity].
  rewrite (zero_is_not_above w E). now rewrite !orb_true_r.
Qed.

(** X29: [calculateCookTime] throws the message of invalid input exactly when
    the weight is NaN or not positive or the meat type is empty.
    Otherwise ribs and whole chicken take their fixed times whatever the
    weight, brisket and pork shoulder take the weight times their rate,
    rounded to one decimal; the name of a member of [Object.prototype]
    gives NaN hours; any other meat type throws a message that names
    it. *)
Theorem calculateCookTime_outcome :
  (forall weight meatType,
     calculateCookTime weight meatType
     = Throw "Invalid weight or meat type provided"
     <-> PrimFloat.is_nan weight = true \/ PrimFloat.leb weight 0 = true
         \/ meatType = "")
  /\ (forall weight,
        PrimFloat.is_nan weight = false -> PrimFloat.leb weight 0 = false ->
        calculateCookTime weight "ribs"
        = Ok {| timeHours := 5.5;
                description :=
                  Some ("5-6 hours total using 3-2-1 method<br>"
                        ++ "Weight doesn't significantly affect time") |}
        /\ calculateCookTime weight "whole_chicken"
           = Ok {| timeHours := 3.5;
                   description :=
                     Some "3-4 hours at 325°F<br>Higher temp for crispy skin"
                |}
        /\ (exists r,
              calculateCookTime weight "brisket" = Ok r
              /\ timeHours r = parseFloat (toFixed (weight * 1.25) 1)
              /\ PrimFloat.is_nan (timeHours r) = false)
        /\ (exists r,
              calculateCookTime weight "pork_shoulder" = Ok r
              /\ timeHours r = parseFloat (toFixed (weight * 1.5) 1)
              /\ PrimFloat.is_nan (timeHours r) = false)
        /\ (forall meatType,
              isInherited meatType = true ->
              calculateCookTime weight meatType
              = Ok {| timeHours := nan; description := None |})
        /\ (forall meatType,
              meatType <> "" -> assoc meatType meatTypes = None ->
              isInherited meatType = false ->
              calculateCookTime weight meatType
              = Throw ("Unsupported meat type: " ++ meatType))).
Proof.
  split.
  - intros weight meatType. unfold calculateCookTime.
    rewrite <- orb_assoc, (orb_comm (isEmpty meatType)), orb_assoc,
      weight_guard.
    destruct (PrimFloat.is_nan weight); [cbn; tauto|].
    destruct (PrimFloat.leb weight 0); [cbn; tauto|].
    destruct meatType as [|c m]; [cbn; tauto|]. cbn [isEmpty orb].
    split.
    + destruct (assoc (String c m) meatTypes) as [cfg|].
      * destruct (fixedTimeOf cfg); discriminate.
      * destruct (isInherited (String c m)); discriminate.
    + intros [H|[H|H]]; discriminate.
  - intros weight Hn Hw.
    assert (forall m, m <> "" ->
              negb (truthy (VNum weight)) || isEmpty m
              || PrimFloat.leb weight 0 = false) as Hg.
    { intros m Hm.
      rewrite <- orb_assoc, (orb_comm (isEmpty m)), orb_assoc, weight_guard.
      rewrite Hn, Hw. now destruct m. }
    split; [|split; [|split; [|split; [|split]]]].
    + unfold calculateCookTime. now rewrite Hg.
    + unfold calculateCookTime. now rewrite Hg.
    + unfold calculateCookTime. rewrite Hg by discriminate.
      eexists. split; [reflexivity|]. cbn [timeHours timesRate timePerLb].
      split; [reflexivity|]. apply toFixed_reads_back.
      now apply (mul_finite_not_nan weight 1.25 false
                   5629499534213120 (-52)).
    + unfold calculateCookTime. rewrite Hg by discriminate.
      eexists. split; [reflexivity|]. cbn [timeHours timesRate timePerLb].
      split; [reflexivity|]. apply toFixed_reads_back.
      now apply (mul_finite_not_nan weight 1.5 false
                   6755399441055744 (-52)).
    + intros meatType Hi. unfold calculateCookTime.
      rewrite Hg by (intros ->; discriminate).
      destruct (assoc meatType meatTypes) as [cfg|] eqn:Ea.
      * exfalso. apply assoc_In in Ea. cbn in Ea.
        repeat (destruct Ea as [Ea|Ea];
                [injection Ea as <- _; discriminate|]).
        contradiction.
      * now rewrite Hi.
    + intros meatType Hm Ha Hi. unfold calculateCookTime.
      now rewrite (Hg _ Hm), Ha, Hi.
Qed.
